(** * Spreadsheet cleaning scripts: row filtering and fuzzy de-duplication

    A shallow embedding of [filter.py] (composable row filters over a
    table) and [main.py] (removal of facility records whose name fuzzily
    matches a reference name), with the properties of both pipelines.

    Conventions of the embedding.
    - Text is ASCII text ([string]); case folding and white space follow
      Python's [str] methods on that range.
    - A table cell is a missing value ([CNaN], [CNaT]), a string, an
      integer or a date-time.  Floating-point cells are not represented.
    - A table is a list of labelled rows over a list of column names.
      The dtype of a column is read off its cells: datetime64 for a
      column, not empty, of date-times and [NaT], object otherwise.  On a
      column of dtype object the pandas operations used by the scripts
      act element by element (pandas 2, where [astype(str)] writes a
      missing value as the text "nan"); a column of dates is compared
      with a text by parsing the text, and is rendered as text as a
      whole, without the times when every time is midnight.
    - Date formats are well-formed [strptime] formats.
    - Library routines whose text algorithms are not part of the scripts
      (fuzzywuzzy's [fuzz.ratio], [re.search], [strptime], the rendering
      of date-times and lists by [str]) are operations of the class
      [Runtime]; every general theorem holds for all of them. *)

From Stdlib Require Import ZArith Ascii.
From stdpp Require Import gmap strings list pretty.

Open Scope Z_scope.

(** ** Python runtime: exceptions, strings, values *)

Inductive exn :=
  | FileNotFoundError (msg : string)
  | KeyError (msg : string)
  | ValueError
  | TypeError
  | AttributeError
  | ReError.

Inductive result (A : Type) :=
  | Ok (a : A)
  | Raise (e : exn).
Arguments Ok {A} a.
Arguments Raise {A} e.

Global Instance result_ret : MRet result := λ A a, Ok a.
Global Instance result_bind : MBind result := λ A B k r,
  match r with
  | Ok a => k a
  | Raise e => Raise e
  end.

Definition is_ok {A} (r : result A) : bool :=
  match r with Ok _ => true | Raise _ => false end.

(** [str.isspace] on the ASCII range: TAB..CR, FS..US and the blank. *)
Definition isspace (c : ascii) : bool :=
  let n := N_of_ascii c in
  (((9 <=? n) && (n <=? 13)) || ((28 <=? n) && (n <=? 32)))%N.

Definition lower_char (c : ascii) : ascii :=
  let n := N_of_ascii c in
  if ((65 <=? n) && (n <=? 90))%N then ascii_of_N (n + 32) else c.

(** [s.lower()] *)
Fixpoint lower (s : string) : string :=
  match s with
  | EmptyString => EmptyString
  | String c s' => String (lower_char c) (lower s')
  end.

Fixpoint lstrip (s : string) : string :=
  match s with
  | EmptyString => EmptyString
  | String c s' => if isspace c then lstrip s' else s
  end.

Definition rstrip (s : string) : string := String.rev (lstrip (String.rev s)).

(** [s.strip()] *)
Definition strip (s : string) : string := rstrip (lstrip s).

Definition flush (word : string) : list string :=
  match word with
  | EmptyString => []
  | _ => [String.rev word]
  end.

(** [word] holds the characters of the word being read, last one first. *)
Fixpoint split_from (word s : string) : list string :=
  match s with
  | EmptyString => flush word
  | String c s' =>
      if isspace c then flush word ++ split_from EmptyString s'
      else split_from (String c word) s'
  end.

(** [s.split()]: the maximal runs of characters that are not white space. *)
Definition split (s : string) : list string := split_from EmptyString s.

(** [s.startswith(p)] *)
Definition startswith (s p : string) : bool := String.prefix p s.

Fixpoint find_sub (p s : string) : bool :=
  String.prefix p s ||
  match s with
  | EmptyString => false
  | String _ s' => find_sub p s'
  end.

(** Date-times by their calendar fields, as [datetime.datetime]. *)
Record datetime := DateTime {
  year : Z; month : Z; day : Z;
  hour : Z; minute : Z; second : Z
}.

(** The value of [t.date()]. *)
Record date := Date { d_year : Z; d_month : Z; d_day : Z }.

Definition date_of (t : datetime) : date :=
  Date (year t) (month t) (day t).

Definition date_compare (a b : date) : comparison :=
  match d_year a ?= d_year b with
  | Eq =>
      match d_month a ?= d_month b with
      | Eq => d_day a ?= d_day b
      | c => c
      end
  | c => c
  end.

Definition datetime_compare (a b : datetime) : comparison :=
  match date_compare (date_of a) (date_of b) with
  | Eq =>
      ((hour a * 60 + minute a) * 60 + second a
       ?= (hour b * 60 + minute b) * 60 + second b)
  | c => c
  end.

(** A scalar held in a table cell.  [CNaN] is the missing value of a
    numeric or text column, [CNaT] the missing date. *)
Inductive cell :=
  | CNaN
  | CNaT
  | CStr (s : string)
  | CInt (n : Z)
  | CTime (t : datetime).

(** A Python value passed to the scripts: a scalar or a list of scalars. *)
Inductive value :=
  | VCell (c : cell)
  | VList (l : list cell).

Global Instance datetime_eq_dec : EqDecision datetime.
Proof. solve_decision. Defined.
Global Instance date_eq_dec : EqDecision date.
Proof. solve_decision. Defined.
Global Instance cell_eq_dec : EqDecision cell.
Proof. solve_decision. Defined.
Global Instance exn_eq_dec : EqDecision exn.
Proof. solve_decision. Defined.

(** [pd.isna(x)] on a scalar. *)
Definition isna (c : cell) : bool :=
  match c with
  | CNaN | CNaT => true
  | _ => false
  end.

(** Library routines used by the scripts. *)
Class Runtime := {
  (** [fuzz.ratio(a, b)], a score between 0 and 100 *)
  fuzz_ratio : string → string → Z;
  (** whether [re.compile(pattern)] succeeds, and
      [re.search(pattern, text) is not None] for such a pattern *)
  re_valid : string → bool;
  re_search : string → string → bool;
  (** [strptime(text, format)]; [None] when the text does not fit *)
  strptime : string → string → option datetime;
  (** [pd.Timestamp(text)], the reading of a text that is compared with
      a column of dates; [None] when pandas reads no date in it *)
  timestamp : string → option datetime;
  (** [str] of a date-time, of a date and of a list *)
  str_datetime : datetime → string;
  str_date : date → string;
  str_list : list cell → string
}.

(** ** pandas: tables, columns and the operations the scripts use *)

(** A row carries its index label and its cells by column name. *)
Record Row := mkRow { label : nat; cells : gmap string cell }.

Record DataFrame := mkDF { columns : list string; rows : list Row }.

(** A column taken out of a table, and a boolean mask over its rows. *)
Abbreviation Series := (list cell).
Abbreviation Mask := (list bool).

(** The spreadsheet files, by path. *)
Abbreviation Files := (gmap string DataFrame).

Section Scripts.
Context `{RT : Runtime}.

(** [str(x)] *)
Definition str_cell (c : cell) : string :=
  match c with
  | CNaN => "nan"
  | CNaT => "NaT"
  | CStr s => s
  | CInt n => pretty n
  | CTime t => str_datetime t
  end.

Definition str (v : value) : string :=
  match v with
  | VCell c => str_cell c
  | VList l => str_list l
  end.

Definition cell_at (col : string) (r : Row) : cell :=
  default CNaN (cells r !! col).

Definition set_cell (col : string) (x : cell) (r : Row) : Row :=
  mkRow (label r) (<[col := x]> (cells r)).

Definition has_column (df : DataFrame) (col : string) : bool :=
  bool_decide (col ∈ columns df).

(** [df[col]] *)
Definition getitem (df : DataFrame) (col : string) : result Series :=
  if has_column df col then Ok (cell_at col <$> rows df)
  else Raise (KeyError col).

(** [df[col] = s] *)
Definition setitem (df : DataFrame) (col : string) (s : Series) : DataFrame :=
  mkDF (if has_column df col then columns df else columns df ++ [col])
       (zip_with (set_cell col) s (rows df)).

(** [df[mask]]: the rows whose mask entry is true, labels kept. *)
Fixpoint boolean_index (rs : list Row) (mask : Mask) : list Row :=
  match rs, mask with
  | r :: rs', b :: mask' =>
      if b then r :: boolean_index rs' mask' else boolean_index rs' mask'
  | _, _ => []
  end.

Definition select (df : DataFrame) (mask : Mask) : DataFrame :=
  mkDF (columns df) (boolean_index (rows df) mask).

(** [pd.Series(b, index=df.index)] *)
Definition full_mask (b : bool) (df : DataFrame) : Mask :=
  (λ _, b) <$> rows df.

(** [m1 | m2] *)
Definition mask_or (m1 m2 : Mask) : Mask := zip_with orb m1 m2.

Definition is_datetime_cell (x : cell) : bool :=
  match x with
  | CTime _ | CNaT => true
  | _ => false
  end.

(** [pd.api.types.is_datetime64_any_dtype(s)]: the dtype is read off the
    cells, a date column holding date-times and [NaT] only. *)
Definition is_datetime64_any_dtype (s : Series) : bool :=
  forallb is_datetime_cell s.

(** The dtype of a column that is compared or rendered: [datetime64] for
    a column, not empty, of date-times and [NaT].  A column without rows
    has no cell to tell its dtype: it is compared and rendered as the
    column of dtype object that [read_excel] gives, and the test above
    takes it for a column of dates (its conversion changes nothing). *)
Definition datetime64 (s : Series) : bool :=
  match s with
  | [] => false
  | _ => is_datetime64_any_dtype s
  end.

(** Texts that pandas reads as a missing date. *)
Definition nat_strings : list string :=
  [""; "NaT"; "nat"; "NAT"; "nan"; "NaN"; "NAN"].

(** Parsing of one text by [pd.to_datetime(_, format=fmt)]; [None] when
    the text does not fit the format. *)
Definition parse_datetime (fmt s : string) : option cell :=
  if bool_decide (s ∈ nat_strings) then Some CNaT
  else CTime <$> strptime s fmt.

(** One element of [pd.to_datetime(s, format=fmt, errors='coerce')]. *)
Definition to_datetime_cell (fmt : string) (x : cell) : cell :=
  match x with
  | CNaN | CNaT => CNaT
  | CTime t => CTime t
  | CStr s => default CNaT (parse_datetime fmt s)
  | CInt n => default CNaT (parse_datetime fmt (pretty n))
  end.

Definition to_datetime_coerce (fmt : string) (s : Series) : Series :=
  to_datetime_cell fmt <$> s.

(** [pd.to_datetime(text, format=fmt)] on a single text: a failure to
    parse raises. *)
Definition to_datetime_scalar (fmt s : string) : result value :=
  match parse_datetime fmt s with
  | Some x => Ok (VCell x)
  | None => Raise ValueError
  end.

(** [v.date()]; [None] stands for [NaT], which [NaT.date()] returns. *)
Definition date_method (v : value) : result (option date) :=
  match v with
  | VCell (CTime t) => Ok (Some (date_of t))
  | VCell CNaT => Ok None
  | _ => Raise AttributeError
  end.

(** [s.dt.date]: [None] stands for [NaT]. *)
Definition dt_date (s : Series) : result (list (option date)) :=
  if is_datetime64_any_dtype s then
    Ok ((λ x, match x with CTime t => Some (date_of t) | _ => None end) <$> s)
  else Raise AttributeError.

Definition is_eq (c : comparison) : bool :=
  match c with Eq => true | _ => false end.
Definition is_gt (c : comparison) : bool :=
  match c with Gt => true | _ => false end.
Definition is_lt (c : comparison) : bool :=
  match c with Lt => true | _ => false end.

(** Comparison of two dates, either of which may be missing: a missing
    date compares false. *)
Definition date_test (test : comparison → bool) (a b : option date) : bool :=
  match a, b with
  | Some a, Some b => test (date_compare a b)
  | _, _ => false
  end.

(** [ds == d] *)
Definition dates_equal (ds : list (option date)) (d : option date) : Mask :=
  (λ o, date_test is_eq o d) <$> ds.

(** The dates of a column, not empty, are all missing: [.dt.date] then
    gives a column of dtype datetime64 again, not one of dates. *)
Definition all_missing (ds : list (option date)) : bool :=
  match ds with
  | [] => false
  | _ => forallb (λ o, match o with None => true | Some _ => false end) ds
  end.

(** [ds > d] and [ds < d]: a column of dtype datetime64 cannot be ordered
    against a date. *)
Definition dates_compare (test : comparison → bool)
    (ds : list (option date)) (d : option date) : result Mask :=
  match d with
  | Some _ =>
      if all_missing ds then Raise TypeError
      else Ok ((λ o, date_test test o d) <$> ds)
  | None => Ok ((λ _, false) <$> ds)
  end.

Definition midnight (t : datetime) : bool :=
  (hour t =? 0) && (minute t =? 0) && (second t =? 0).

(** Every date-time of the column is a midnight. *)
Definition dates_only (s : Series) : bool :=
  forallb (λ x, match x with CTime t => midnight t | _ => true end) s.

(** [s.astype(str)]: element by element on a column of dtype object; a
    column of dates is rendered as a whole, by the dates alone when
    every time is midnight. *)
Definition astype_str (s : Series) : Series :=
  if datetime64 s && dates_only s then
    (λ x, CStr match x with
               | CTime t => str_date (date_of t)
               | _ => str_cell x
               end) <$> s
  else (λ x, CStr (str_cell x)) <$> s.

(** [x == y] on two scalars, as the elements of a column of dtype object
    are compared; a missing value equals nothing. *)
Definition cell_eqb (x y : cell) : bool :=
  match x, y with
  | CStr a, CStr b => String.eqb a b
  | CInt a, CInt b => a =? b
  | CTime a, CTime b => is_eq (datetime_compare a b)
  | _, _ => false
  end.

(** [x > y] and [x < y] on two scalars, as the elements of a column of
    dtype object are compared: a missing value compares false, values of
    one type by their order, values of two types raise. *)
Definition cell_compare (test : comparison → bool) (x y : cell) : result bool :=
  if isna x || isna y then Ok false
  else
    match x, y with
    | CStr a, CStr b => Ok (test (String.compare a b))
    | CInt a, CInt b => Ok (test (a ?= b))
    | CTime a, CTime b => Ok (test (datetime_compare a b))
    | _, _ => Raise TypeError
    end.

Fixpoint traverse {A B} (f : A → result B) (l : list A) : result (list B) :=
  match l with
  | [] => Ok []
  | x :: l' => y ← f x; ys ← traverse f l'; Ok (y :: ys)
  end.

(** A text as a column of dates reads it: a date-time, the missing date,
    or nothing. *)
Definition scalar_from_string (t : string) : option cell :=
  if bool_decide (t ∈ nat_strings) then Some CNaT else CTime <$> timestamp t.

(** [s == v]: against a scalar element by element, a column of dates
    parsing a text first (a text without a date equals nothing); against
    a list position by position, the lengths having to agree. *)
Definition series_eq (s : Series) (v : value) : result Mask :=
  match v with
  | VCell y =>
      if datetime64 s then
        match y with
        | CStr t =>
            match scalar_from_string t with
            | Some y' => Ok ((λ x, cell_eqb x y') <$> s)
            | None => Ok ((λ _, false) <$> s)
            end
        | _ => Ok ((λ x, cell_eqb x y) <$> s)
        end
      else Ok ((λ x, cell_eqb x y) <$> s)
  | VList l =>
      if bool_decide (length l = length s) then Ok (zip_with cell_eqb s l)
      else Raise ValueError
  end.

(** [s > v] and [s < v]: a column of dates is ordered against a
    date-time, the missing date, or a text in which a date is read, and
    against nothing else. *)
Definition series_compare (test : comparison → bool)
    (s : Series) (v : value) : result Mask :=
  match v with
  | VCell y =>
      if datetime64 s then
        match y with
        | CStr t =>
            match scalar_from_string t with
            | Some y' => traverse (λ x, cell_compare test x y') s
            | None => Raise TypeError
            end
        | CTime _ | CNaT => traverse (λ x, cell_compare test x y) s
        | CNaN | CInt _ => Raise TypeError
        end
      else traverse (λ x, cell_compare test x y) s
  | VList l =>
      if bool_decide (length l = length s) then
        traverse (λ xy, cell_compare test xy.1 xy.2) (zip s l)
      else Raise ValueError
  end.

(** [s.isin(v)]: [v] has to be a list.  A column of dates reads a list
    of texts as the dates they spell, when each of them spells one. *)
Definition isin_list (s : Series) (l : list cell) : Mask :=
  (λ x, bool_decide (x ∈ l)) <$> s.

Definition dates_of_texts (l : list cell) : option (list cell) :=
  mapM (λ y, match y with
             | CStr t => scalar_from_string t
             | _ => None
             end) l.

Definition isin (s : Series) (v : value) : result Mask :=
  match v with
  | VList l =>
      if datetime64 s then Ok (isin_list s (default l (dates_of_texts l)))
      else Ok (isin_list s l)
  | VCell _ => Raise TypeError
  end.

(** [~m] *)
Definition mask_not (m : Mask) : Mask := negb <$> m.

(** [s.str.contains(pat, na=False)]: [pat] is a regular expression; an
    element that is not a string counts as missing. *)
Definition str_contains (s : Series) (pat : string) : result Mask :=
  if re_valid pat then
    Ok ((λ x, match x with CStr a => re_search pat a | _ => false end) <$> s)
  else Raise ReError.

(** [s.str.startswith(pat)], on a column of strings. *)
Definition str_startswith (s : Series) (pat : string) : Mask :=
  (λ x, match x with CStr a => startswith a pat | _ => false end) <$> s.

(** ** filter.py *)

Record FilterCondition := mkCondition {
  column : string;
  value_of : value;
  condition : string;
  date_format : string
}.

Record FilterGroup := mkGroup { conditions : list FilterCondition }.

(** An element of [filter_groups]. *)
Inductive filter_item :=
  | Single (c : FilterCondition)
  | Group (g : FilterGroup).

Definition default_date_format : string := "%d/%m/%Y".

(** [apply_filter_condition(df, condition)]: the mask, together with the
    table as the call leaves it (a column may have been converted). *)
Definition apply_filter_condition (df : DataFrame) (c : FilterCondition)
    : result (DataFrame * Mask) :=
  if startswith (condition c) "date_" then
    col ← getitem df (column c);
    let df :=
      if negb (is_datetime64_any_dtype col)
      then setitem df (column c) (to_datetime_coerce (date_format c) col)
      else df in
    filter_date ←
      match value_of c with
      | VCell (CStr s) => to_datetime_scalar (date_format c) s
      | v => Ok v
      end;
    if String.eqb (condition c) "date_equals" then
      col ← getitem df (column c);
      ds ← dt_date col;
      d ← date_method filter_date;
      Ok (df, dates_equal ds d)
    else if String.eqb (condition c) "date_greater" then
      col ← getitem df (column c);
      ds ← dt_date col;
      d ← date_method filter_date;
      m ← dates_compare is_gt ds d;
      Ok (df, m)
    else if String.eqb (condition c) "date_less" then
      col ← getitem df (column c);
      ds ← dt_date col;
      d ← date_method filter_date;
      m ← dates_compare is_lt ds d;
      Ok (df, m)
    else Ok (df, full_mask true df)
  else
    df ←
      (if bool_decide (condition c ∈ ["contains"; "starts_with"]) then
         col ← getitem df (column c);
         Ok (setitem df (column c) (astype_str col))
       else Ok df);
    if String.eqb (condition c) "equals" then
      col ← getitem df (column c);
      m ← series_eq col (value_of c);
      Ok (df, m)
    else if String.eqb (condition c) "contains" then
      col ← getitem df (column c);
      m ← str_contains col (str (value_of c));
      Ok (df, m)
    else if String.eqb (condition c) "starts_with" then
      col ← getitem df (column c);
      Ok (df, str_startswith col (str (value_of c)))
    else if String.eqb (condition c) "in" then
      col ← getitem df (column c);
      m ← isin col (value_of c);
      Ok (df, m)
    else if String.eqb (condition c) "greater_than" then
      col ← getitem df (column c);
      m ← series_compare is_gt col (value_of c);
      Ok (df, m)
    else if String.eqb (condition c) "less_than" then
      col ← getitem df (column c);
      m ← series_compare is_lt col (value_of c);
      Ok (df, m)
    else Ok (df, full_mask true df).

Definition column_not_found (col : string) : exn :=
  KeyError ("Column '" +:+ col +:+ "' not found in the Excel file").

(** The inner loop of [filter_excel_data] over the conditions of a group. *)
Fixpoint or_conditions (df : DataFrame) (group_mask : Mask)
    (cs : list FilterCondition) : result (DataFrame * Mask) :=
  match cs with
  | [] => Ok (df, group_mask)
  | c :: cs' =>
      if negb (has_column df (column c)) then Raise (column_not_found (column c))
      else
        '(df, condition_mask) ← apply_filter_condition df c;
        or_conditions df (mask_or group_mask condition_mask) cs'
  end.

(** One round of the outer loop. *)
Definition filter_step (df : DataFrame) (group : filter_item) : result DataFrame :=
  match group with
  | Single c =>
      if negb (has_column df (column c)) then Raise (column_not_found (column c))
      else
        '(df, mask) ← apply_filter_condition df c;
        Ok (select df mask)
  | Group g =>
      '(df, group_mask) ← or_conditions df (full_mask false df) (conditions g);
      Ok (select df group_mask)
  end.

Fixpoint filter_loop (df : DataFrame) (filter_groups : list filter_item)
    : result DataFrame :=
  match filter_groups with
  | [] => Ok df
  | group :: rest => df ← filter_step df group; filter_loop df rest
  end.

(** [df.to_excel(path, index=False)]: the labels are not written. *)
Definition reset_index (df : DataFrame) : DataFrame :=
  mkDF (columns df) (imap (λ i r, mkRow i (cells r)) (rows df)).

Definition to_excel (fs : Files) (path : string) (df : DataFrame) : Files :=
  <[path := reset_index df]> fs.

(** [df.to_csv(path, index=False)] *)
Definition to_csv (fs : Files) (path : string) (df : DataFrame) : Files :=
  <[path := reset_index df]> fs.

(** [filter_excel_data(input_file, filter_groups, output_file=None)]: the
    files after the call and what the call returns or raises. *)
Definition filter_excel_data (fs : Files) (input_file : string)
    (filter_groups : list filter_item) (output_file : option string)
    : Files * result DataFrame :=
  match fs !! input_file with
  | None => (fs, Raise (FileNotFoundError ("Input file not found: " +:+ input_file)))
  | Some df =>
      match filter_loop df filter_groups with
      | Raise e => (fs, Raise e)
      | Ok df =>
          match output_file with
          | Some path =>
              if bool_decide (path = "") then (fs, Ok df)
              else (to_excel fs path df, Ok df)
          | None => (fs, Ok df)
          end
      end
  end.

(** ** main.py *)

Definition RESPONSES_FILE : string := "spreadsheets/responses.csv".
Definition REGISTRY_FILE : string := "spreadsheets/registry.xlsx".
Definition SURVEILLANCE_FILE : string := "spreadsheets/surveillance.xlsx".
Definition COLUMN_KEY : string := "NAME OF FACILITY".

(** The name parts of [is_similar_name]:
    [set(str(name).lower().strip().split())]. *)
Definition name_parts (name : cell) : gset string :=
  list_to_set (split (strip (lower (str_cell name)))).

(** [max(xs, default=d)] *)
Definition max_default (d : Z) (xs : list Z) : Z :=
  match xs with
  | [] => d
  | x :: xs' => foldl Z.max x xs'
  end.

(** The best score of [part1] among the parts of the other name. *)
Definition best_match (part1 : string) (parts2 : gset string) : Z :=
  max_default 0 (fuzz_ratio part1 <$> elements parts2).

(** [is_similar_name(name1, name2, threshold=80)]; [None] stands for an
    omitted threshold.  The last line is
    [len(best_matches) > 0 and min(best_matches) >= threshold]. *)
Definition is_similar_name (name1 name2 : cell) (threshold : option Z) : bool :=
  let threshold := default 80 threshold in
  if isna name1 || isna name2 then false
  else
    let parts1 := name_parts name1 in
    let parts2 := name_parts name2 in
    if 1 <? Z.abs (Z.of_nat (size parts1) - Z.of_nat (size parts2)) then false
    else
      let best_matches := (λ part1, best_match part1 parts2) <$> elements parts1 in
      match best_matches with
      | [] => false
      | b :: bs => threshold <=? foldl Z.min b bs
      end.

(** [read_file_safe(path, header)]: the table of the file as read with
    the header row the script asks for, or [None] when the file is
    missing or unreadable. *)
Definition read_file_safe (fs : Files) (file_path : string) : option DataFrame :=
  fs !! file_path.

(** The inner loop of [remove_duplicates], left at the first similar
    name. *)
Fixpoint first_similar (response_name : cell) (names : list cell)
    (threshold : Z) : option cell :=
  match names with
  | [] => None
  | check_name :: rest =>
      if is_similar_name response_name check_name (Some threshold)
      then Some check_name
      else first_similar response_name rest threshold
  end.

(** The outer loop: the removed rows, each with the name it matched. *)
Fixpoint find_matches (rs : list Row) (names : list cell) (threshold : Z)
    : list (Row * cell) :=
  match rs with
  | [] => []
  | row :: rs' =>
      let response_name := cell_at COLUMN_KEY row in
      match first_similar response_name names threshold with
      | Some check_name => (row, check_name) :: find_matches rs' names threshold
      | None => find_matches rs' names threshold
      end
  end.

(** The list [removed_names] after the loop. *)
Definition removed_names (df_responses : DataFrame) (names : list cell)
    (threshold : Z) : list cell :=
  (λ m, cell_at COLUMN_KEY m.1) <$> find_matches (rows df_responses) names threshold.

(** The table [df_removed], with its column of matches: a column of the
    responses that has this name is overwritten, none is added then. *)
Definition removed_table (df_responses : DataFrame) (names : list cell)
    (threshold : Z) : DataFrame :=
  mkDF (if has_column df_responses "Matched With" then columns df_responses
        else columns df_responses ++ ["Matched With"])
       ((λ m, set_cell "Matched With" m.2 m.1)
          <$> find_matches (rows df_responses) names threshold).

(** [df_responses[~df_responses[COLUMN_KEY].isin(removed_names)]] *)
Definition responses_filtered (df_responses : DataFrame) (names : list cell)
    (threshold : Z) : DataFrame :=
  select df_responses
    (mask_not (isin_list (cell_at COLUMN_KEY <$> rows df_responses)
                         (removed_names df_responses names threshold))).

Definition removed_file : string := "spreadsheets/removed_facilities.xlsx".
(** [RESPONSES_FILE] with its extension replaced. *)
Definition backup_file : string := "spreadsheets/responses_backup.csv".
Definition output_file_name : string := "spreadsheets/responses_filtered.xlsx".

(** [remove_duplicates(similarity_threshold=75)]: the files after the
    call; [None] stands for an omitted threshold. *)
Definition remove_duplicates (fs : Files) (similarity_threshold : option Z) : Files :=
  let similarity_threshold := default 75 similarity_threshold in
  match read_file_safe fs RESPONSES_FILE,
        read_file_safe fs REGISTRY_FILE,
        read_file_safe fs SURVEILLANCE_FILE with
  | Some df_responses, Some df_registry, Some df_surveillance =>
      if negb (has_column df_responses COLUMN_KEY
               && has_column df_registry COLUMN_KEY
               && has_column df_surveillance COLUMN_KEY)
      then fs
      else
        let registry_names := cell_at COLUMN_KEY <$> rows df_registry in
        let surveillance_names := cell_at COLUMN_KEY <$> rows df_surveillance in
        let all_names_to_check := registry_names ++ surveillance_names in
        let df_removed :=
          removed_table df_responses all_names_to_check similarity_threshold in
        let fs :=
          match rows df_removed with
          | [] => fs
          | _ => to_excel fs removed_file df_removed
          end in
        let df_responses_filtered :=
          responses_filtered df_responses all_names_to_check similarity_threshold in
        let fs := to_csv fs backup_file df_responses in
        to_excel fs output_file_name df_responses_filtered
  | _, _, _ => fs
  end.

End Scripts.

(** ** A runtime to evaluate the scripts on examples

    [fuzz.ratio] by the longest common subsequence (the Levenshtein
    ratio), regular expressions without metacharacters, date formats of
    zero-padded numeric fields, date texts in the ISO form. *)

Fixpoint lcs (xs ys : list ascii) {struct xs} : nat :=
  match xs with
  | [] => 0%nat
  | x :: xs' =>
      (fix along (ys : list ascii) : nat :=
         match ys with
         | [] => 0%nat
         | y :: ys' =>
             if bool_decide (x = y) then S (lcs xs' ys')
             else Nat.max (lcs xs' ys) (along ys')
         end) ys
  end.

(** [int(round(n / d))] for [0 ≤ n], [0 < d]: halves go to the even side. *)
Definition round_div (n d : Z) : Z :=
  let q := n / d in
  let r := n mod d in
  if 2 * r <? d then q
  else if d <? 2 * r then q + 1
  else if Z.even q then q else q + 1.

Definition lcs_ratio (a b : string) : Z :=
  if bool_decide (a = b) then 100
  else if bool_decide (a = "") || bool_decide (b = "") then 0
  else
    let xs := String.list_ascii_of_string a in
    let ys := String.list_ascii_of_string b in
    round_div (200 * Z.of_nat (lcs xs ys)) (Z.of_nat (length xs + length ys)).

Definition metachars : list ascii :=
  String.list_ascii_of_string ".^$*+?{}[]\|()".

Definition literal_pattern (p : string) : bool :=
  forallb (λ c, bool_decide (c ∉ metachars)) (String.list_ascii_of_string p).

Definition digit (c : ascii) : option Z :=
  let n := Z.of_N (N_of_ascii c) in
  if (48 <=? n) && (n <=? 57) then Some (n - 48) else None.

(** Reads [k] digits off the front of [s]. *)
Fixpoint read_digits (k : nat) (acc : Z) (s : string) : option (Z * string) :=
  match k with
  | O => Some (acc, s)
  | S k' =>
      match s with
      | String c s' => d ← digit c; read_digits k' (10 * acc + d) s'
      | EmptyString => None
      end
  end.

Definition set_field (f : ascii) (n : Z) (t : datetime) : option datetime :=
  match f with
  | "Y"%char => Some (DateTime n (month t) (day t) (hour t) (minute t) (second t))
  | "m"%char => Some (DateTime (year t) n (day t) (hour t) (minute t) (second t))
  | "d"%char => Some (DateTime (year t) (month t) n (hour t) (minute t) (second t))
  | "H"%char => Some (DateTime (year t) (month t) (day t) n (minute t) (second t))
  | "M"%char => Some (DateTime (year t) (month t) (day t) (hour t) n (second t))
  | "S"%char => Some (DateTime (year t) (month t) (day t) (hour t) (minute t) n)
  | _ => None
  end.

Fixpoint parse_fields (fmt s : string) (t : datetime) : option datetime :=
  match fmt with
  | EmptyString => if bool_decide (s = "") then Some t else None
  | String "%"%char (String f fmt') =>
      '(n, s') ← read_digits (if bool_decide (f = "Y"%char) then 4 else 2) 0 s;
      t' ← set_field f n t;
      parse_fields fmt' s' t'
  | String c fmt' =>
      match s with
      | String c' s' => if bool_decide (c = c') then parse_fields fmt' s' t else None
      | EmptyString => None
      end
  end.

Definition leap_year (y : Z) : bool :=
  (y mod 4 =? 0) && (negb (y mod 100 =? 0) || (y mod 400 =? 0)).

Definition days_in_month (y m : Z) : Z :=
  if m =? 2 then (if leap_year y then 29 else 28)
  else if bool_decide (m ∈ [4; 6; 9; 11]) then 30 else 31.

Definition valid_datetime (t : datetime) : bool :=
  (1 <=? year t) && (year t <=? 9999)
  && (1 <=? month t) && (month t <=? 12)
  && (1 <=? day t) && (day t <=? days_in_month (year t) (month t))
  && (0 <=? hour t) && (hour t <=? 23)
  && (0 <=? minute t) && (minute t <=? 59)
  && (0 <=? second t) && (second t <=? 59).

Definition parse_numeric (s fmt : string) : option datetime :=
  t ← parse_fields fmt s (DateTime 1900 1 1 0 0 0);
  if valid_datetime t then Some t else None.

Definition pad (width : nat) (n : Z) : string :=
  let s := pretty n in
  String.string_of_list_ascii (replicate (width - String.length s) "0"%char) +:+ s.

Definition iso_datetime (t : datetime) : string :=
  pad 4 (year t) +:+ "-" +:+ pad 2 (month t) +:+ "-" +:+ pad 2 (day t) +:+ " "
  +:+ pad 2 (hour t) +:+ ":" +:+ pad 2 (minute t) +:+ ":" +:+ pad 2 (second t).

Definition repr_cell (x : cell) : string :=
  match x with
  | CNaN => "nan"
  | CNaT => "NaT"
  | CStr s => "'" +:+ s +:+ "'"
  | CInt n => pretty n
  | CTime t => "Timestamp('" +:+ iso_datetime t +:+ "')"
  end.

Fixpoint join (sep : string) (l : list string) : string :=
  match l with
  | [] => ""
  | [x] => x
  | x :: l' => x +:+ sep +:+ join sep l'
  end.

Definition repr_list (l : list cell) : string :=
  "[" +:+ join ", " (repr_cell <$> l) +:+ "]".

Definition iso_date (d : date) : string :=
  pad 4 (d_year d) +:+ "-" +:+ pad 2 (d_month d) +:+ "-" +:+ pad 2 (d_day d).

(** Texts in the ISO form, with or without the time. *)
Definition parse_iso (s : string) : option datetime :=
  match parse_numeric s "%Y-%m-%d %H:%M:%S" with
  | Some t => Some t
  | None => parse_numeric s "%Y-%m-%d"
  end.

Definition example_runtime : Runtime := {|
  fuzz_ratio := lcs_ratio;
  re_valid := literal_pattern;
  re_search := find_sub;
  strptime := parse_numeric;
  timestamp := parse_iso;
  str_datetime := iso_datetime;
  str_date := iso_date;
  str_list := repr_list
|}.

(** ** The row-by-row reading of a filter expression

    What each condition says of one row, as the contract of its kind
    puts it, and the combination of these readings by AND over the
    elements of the expression and OR inside a group. *)

(** The conversion a condition asks of its column before it reads it. *)
Inductive coercion :=
  | Keep
  | ToStr
  | ToDate (fmt : string).

Global Instance coercion_eq_dec : EqDecision coercion.
Proof. solve_decision. Defined.

Section Reading.
Context `{RT : Runtime}.

Definition coercion_of (c : FilterCondition) : coercion :=
  if startswith (condition c) "date_" then ToDate (date_format c)
  else if bool_decide (condition c ∈ ["contains"; "starts_with"]) then ToStr
  else Keep.

Definition coerce (k : coercion) (x : cell) : cell :=
  match k with
  | Keep => x
  | ToStr => CStr (str_cell x)
  | ToDate fmt => to_datetime_cell fmt x
  end.

Definition map_column (col : string) (f : cell → cell) (r : Row) : Row :=
  set_cell col (f (cell_at col r)) r.

(** A row after the conversion asked by one condition, and by a list of
    conditions in turn. *)
Definition coerce_row (c : FilterCondition) (r : Row) : Row :=
  match coercion_of c with
  | Keep => r
  | k => map_column (column c) (coerce k) r
  end.

Definition coerce_rows (cs : list FilterCondition) (r : Row) : Row :=
  foldl (λ r c, coerce_row c r) r cs.

(** The table after the conversion asked by a condition. *)
Definition converted (df : DataFrame) (c : FilterCondition) : DataFrame :=
  mkDF (columns df) (coerce_row c <$> rows df).

(** The date a date condition compares with. *)
Definition filter_date_of (c : FilterCondition) : result value :=
  match value_of c with
  | VCell (CStr s) => to_datetime_scalar (date_format c) s
  | v => Ok v
  end.

Definition condition_date (c : FilterCondition) : result (option date) :=
  filter_date ← filter_date_of c; date_method filter_date.

Definition from_ok (r : result bool) : bool :=
  match r with
  | Ok b => b
  | Raise _ => false
  end.

Definition date_holds (test : comparison → bool) (x : cell) (d : option date) : bool :=
  match x with
  | CTime t => date_test test (Some (date_of t)) d
  | _ => false
  end.

(** The contract of each kind, on the converted cell of a row; the
    cell is compared as an element of a column of dtype object. *)
Definition holds_on (c : FilterCondition) (x : cell) : bool :=
  if String.eqb (condition c) "date_equals" then
    match condition_date c with Ok d => date_holds is_eq x d | Raise _ => false end
  else if String.eqb (condition c) "date_greater" then
    match condition_date c with Ok d => date_holds is_gt x d | Raise _ => false end
  else if String.eqb (condition c) "date_less" then
    match condition_date c with Ok d => date_holds is_lt x d | Raise _ => false end
  else if startswith (condition c) "date_" then true
  else if String.eqb (condition c) "equals" then
    match value_of c with VCell y => cell_eqb x y | VList _ => false end
  else if String.eqb (condition c) "contains" then
    match x with CStr a => re_search (str (value_of c)) a | _ => false end
  else if String.eqb (condition c) "starts_with" then
    match x with CStr a => startswith a (str (value_of c)) | _ => false end
  else if String.eqb (condition c) "in" then
    match value_of c with VList l => bool_decide (x ∈ l) | VCell _ => false end
  else if String.eqb (condition c) "greater_than" then
    match value_of c with
    | VCell y => from_ok (cell_compare is_gt x y)
    | VList _ => false
    end
  else if String.eqb (condition c) "less_than" then
    match value_of c with
    | VCell y => from_ok (cell_compare is_lt x y)
    | VList _ => false
    end
  else true.

Definition holds (c : FilterCondition) (r : Row) : bool :=
  holds_on c (coerce (coercion_of c) (cell_at (column c) r)).

Definition item_holds (item : filter_item) (r : Row) : bool :=
  match item with
  | Single c => holds c r
  | Group g => existsb (λ c, holds c r) (conditions g)
  end.

(** AND over the elements of the expression. *)
Definition expr_holds (items : list filter_item) (r : Row) : bool :=
  forallb (λ item, item_holds item r) items.

Definition conditions_of (item : filter_item) : list FilterCondition :=
  match item with
  | Single c => [c]
  | Group g => conditions g
  end.

Definition all_conditions (items : list filter_item) : list FilterCondition :=
  items ≫= conditions_of.

(** A condition that compares the column with a list position by
    position; it reads more than one row at a time. *)
Definition positional (c : FilterCondition) : bool :=
  bool_decide (condition c ∈ ["equals"; "greater_than"; "less_than"])
  && match value_of c with VList _ => true | VCell _ => false end.

(** Two conditions on one column ask the same conversion of it. *)
Definition same_conversion (c1 c2 : FilterCondition) : bool :=
  bool_decide (column c1 = column c2 → coercion_of c1 = coercion_of c2).

(** The expressions read row by row: no positional condition, and one
    conversion per column. *)
Definition row_wise (items : list filter_item) : bool :=
  let cs := all_conditions items in
  forallb (λ c, negb (positional c) && forallb (same_conversion c) cs) cs.

(** The column of the condition holds no date-time and no [NaT], unless
    the condition is a date condition. *)
Definition reads_no_date (df : DataFrame) (c : FilterCondition) : bool :=
  startswith (condition c) "date_"
  || forallb (λ r, negb (is_datetime_cell (cell_at (column c) r))) (rows df).

(** The columns that hold dates are named by date conditions only. *)
Definition dates_read_as_dates (df : DataFrame) (items : list filter_item) : bool :=
  forallb (reads_no_date df) (all_conditions items).

(** The conditions of a list agree on the conversion of each column. *)
Definition conversions_agree (cs : list FilterCondition) : Prop :=
  ∀ c1 c2, c1 ∈ cs → c2 ∈ cs → column c1 = column c2 → coercion_of c1 = coercion_of c2.

(** The errors raised by the evaluation of a condition, as opposed to
    the error of a missing column or file. *)
Definition evaluation_error (e : exn) : bool :=
  match e with
  | ValueError | TypeError | AttributeError | ReError => true
  | KeyError _ | FileNotFoundError _ => false
  end.

(** The nine documented kinds. *)
Definition documented_kinds : list string :=
  ["equals"; "contains"; "starts_with"; "in"; "greater_than"; "less_than";
   "date_equals"; "date_greater"; "date_less"].

End Reading.

(** ** Example data: the tables and filters of the scripts' entry points *)

Section ExampleData.
#[local] Existing Instance example_runtime.

Definition zone_row (i : nat) (zone stamp : cell) : Row :=
  mkRow i {[ "Zone" := zone; "Timestamp" := stamp ]}.

(** A table in the shape of [fse.xlsx]. *)
Definition fse : DataFrame :=
  mkDF ["Zone"; "Timestamp"]
    [ zone_row 0 (CStr "6A") (CStr "05/02/2025");
      zone_row 1 (CStr "6B") (CStr "06/02/2025");
      zone_row 2 (CStr "7A") (CStr "05/02/2025");
      zone_row 3 (CStr "6C") (CStr "07/02/2025");
      zone_row 4 (CStr "6D") CNaN ].

Definition fse_files : Files := {[ "fse.xlsx" := fse ]}.

Definition zone_6 : FilterCondition :=
  mkCondition "Zone" (VCell (CStr "6")) "starts_with" default_date_format.

Definition on_date (d : string) : FilterCondition :=
  mkCondition "Timestamp" (VCell (CStr d)) "date_equals" "%d/%m/%Y".

(** The filters of [filter.py]'s entry point. *)
Definition fse_filters : list filter_item :=
  [ Single zone_6; Group (mkGroup [on_date "05/02/2025"; on_date "06/02/2025"]) ].

Definition feb (d : Z) : cell := CTime (DateTime 2025 2 d 0 0 0).

Definition fse_filtered : DataFrame :=
  mkDF ["Zone"; "Timestamp"]
    [ zone_row 0 (CStr "6A") (feb 5); zone_row 1 (CStr "6B") (feb 6) ].

Definition fse_zone_6 : DataFrame :=
  mkDF ["Zone"; "Timestamp"]
    [ zone_row 0 (CStr "6A") (CStr "05/02/2025");
      zone_row 1 (CStr "6B") (CStr "06/02/2025");
      zone_row 3 (CStr "6C") (CStr "07/02/2025");
      zone_row 4 (CStr "6D") CNaN ].

(** A table whose zones are numbers. *)
Definition zones : DataFrame := mkDF ["Zone"] [mkRow 0 {[ "Zone" := CInt 6 ]}].
Definition zones_files : Files := {[ "zones.xlsx" := zones ]}.
Definition has_6 : FilterCondition :=
  mkCondition "Zone" (VCell (CStr "6")) "contains" default_date_format.
Definition is_6 : FilterCondition :=
  mkCondition "Zone" (VCell (CInt 6)) "equals" default_date_format.

(** A table with a missing town. *)
Definition towns : DataFrame :=
  mkDF ["Town"] [mkRow 0 {[ "Town" := CStr "Kumasi" ]}; mkRow 1 {[ "Town" := CNaN ]}].
Definition town_has_nan : FilterCondition :=
  mkCondition "Town" (VCell (CStr "nan")) "contains" default_date_format.

Definition in_region : FilterCondition :=
  mkCondition "Region" (VCell (CStr "North")) "equals" default_date_format.
Definition on_yesterday : FilterCondition :=
  mkCondition "Timestamp" (VCell (CStr "yesterday")) "date_equals" "%d/%m/%Y".
Definition between_dates : FilterCondition :=
  mkCondition "Timestamp" (VCell (CStr "soon")) "date_between" "%d/%m/%Y".
Definition zone_like : FilterCondition :=
  mkCondition "Zone" (VCell (CStr "6")) "begins_with" default_date_format.

Definition facility (i : nat) (name : string) : Row :=
  mkRow i {[ COLUMN_KEY := CStr name ]}.

(** Responses with a name given twice, and the reference names. *)
Definition responses : DataFrame :=
  mkDF [COLUMN_KEY]
    [ facility 0 "Ridge Hospital"; facility 1 "Tamale Clinic"; facility 2 "Ridge Hospital" ].
Definition reference_names : list cell := [CStr "RIDGE  HOSPITAL"; CStr "Korle Bu"].

End ExampleData.

(** ** The two steps of a call: the conversion of the column and the
    evaluation of the condition on it *)

Section Evaluation.
Context `{RT : Runtime}.

(** The conversion of its column that a condition asks. *)
Definition convert (k : coercion) (s : Series) : Series :=
  match k with
  | Keep => s
  | ToStr => astype_str s
  | ToDate fmt => to_datetime_coerce fmt s
  end.

(** The table with the column of a condition converted. *)
Definition converted_table (df : DataFrame) (c : FilterCondition) : DataFrame :=
  match coercion_of c with
  | Keep => df
  | k => mkDF (columns df)
           (zip_with (set_cell (column c))
              (convert k (cell_at (column c) <$> rows df)) (rows df))
  end.

(** The mask that a condition computes on its column, once converted. *)
Definition evaluate (c : FilterCondition) (s : Series) : result Mask :=
  if startswith (condition c) "date_" then
    filter_date ← filter_date_of c;
    if String.eqb (condition c) "date_equals" then
      ds ← dt_date s; d ← date_method filter_date; Ok (dates_equal ds d)
    else if String.eqb (condition c) "date_greater" then
      ds ← dt_date s; d ← date_method filter_date; dates_compare is_gt ds d
    else if String.eqb (condition c) "date_less" then
      ds ← dt_date s; d ← date_method filter_date; dates_compare is_lt ds d
    else Ok ((λ _, true) <$> s)
  else if String.eqb (condition c) "equals" then series_eq s (value_of c)
  else if String.eqb (condition c) "contains" then str_contains s (str (value_of c))
  else if String.eqb (condition c) "starts_with" then
    Ok (str_startswith s (str (value_of c)))
  else if String.eqb (condition c) "in" then isin s (value_of c)
  else if String.eqb (condition c) "greater_than" then
    series_compare is_gt s (value_of c)
  else if String.eqb (condition c) "less_than" then
    series_compare is_lt s (value_of c)
  else Ok ((λ _, true) <$> s).

(** The mask of a condition on a table. *)
Definition mask_on (df : DataFrame) (c : FilterCondition) : result Mask :=
  evaluate c (convert (coercion_of c) (cell_at (column c) <$> rows df)).

(** The same, empty when the evaluation raises. *)
Definition mask_of (df : DataFrame) (c : FilterCondition) : Mask :=
  match mask_on df c with
  | Ok m => m
  | Raise _ => []
  end.

(** What a condition raises before it looks at any row: a date text that
    does not parse, a comparison value without a date, a pattern that
    does not compile, a value of [in] that is not a list. *)
Definition check_condition (c : FilterCondition) : result unit :=
  if startswith (condition c) "date_" then
    filter_date ← filter_date_of c;
    if bool_decide (condition c ∈ ["date_equals"; "date_greater"; "date_less"])
    then _ ← date_method filter_date; Ok ()
    else Ok ()
  else if String.eqb (condition c) "contains" then
    if re_valid (str (value_of c)) then Ok () else Raise ReError
  else if String.eqb (condition c) "in" then
    match value_of c with VList _ => Ok () | VCell _ => Raise TypeError end
  else Ok ().

(** The table has rows and none of them has a date in the column of the
    condition, as its format reads the column. *)
Definition no_date_parsed (df : DataFrame) (c : FilterCondition) : bool :=
  all_missing
    ((λ r, match to_datetime_cell (date_format c) (cell_at (column c) r) with
           | CTime t => Some (date_of t)
           | _ => None
           end) <$> rows df).

(** Two scalars that [<] and [>] accept: one of them is missing, or they
    are of one type. *)
Definition comparable (x y : cell) : bool :=
  isna x || isna y ||
  match x, y with
  | CStr _, CStr _ | CInt _, CInt _ | CTime _, CTime _ => true
  | _, _ => false
  end.

Definition number_or_text (y : cell) : bool :=
  match y with
  | CInt _ | CStr _ => true
  | _ => false
  end.

(** The column of a condition holds numbers, texts and missing values,
    one of its cells at least not being missing. *)
Definition numbers_and_texts (df : DataFrame) (c : FilterCondition) : bool :=
  forallb (λ r, negb (is_datetime_cell (cell_at (column c) r))) (rows df)
  && existsb (λ r, negb (isna (cell_at (column c) r))) (rows df).

(** The file is there and its table has the column of names. *)
Definition has_key_column (fs : Files) (path : string) : bool :=
  match read_file_safe fs path with
  | Some df => has_column df COLUMN_KEY
  | None => false
  end.

(** A text of white space only. *)
Fixpoint blank (s : string) : bool :=
  match s with
  | EmptyString => true
  | String c s' => isspace c && blank s'
  end.

(** A row matched some reference name. *)
Definition matched (names : list cell) (threshold : Z) (r : Row) : bool :=
  bool_decide (is_Some (first_similar (cell_at COLUMN_KEY r) names threshold)).

End Evaluation.

(** ** Example data (continued) *)

Section ExampleData2.
#[local] Existing Instance example_runtime.

(** A table with a column of numbers in which one cell holds a text. *)
Definition wards : DataFrame :=
  mkDF ["Beds"]
    [ mkRow 0 {[ "Beds" := CInt 12 ]};
      mkRow 1 {[ "Beds" := CStr "n/a" ]};
      mkRow 2 {[ "Beds" := CNaN ]} ].
Definition beds_over_10 : FilterCondition :=
  mkCondition "Beds" (VCell (CInt 10)) "greater_than" default_date_format.

(** A table none of whose dates the format reads. *)
Definition visits : DataFrame :=
  mkDF ["Timestamp"]
    [ mkRow 0 {[ "Timestamp" := CStr "tomorrow" ]};
      mkRow 1 {[ "Timestamp" := CNaN ]} ].
Definition before_feb_5 : FilterCondition :=
  mkCondition "Timestamp" (VCell (CStr "05/02/2025")) "date_less" "%d/%m/%Y".

(** A table with a column of dates, as [read_excel] gives it. *)
Definition stamp_row (i : nat) (zone : string) (seen : cell) : Row :=
  mkRow i {[ "Zone" := CStr zone; "Seen" := seen ]}.
Definition stamps : DataFrame :=
  mkDF ["Zone"; "Seen"]
    [ stamp_row 0 "A" (CTime (DateTime 2025 2 5 0 0 0));
      stamp_row 1 "B" (CTime (DateTime 2025 2 6 10 30 0)) ].
Definition stamps_files : Files := {[ "stamps.xlsx" := stamps ]}.
Definition zone_a : FilterCondition :=
  mkCondition "Zone" (VCell (CStr "A")) "equals" default_date_format.
Definition seen_at_midnight : FilterCondition :=
  mkCondition "Seen" (VCell (CStr "00:00:00")) "contains" default_date_format.
Definition seen_on_feb_5 : FilterCondition :=
  mkCondition "Seen" (VCell (CStr "2025-02-05")) "equals" default_date_format.
Definition seen_this_year : FilterCondition :=
  mkCondition "Seen" (VCell (CStr "2025-01-01")) "greater_than" default_date_format.
Definition seen_on_one_of : FilterCondition :=
  mkCondition "Seen" (VList [CStr "2025-02-05"; CStr "2025-03-01"]) "in"
    default_date_format.

(** Responses that already have a column of matches. *)
Definition responses_matched : DataFrame :=
  mkDF [COLUMN_KEY; "Matched With"]
    [ mkRow 0 {[ COLUMN_KEY := CStr "Ridge Hospital"; "Matched With" := CStr "?" ]} ].

Definition fse_written : Files :=
  <[ "filtered.xlsx" := reset_index fse_filtered ]> fse_files.

Definition registry : DataFrame :=
  mkDF [COLUMN_KEY] [ facility 0 "RIDGE  HOSPITAL"; facility 1 "Korle Bu" ].
Definition surveillance : DataFrame :=
  mkDF [COLUMN_KEY] [ facility 0 "Tema General" ].

(** Responses with a name given twice, a missing name and a blank one. *)
Definition responses_with_gaps : DataFrame :=
  mkDF [COLUMN_KEY]
    [ facility 0 "Ridge Hospital";
      mkRow 1 {[ COLUMN_KEY := CNaN ]};
      facility 2 "  ";
      facility 3 "Tamale Clinic" ].

Definition survey_files : Files :=
  {[ RESPONSES_FILE := responses_with_gaps;
     REGISTRY_FILE := registry;
     SURVEILLANCE_FILE := surveillance ]}.

Definition survey_names : list cell :=
  (cell_at COLUMN_KEY <$> rows registry) ++ (cell_at COLUMN_KEY <$> rows surveillance).

Definition ridge_removed : Row :=
  set_cell "Matched With" (CStr "RIDGE  HOSPITAL") (facility 0 "Ridge Hospital").

End ExampleData2.

(** * Properties *)

(** ** Fuzzy name matching ([main.py]) *)

Section NameMatching.
Context `{RT : Runtime}.

Lemma foldl_max_ge (t x : Z) (xs : list Z) :
  t ≤ foldl Z.max x xs ↔ t ≤ x ∨ ∃ y, y ∈ xs ∧ t ≤ y.
Proof.
  revert x. induction xs as [|z xs IH]; intros x; simpl.
  - split; [auto|]. intros [?|(y & Hy & _)]; [done|]. by apply elem_of_nil in Hy.
  - rewrite IH. split.
    + intros [Hm|(y & Hy & Hle)].
      * destruct (Z.max_spec x z) as [[_ E]|[_ E]]; rewrite E in Hm; [|by left].
        right. exists z. split; [left|done].
      * right. exists y. split; [by right|done].
    + intros [Hx|(y & Hy & Hle)]; [left; lia|].
      apply elem_of_cons in Hy as [->|Hy]; [left; lia|].
      right. by exists y.
Qed.

Lemma foldl_min_ge (t b : Z) (bs : list Z) :
  t ≤ foldl Z.min b bs ↔ t ≤ b ∧ ∀ y, y ∈ bs → t ≤ y.
Proof.
  revert b. induction bs as [|z bs IH]; intros b; simpl.
  - split; [|tauto]. intros ?. split; [done|]. intros y Hy. by apply elem_of_nil in Hy.
  - rewrite IH. split.
    + intros [Hm Hall]. split; [lia|]. intros y Hy.
      apply elem_of_cons in Hy as [->|Hy]; [lia|auto].
    + intros [Hb Hall]. split.
      * pose proof (Hall z ltac:(left)). lia.
      * intros y Hy. apply Hall. by right.
Qed.

(** [best_match] is the greatest score against the other name's parts,
    and 0 when the other name has no part. *)
Lemma best_match_ge (t : Z) (p : string) (parts2 : gset string) :
  t ≤ best_match p parts2 ↔
    (parts2 = ∅ ∧ t ≤ 0) ∨ ∃ q, q ∈ parts2 ∧ t ≤ fuzz_ratio p q.
Proof.
  unfold best_match, max_default.
  destruct (elements parts2) as [|q0 qs] eqn:E; simpl.
  - apply elements_empty_inv in E. apply leibniz_equiv in E. subst. split.
    + intros ?. by left.
    + intros [[_ ?]|(q & Hq & _)]; [done|]. by apply not_elem_of_empty in Hq.
  - rewrite foldl_max_ge. split.
    + intros H. right. destruct H as [H|(y & Hy & Hle)].
      * exists q0. split; [|done]. apply elem_of_elements. rewrite E. left.
      * apply list_elem_of_fmap in Hy as (q & -> & Hq).
        exists q. split; [|done]. apply elem_of_elements. rewrite E. by right.
    + intros [[-> _]|(q & Hq & Hle)].
      { by rewrite elements_empty in E. }
      apply elem_of_elements in Hq. rewrite E in Hq.
      apply elem_of_cons in Hq as [->|Hq]; [by left|].
      right. exists (fuzz_ratio p q). split; [|done].
      apply list_elem_of_fmap. by exists q.
Qed.

Lemma best_match_upper (p q : string) (parts2 : gset string) :
  q ∈ parts2 → fuzz_ratio p q ≤ best_match p parts2.
Proof. intros Hq. apply best_match_ge. right. exists q. split; [done|lia]. Qed.

Lemma best_match_attained (p : string) (parts2 : gset string) :
  parts2 ≠ ∅ → ∃ q, q ∈ parts2 ∧ best_match p parts2 = fuzz_ratio p q.
Proof.
  intros Hne.
  destruct (proj1 (best_match_ge (best_match p parts2) p parts2))
    as [[? _]|(q & Hq & Hle)]; [lia|done|].
  exists q. split; [done|]. pose proof (best_match_upper p q parts2 Hq). lia.
Qed.

Lemma best_match_empty (p : string) : best_match p ∅ = 0.
Proof. unfold best_match. by rewrite elements_empty. Qed.

Lemma is_similar_name_true (name1 name2 : cell) (t : Z) :
  is_similar_name name1 name2 (Some t) = true ↔
    isna name1 = false ∧ isna name2 = false ∧
    Z.abs (Z.of_nat (size (name_parts name1)) - Z.of_nat (size (name_parts name2))) ≤ 1 ∧
    name_parts name1 ≠ ∅ ∧
    ∀ p, p ∈ name_parts name1 → t ≤ best_match p (name_parts name2).
Proof.
  unfold is_similar_name. simpl.
  destruct (isna name1); simpl; [split; [done|by intros (? & _)]|].
  destruct (isna name2); simpl; [split; [done|by intros (_ & ? & _)]|].
  destruct (Z.ltb_spec 1
    (Z.abs (Z.of_nat (size (name_parts name1)) - Z.of_nat (size (name_parts name2)))))
    as [Hbig|Hsmall].
  { split; [done|]. intros (_ & _ & ? & _). lia. }
  destruct (elements (name_parts name1)) as [|p0 ps] eqn:E; simpl.
  - apply elements_empty_inv in E. apply leibniz_equiv in E.
    split; [done|]. intros (_ & _ & _ & Hne & _). done.
  - rewrite Z.leb_le, foldl_min_ge.
    assert (name_parts name1 ≠ ∅) as Hne.
    { intros Hemp. rewrite Hemp, elements_empty in E. done. }
    split.
    + intros [H0 Hall]. do 4 (split; [done|]).
      intros p Hp. apply elem_of_elements in Hp. rewrite E in Hp.
      apply elem_of_cons in Hp as [->|Hp]; [done|].
      apply Hall. apply list_elem_of_fmap. by exists p.
    + intros (_ & _ & _ & _ & Hall). split.
      * apply Hall. apply elem_of_elements. rewrite E. left.
      * intros y Hy. apply list_elem_of_fmap in Hy as (p & -> & Hp).
        apply Hall. apply elem_of_elements. rewrite E. by right.
Qed.

(** C4 (amended).  [is_similar_name] answers true exactly when neither
    name is missing, the numbers of parts differ by at most one, the
    first name has at least one part, and every part of the first name
    has a greatest score against the parts of the second name (taken as
    0 when the second name has no part) that reaches the threshold.  An
    omitted threshold is 80 in [is_similar_name] and 75 in
    [remove_duplicates]. *)
Theorem is_similar_name_characterised :
  (∀ (name1 name2 : cell) (t : Z),
     is_similar_name name1 name2 (Some t) = true ↔
       isna name1 = false ∧ isna name2 = false ∧
       Z.abs (Z.of_nat (size (name_parts name1))
              - Z.of_nat (size (name_parts name2))) ≤ 1 ∧
       name_parts name1 ≠ ∅ ∧
       ∀ p, p ∈ name_parts name1 →
         (name_parts name2 = ∅ ∧ t ≤ 0) ∨
         ∃ q, q ∈ name_parts name2 ∧ t ≤ fuzz_ratio p q) ∧
  (∀ name1 name2 : cell,
     is_similar_name name1 name2 None = is_similar_name name1 name2 (Some 80)) ∧
  (∀ fs : Files, remove_duplicates fs None = remove_duplicates fs (Some 75)).
Proof.
  split; [|split; reflexivity].
  intros name1 name2 t. rewrite is_similar_name_true.
  split; intros (H1 & H2 & H3 & H4 & H5); do 4 (split; [done|]);
    intros p Hp; apply best_match_ge; auto.
Qed.

(** C5.  Names whose numbers of parts differ by more than one are never
    similar, whatever the threshold. *)
Theorem is_similar_name_size_guard (a b : cell) (threshold : option Z) :
  1 < Z.abs (Z.of_nat (size (name_parts a)) - Z.of_nat (size (name_parts b))) →
  is_similar_name a b threshold = false.
Proof.
  intros Hdiff. unfold is_similar_name.
  destruct (isna a || isna b); [done|].
  apply Z.ltb_lt in Hdiff. by rewrite Hdiff.
Qed.

(** C2 (amended).  The decision is the same in both directions when the
    two names have the same parts, or when each name has exactly one
    part and [fuzz.ratio] gives these two parts the same score in both
    orders. *)
Theorem is_similar_name_symmetric_cases (a b : cell) (threshold : option Z) :
  name_parts a = name_parts b ∨
  (∃ p q, name_parts a = {[p]} ∧ name_parts b = {[q]} ∧
          fuzz_ratio p q = fuzz_ratio q p) →
  is_similar_name a b threshold = is_similar_name b a threshold.
Proof.
  intros Hcase. unfold is_similar_name.
  rewrite (orb_comm (isna b) (isna a)).
  destruct (isna a || isna b); [done|].
  destruct Hcase as [Heq|(p & q & Ha & Hb & Hsym)].
  - by rewrite Heq.
  - rewrite Ha, Hb, !size_singleton, !elements_singleton. simpl.
    unfold best_match. rewrite !elements_singleton. simpl. by rewrite Hsym.
Qed.

(** The inner loop finds a name exactly when some name of the list is
    similar. *)
Lemma first_similar_is_Some (x : cell) (names : list cell) (t : Z) :
  is_Some (first_similar x names t) ↔
    ∃ n, n ∈ names ∧ is_similar_name x n (Some t) = true.
Proof.
  induction names as [|n names IH]; simpl.
  - split; [by intros [? ?]|]. intros (n & Hn & _). by apply elem_of_nil in Hn.
  - destruct (is_similar_name x n (Some t)) eqn:E.
    + split; [|eauto]. intros _. exists n. split; [left|done].
    + rewrite IH. split.
      * intros (n' & Hn' & Hs). exists n'. split; [by right|done].
      * intros (n' & Hn' & Hs). apply elem_of_cons in Hn' as [->|Hn'].
        { congruence. }
        by exists n'.
Qed.

Lemma elem_of_find_matches (m : Row * cell) (rs : list Row) (names : list cell) (t : Z) :
  m ∈ find_matches rs names t ↔
    m.1 ∈ rs ∧ first_similar (cell_at COLUMN_KEY m.1) names t = Some m.2.
Proof.
  induction rs as [|r rs IH]; simpl.
  - split; [by intros ?%elem_of_nil|]. by intros [?%elem_of_nil _].
  - destruct (first_similar (cell_at COLUMN_KEY r) names t) as [n|] eqn:E.
    + rewrite elem_of_cons, IH. split.
      * intros [->|[? ?]]; simpl; [|split; [by right|done]].
        split; [left|done].
      * intros [Hin Hm]. apply elem_of_cons in Hin as [Hr|Hin]; [|by right].
        left. destruct m as [r' n']. simpl in *. subst. congruence.
    + rewrite IH. split.
      * intros [? ?]. split; [by right|done].
      * intros [Hin Hm]. apply elem_of_cons in Hin as [Hr|Hin]; [|done].
        rewrite Hr in Hm. congruence.
Qed.

Lemma elem_of_removed_names (x : cell) (df : DataFrame) (names : list cell) (t : Z) :
  x ∈ removed_names df names t ↔
    ∃ r, r ∈ rows df ∧ cell_at COLUMN_KEY r = x ∧
         ∃ n, n ∈ names ∧ is_similar_name (cell_at COLUMN_KEY r) n (Some t) = true.
Proof.
  unfold removed_names. rewrite list_elem_of_fmap. split.
  - intros ([r n] & -> & Hm). apply elem_of_find_matches in Hm as [Hr Hf].
    simpl in *. exists r. do 2 (split; [done|]).
    apply first_similar_is_Some. by exists n.
  - intros (r & Hr & <- & Hex). apply first_similar_is_Some in Hex as [n Hn].
    exists (r, n). split; [done|]. by apply elem_of_find_matches.
Qed.

Lemma boolean_index_fmap (f : Row → bool) (rs : list Row) :
  boolean_index rs (f <$> rs) = List.filter f rs.
Proof.
  induction rs as [|r rs IH]; [done|].
  rewrite fmap_cons. simpl. destruct (f r); by rewrite IH.
Qed.

Lemma elem_of_bool_filter {A} (f : A → bool) (x : A) (l : list A) :
  x ∈ List.filter f l ↔ x ∈ l ∧ f x = true.
Proof. rewrite !list_elem_of_In. apply filter_In. Qed.

Lemma elem_of_responses_filtered (r : Row) (df : DataFrame) (names : list cell) (t : Z) :
  r ∈ rows (responses_filtered df names t) ↔
    r ∈ rows df ∧ cell_at COLUMN_KEY r ∉ removed_names df names t.
Proof.
  unfold responses_filtered, select, mask_not, isin_list. simpl.
  rewrite <- !list_fmap_compose, boolean_index_fmap, elem_of_bool_filter. simpl.
  rewrite negb_true_iff, bool_decide_eq_false. done.
Qed.

(** What [remove_duplicates] writes as the filtered responses. *)
Lemma remove_duplicates_output (fs : Files) (t : Z)
    (df_responses df_registry df_surveillance : DataFrame) :
  read_file_safe fs RESPONSES_FILE = Some df_responses →
  read_file_safe fs REGISTRY_FILE = Some df_registry →
  read_file_safe fs SURVEILLANCE_FILE = Some df_surveillance →
  has_column df_responses COLUMN_KEY = true →
  has_column df_registry COLUMN_KEY = true →
  has_column df_surveillance COLUMN_KEY = true →
  remove_duplicates fs (Some t) !! output_file_name
  = Some (reset_index
            (responses_filtered df_responses
               ((cell_at COLUMN_KEY <$> rows df_registry)
                ++ (cell_at COLUMN_KEY <$> rows df_surveillance)) t)).
Proof.
  intros H1 H2 H3 C1 C2 C3. unfold remove_duplicates.
  rewrite H1, H2, H3, C1, C2, C3. simpl. unfold to_excel. apply lookup_insert_eq.
Qed.

(** C10.  The kept table is taken by name: a row of the primary table is
    removed exactly when its facility name is the name of some row that
    matched a reference name, so two rows with the same name are both
    removed or both kept. *)
Theorem responses_filtered_by_name (df : DataFrame) (names : list cell) (t : Z)
    (r1 r2 : Row) :
  r1 ∈ rows df → r2 ∈ rows df →
  (r1 ∉ rows (responses_filtered df names t) ↔
     ∃ r, r ∈ rows df ∧ cell_at COLUMN_KEY r = cell_at COLUMN_KEY r1 ∧
          ∃ n, n ∈ names ∧ is_similar_name (cell_at COLUMN_KEY r) n (Some t) = true) ∧
  (cell_at COLUMN_KEY r1 = cell_at COLUMN_KEY r2 →
     (r1 ∈ rows (responses_filtered df names t) ↔
      r2 ∈ rows (responses_filtered df names t))).
Proof.
  intros Hr1 Hr2. split.
  - rewrite elem_of_responses_filtered, <- elem_of_removed_names. split.
    + intros Hnot. destruct (decide (cell_at COLUMN_KEY r1 ∈ removed_names df names t));
        [done|]. destruct Hnot. done.
    + intros Hin [_ Hnot]. done.
  - intros Heq. rewrite !elem_of_responses_filtered, Heq. tauto.
Qed.

End NameMatching.

(** ** Row filtering ([filter.py]) *)

Section Filtering.
Context `{RT : Runtime}.

Lemma getitem_ok (df : DataFrame) (col : string) :
  has_column df col = true → getitem df col = Ok (cell_at col <$> rows df).
Proof. intros H. unfold getitem. by rewrite H. Qed.

Lemma getitem_missing (df : DataFrame) (col : string) :
  has_column df col = false → getitem df col = Raise (KeyError col).
Proof. intros H. unfold getitem. by rewrite H. Qed.

Lemma zip_with_set_cell (col : string) (f : cell → cell) (rs : list Row) :
  zip_with (set_cell col) (f <$> (cell_at col <$> rs)) rs = map_column col f <$> rs.
Proof. induction rs as [|r rs IH]; [done|]. rewrite !fmap_cons. simpl. by rewrite IH. Qed.

Lemma setitem_column (df : DataFrame) (col : string) (f : cell → cell) :
  has_column df col = true →
  setitem df col (f <$> (cell_at col <$> rows df))
  = mkDF (columns df) (map_column col f <$> rows df).
Proof. intros H. unfold setitem. by rewrite H, zip_with_set_cell. Qed.

Lemma cell_at_map_column (col col' : string) (f : cell → cell) (r : Row) :
  cell_at col' (map_column col f r)
  = if decide (col = col') then f (cell_at col r) else cell_at col' r.
Proof.
  unfold map_column, set_cell, cell_at. simpl.
  rewrite lookup_insert. by destruct (decide (col = col')); subst.
Qed.

Lemma map_column_fixed (col : string) (f : cell → cell) (r : Row) (x : cell) :
  cells r !! col = Some x → f x = x → map_column col f r = r.
Proof.
  intros Hl Hf. destruct r as [l m]. unfold map_column, set_cell, cell_at. simpl in *.
  rewrite Hl. simpl. rewrite Hf. by rewrite insert_id.
Qed.

Lemma to_datetime_cell_datetime (fmt : string) (x : cell) :
  is_datetime_cell (to_datetime_cell fmt x) = true.
Proof.
  assert (∀ s, is_datetime_cell (default CNaT (parse_datetime fmt s)) = true) as Hp.
  { intros s. unfold parse_datetime. case_bool_decide; [done|].
    by destruct (strptime s fmt). }
  destruct x; simpl; auto.
Qed.

Lemma to_datetime_cell_fixed (fmt : string) (x : cell) :
  is_datetime_cell x = true → to_datetime_cell fmt x = x.
Proof. by destruct x. Qed.

Lemma to_datetime_cell_idemp (fmt fmt' : string) (x : cell) :
  to_datetime_cell fmt' (to_datetime_cell fmt x) = to_datetime_cell fmt x.
Proof. apply to_datetime_cell_fixed, to_datetime_cell_datetime. Qed.

Lemma forallb_fmap_true {A B} (f : B → bool) (g : A → B) (l : list A) :
  (∀ x, f (g x) = true) → forallb f (g <$> l) = true.
Proof. intros H. induction l as [|x l IH]; [done|]. rewrite fmap_cons. simpl. by rewrite H, IH. Qed.

(** The conversion of a column to dates is the same whether or not the
    column already holds dates. *)
Lemma date_conversion (df : DataFrame) (col fmt : string) :
  has_column df col = true →
  (if negb (is_datetime64_any_dtype (cell_at col <$> rows df))
   then setitem df col (to_datetime_coerce fmt (cell_at col <$> rows df))
   else df)
  = mkDF (columns df) (map_column col (to_datetime_cell fmt) <$> rows df).
Proof.
  intros Hcol. destruct (is_datetime64_any_dtype _) eqn:E; simpl.
  - destruct df as [cs rs]. simpl in *. f_equal.
    rewrite <- (list_fmap_id rs) at 1. apply list_fmap_ext.
    intros i r Hr. unfold id. symmetry.
    unfold is_datetime64_any_dtype in E. rewrite forallb_forall in E.
    assert (is_datetime_cell (cell_at col r) = true) as Hd.
    { apply E. apply list_elem_of_In, list_elem_of_fmap. exists r. split; [done|].
      by eapply list_elem_of_lookup_2. }
    unfold cell_at in Hd. destruct (cells r !! col) as [x|] eqn:Hl; [|done].
    simpl in Hd. eapply map_column_fixed; [done|]. by apply to_datetime_cell_fixed.
  - unfold to_datetime_coerce. by apply setitem_column.
Qed.

Lemma column_of_mapped (col : string) (f : cell → cell) (rs : list Row) :
  cell_at col <$> (map_column col f <$> rs) = (λ r, f (cell_at col r)) <$> rs.
Proof.
  rewrite <- list_fmap_compose. apply list_fmap_ext. intros i r _. simpl.
  rewrite cell_at_map_column. by rewrite decide_True.
Qed.

Lemma traverse_ok {A B} (f : A → result B) (d : B) (l : list A) (k : list B) :
  traverse f l = Ok k →
  k = (λ x, match f x with Ok b => b | Raise _ => d end) <$> l.
Proof.
  revert k. induction l as [|x l IH]; intros k.
  - by intros [= <-].
  - rewrite fmap_cons. simpl. destruct (f x) as [b|]; simpl; [|done].
    destruct (traverse f l) as [ys|]; simpl; [|done].
    intros [= <-]. by rewrite <- (IH ys).
Qed.

Lemma length_traverse {A B} (f : A → result B) (l : list A) (k : list B) :
  traverse f l = Ok k → length k = length l.
Proof.
  revert k. induction l as [|x l IH]; intros k; simpl.
  - by intros [= <-].
  - destruct (f x); simpl; [|done]. destruct (traverse f l); simpl; [|done].
    intros [= <-]. simpl. f_equal. by apply IH.
Qed.

Lemma traverse_pure {A B} (f : A → B) (l : list A) :
  traverse (λ x, Ok (f x)) l = Ok (f <$> l).
Proof. induction l as [|x l IH]; [done|]. rewrite fmap_cons. simpl. by rewrite IH. Qed.

Lemma traverse_fmap {A B C} (g : A → B) (f : B → result C) (l : list A) :
  traverse f (g <$> l) = traverse (λ x, f (g x)) l.
Proof. induction l as [|x l IH]; [done|]. rewrite fmap_cons. simpl. by rewrite IH. Qed.

Lemma traverse_ext {A B} (f g : A → result B) (l : list A) :
  (∀ x, x ∈ l → f x = g x) → traverse f l = traverse g l.
Proof.
  induction l as [|x l IH]; intros H; [done|]. simpl.
  rewrite (H x) by left. rewrite IH; [done|]. intros y Hy. apply H. by right.
Qed.

Lemma traverse_raise {A B} (f : A → result B) (l : list A) (e : exn) :
  traverse f l = Raise e → ∃ x, x ∈ l ∧ f x = Raise e.
Proof.
  induction l as [|x l IH]; simpl; [done|].
  destruct (f x) as [b|e'] eqn:Hx; simpl.
  - destruct (traverse f l) as [ys|e'] eqn:Hl; simpl; [done|].
    intros [= ->]. destruct IH as (y & Hy & Hfy); [done|].
    exists y. split; [by right|done].
  - intros [= ->]. exists x. split; [left|done].
Qed.



(** *** The dtype of a column and the operations that depend on it *)

Lemma datetime64_cells (s : Series) :
  datetime64 s = true → Forall (λ x, is_datetime_cell x = true) s.
Proof.
  destruct s as [|x s]; [done|]. unfold datetime64, is_datetime64_any_dtype.
  intros H. apply Forall_forall. intros y Hy.
  rewrite forallb_forall in H. by apply H, list_elem_of_In.
Qed.

Lemma datetime64_plain (s : Series) :
  forallb (λ x, negb (is_datetime_cell x)) s = true → datetime64 s = false.
Proof.
  destruct s as [|x s]; [done|]. simpl. intros [Hx _]%andb_true_iff.
  apply negb_true_iff in Hx. by rewrite Hx.
Qed.

Lemma datetime64_text (s : Series) :
  Forall (λ x, ∃ a, x = CStr a) s → datetime64 s = false.
Proof. intros H. destruct H as [|x s [a ->] _]; done. Qed.

Lemma length_astype_str (s : Series) : length (astype_str s) = length s.
Proof. unfold astype_str. destruct (_ && _); by rewrite length_fmap. Qed.

Lemma astype_str_text (s : Series) : Forall (λ x, ∃ a, x = CStr a) (astype_str s).
Proof.
  unfold astype_str. destruct (_ && _); apply Forall_fmap, Forall_forall;
    intros x _; simpl; eauto.
Qed.

Lemma astype_str_plain (s : Series) :
  datetime64 s = false → astype_str s = (λ x, CStr (str_cell x)) <$> s.
Proof. intros H. unfold astype_str. by rewrite H. Qed.

Lemma astype_str_of_text (s : Series) :
  Forall (λ x, ∃ a, x = CStr a) s → astype_str s = s.
Proof.
  intros H. rewrite astype_str_plain by by apply datetime64_text.
  rewrite <- (list_fmap_id s) at 2. apply Forall_fmap_ext.
  eapply Forall_impl; [done|]. by intros x [a ->].
Qed.

Lemma astype_str_idemp (s : Series) : astype_str (astype_str s) = astype_str s.
Proof. apply astype_str_of_text, astype_str_text. Qed.

Lemma to_datetime_coerce_idemp (fmt fmt' : string) (s : Series) :
  to_datetime_coerce fmt' (to_datetime_coerce fmt s) = to_datetime_coerce fmt s.
Proof.
  unfold to_datetime_coerce. rewrite <- list_fmap_compose.
  apply list_fmap_ext. intros i x _. apply to_datetime_cell_idemp.
Qed.

Lemma length_convert (k : coercion) (s : Series) : length (convert k s) = length s.
Proof.
  destruct k; simpl; [done|apply length_astype_str|].
  unfold to_datetime_coerce. by rewrite length_fmap.
Qed.

Lemma convert_idemp (k : coercion) (s : Series) :
  convert k (convert k s) = convert k s.
Proof.
  destruct k; simpl; [done|apply astype_str_idemp|apply to_datetime_coerce_idemp].
Qed.

(** On a column without dates the conversion is made cell by cell. *)
Lemma convert_plain (k : coercion) (s : Series) :
  k = ToStr → forallb (λ x, negb (is_datetime_cell x)) s = true →
  convert k s = coerce k <$> s.
Proof. intros -> H. simpl. by rewrite astype_str_plain by by apply datetime64_plain. Qed.

Lemma convert_date (fmt : string) (s : Series) :
  convert (ToDate fmt) s = coerce (ToDate fmt) <$> s.
Proof. done. Qed.

(** *** The table after a conversion *)

Lemma column_of_zip (col : string) (s : Series) (rs : list Row) :
  length s = length rs → cell_at col <$> zip_with (set_cell col) s rs = s.
Proof.
  revert rs. induction s as [|x s IH]; intros [|r rs] Hlen; simpl in *; try done.
  f_equal; [|apply IH; lia].
  unfold cell_at, set_cell. simpl. by rewrite lookup_insert_eq.
Qed.

Lemma other_column_of_zip (col col' : string) (s : Series) (rs : list Row) :
  col' ≠ col → length s = length rs →
  cell_at col' <$> zip_with (set_cell col) s rs = cell_at col' <$> rs.
Proof.
  intros Hne. revert rs. induction s as [|x s IH]; intros [|r rs] Hlen; simpl in *; try done.
  f_equal; [|apply IH; lia].
  unfold cell_at, set_cell. simpl. by rewrite lookup_insert_ne.
Qed.

Lemma label_of_zip (col : string) (s : Series) (rs : list Row) :
  length s = length rs → label <$> zip_with (set_cell col) s rs = label <$> rs.
Proof.
  revert rs. induction s as [|x s IH]; intros [|r rs] Hlen; simpl in *; try done.
  f_equal. apply IH. lia.
Qed.

Lemma length_convert_column (k : coercion) (col : string) (rs : list Row) :
  length (convert k (cell_at col <$> rs)) = length rs.
Proof. by rewrite length_convert, length_fmap. Qed.

Lemma converted_table_columns (df : DataFrame) (c : FilterCondition) :
  columns (converted_table df c) = columns df.
Proof. unfold converted_table. by destruct (coercion_of c). Qed.

Lemma converted_table_length (df : DataFrame) (c : FilterCondition) :
  length (rows (converted_table df c)) = length (rows df).
Proof.
  unfold converted_table. destruct (coercion_of c); [done|..]; cbn [rows];
    rewrite length_zip_with, length_convert_column; lia.
Qed.

Lemma converted_table_labels (df : DataFrame) (c : FilterCondition) :
  label <$> rows (converted_table df c) = label <$> rows df.
Proof.
  unfold converted_table. destruct (coercion_of c); [done|..]; cbn [rows];
    apply label_of_zip, length_convert_column.
Qed.

Lemma converted_table_column (df : DataFrame) (c : FilterCondition) :
  cell_at (column c) <$> rows (converted_table df c)
  = convert (coercion_of c) (cell_at (column c) <$> rows df).
Proof.
  unfold converted_table. destruct (coercion_of c); [done|..]; cbn [rows];
    apply column_of_zip, length_convert_column.
Qed.

Lemma converted_table_other (df : DataFrame) (c : FilterCondition) (col : string) :
  col ≠ column c →
  cell_at col <$> rows (converted_table df c) = cell_at col <$> rows df.
Proof.
  intros Hne. unfold converted_table. destruct (coercion_of c); [done|..]; cbn [rows];
    (apply other_column_of_zip; [done|apply length_convert_column]).
Qed.

Lemma converted_keep (df : DataFrame) (c : FilterCondition) :
  coercion_of c = Keep → converted df c = df.
Proof.
  intros Hk. unfold converted, coerce_row. rewrite Hk.
  destruct df as [cs rs]. simpl. f_equal.
  rewrite <- (list_fmap_id rs) at 2. by apply list_fmap_ext.
Qed.

Lemma converted_str (df : DataFrame) (c : FilterCondition) :
  coercion_of c = ToStr →
  converted df c
  = mkDF (columns df) (map_column (column c) (λ x, CStr (str_cell x)) <$> rows df).
Proof. intros Hk. unfold converted, coerce_row. by rewrite Hk. Qed.

Lemma converted_date (df : DataFrame) (c : FilterCondition) (fmt : string) :
  coercion_of c = ToDate fmt →
  converted df c
  = mkDF (columns df) (map_column (column c) (to_datetime_cell fmt) <$> rows df).
Proof. intros Hk. unfold converted, coerce_row. by rewrite Hk. Qed.

(** The conversion to dates is made cell by cell. *)
Lemma converted_table_date (df : DataFrame) (c : FilterCondition) (fmt : string) :
  coercion_of c = ToDate fmt → converted_table df c = converted df c.
Proof.
  intros Hk. rewrite (converted_date _ _ _ Hk). unfold converted_table. rewrite Hk.
  simpl. unfold to_datetime_coerce. by rewrite zip_with_set_cell.
Qed.

Lemma converted_table_keep (df : DataFrame) (c : FilterCondition) :
  coercion_of c = Keep → converted_table df c = df.
Proof. intros Hk. unfold converted_table. by rewrite Hk. Qed.

(** So is the conversion to text, on a column without dates. *)
Lemma converted_table_plain (df : DataFrame) (c : FilterCondition) :
  coercion_of c = ToStr →
  forallb (λ r, negb (is_datetime_cell (cell_at (column c) r))) (rows df) = true →
  converted_table df c = converted df c.
Proof.
  intros Hk Hp. rewrite (converted_str _ _ Hk). unfold converted_table. rewrite Hk.
  simpl. rewrite astype_str_plain, zip_with_set_cell; [done|].
  apply datetime64_plain. clear Hk. induction (rows df) as [|r rs IH]; [done|].
  rewrite fmap_cons. simpl in *. apply andb_true_iff in Hp as [-> Hp]. by apply IH.
Qed.

Lemma coercion_of_date (c : FilterCondition) :
  startswith (condition c) "date_" = true → coercion_of c = ToDate (date_format c).
Proof. intros Hd. unfold coercion_of. by rewrite Hd. Qed.

Lemma coercion_of_plain (c : FilterCondition) :
  startswith (condition c) "date_" = false →
  coercion_of c
  = if bool_decide (condition c ∈ ["contains"; "starts_with"]) then ToStr else Keep.
Proof. intros Hd. unfold coercion_of. by rewrite Hd. Qed.

Lemma has_column_columns (df df' : DataFrame) (col : string) :
  columns df' = columns df → has_column df' col = has_column df col.
Proof. intros H. unfold has_column. by rewrite H. Qed.

Lemma fmap_const {A B C} (b : C) (g : A → B) (l : list A) :
  (λ _, b) <$> (g <$> l) = (λ _, b) <$> l.
Proof. by rewrite <- list_fmap_compose. Qed.

Lemma const_length {A B C} (b : C) (l : list A) (k : list B) :
  length l = length k → (λ _, b) <$> l = (λ _, b) <$> k.
Proof.
  revert k. induction l as [|x l IH]; intros [|y k] Hlen; simpl in *; try done.
  f_equal. apply IH. lia.
Qed.

(** *** A call, in two steps *)

(** On a table that has the column, a call computes the mask of the
    condition on the converted column and leaves the converted table. *)
Lemma apply_column (df : DataFrame) (c : FilterCondition) :
  has_column df (column c) = true →
  apply_filter_condition df c = (m ← mask_on df c; Ok (converted_table df c, m)).
Proof.
  intros Hcol. unfold apply_filter_condition, mask_on, evaluate.
  destruct (startswith (condition c) "date_") eqn:Hd.
  - pose proof (coercion_of_date _ Hd) as Hk.
    rewrite (getitem_ok _ _ Hcol). simpl.
    rewrite (date_conversion _ _ _ Hcol).
    rewrite <- (converted_date _ _ _ Hk), <- (converted_table_date _ _ _ Hk).
    change (match value_of c with
            | VCell (CStr s) => to_datetime_scalar (date_format c) s
            | v => Ok v
            end) with (filter_date_of c).
    destruct (filter_date_of c) as [fd|e]; simpl; [|done].
    assert (getitem (converted_table df c) (column c)
            = Ok (convert (coercion_of c) (cell_at (column c) <$> rows df))) as ->.
    { rewrite getitem_ok; [by rewrite converted_table_column|].
      by rewrite (has_column_columns _ _ _ (converted_table_columns df c)). }
    assert (full_mask true (converted_table df c)
            = (λ _, true) <$> convert (coercion_of c) (cell_at (column c) <$> rows df))
      as ->.
    { unfold full_mask. apply const_length.
      by rewrite converted_table_length, length_convert, length_fmap. }
    simpl. repeat case_match; simpl; try done;
      try (destruct (dt_date _); simpl; [|done]);
      try (destruct (date_method _); simpl; [|done]);
      try (destruct (dates_compare _ _ _); simpl; done); done.
  - rewrite (coercion_of_plain _ Hd).
    rewrite (getitem_ok _ _ Hcol).
    destruct (bool_decide (condition c ∈ ["contains"; "starts_with"])) eqn:Hs; simpl.
    + assert (coercion_of c = ToStr) as Hk by (by rewrite (coercion_of_plain _ Hd), Hs).
      assert (setitem df (column c) (astype_str (cell_at (column c) <$> rows df))
              = converted_table df c) as ->.
      { unfold setitem, converted_table. by rewrite Hcol, Hk. }
      assert (getitem (converted_table df c) (column c)
              = Ok (astype_str (cell_at (column c) <$> rows df))) as ->.
      { rewrite getitem_ok; [by rewrite converted_table_column, Hk|].
        by rewrite (has_column_columns _ _ _ (converted_table_columns df c)). }
      apply bool_decide_eq_true_1 in Hs.
      apply elem_of_cons in Hs as [Hs|Hs];
        [|apply elem_of_cons in Hs as [Hs|Hs]; [|by apply elem_of_nil in Hs]];
        rewrite Hs; simpl; [by destruct (str_contains _ _)|done].
    + assert (coercion_of c = Keep) as Hk by (by rewrite (coercion_of_plain _ Hd), Hs).
      rewrite (converted_table_keep _ _ Hk).
      apply bool_decide_eq_false_1 in Hs.
      assert (String.eqb (condition c) "contains" = false) as N4.
      { apply String.eqb_neq. intros E. apply Hs. rewrite E. left. }
      assert (String.eqb (condition c) "starts_with" = false) as N5.
      { apply String.eqb_neq. intros E. apply Hs. rewrite E. right. left. }
      rewrite N4, N5, (getitem_ok _ _ Hcol). simpl.
      unfold full_mask. rewrite fmap_const.
      repeat case_match; simpl; try done.
Qed.

Ltac returned H :=
  repeat match type of H with
         | (?r ≫= _) = Ok _ => destruct r eqn:?; simpl in H; [|done]
         end.

(** *** The shape of what a call returns *)

Lemma dt_date_length (s : Series) (ds : list (option date)) :
  dt_date s = Ok ds → length ds = length s.
Proof. unfold dt_date. case_match; [|done]. intros [= <-]. by rewrite length_fmap. Qed.

Lemma dates_compare_length (test : comparison → bool) (ds : list (option date))
    (d : option date) (m : Mask) :
  dates_compare test ds d = Ok m → length m = length ds.
Proof.
  unfold dates_compare. destruct d; [case_match; [done|]|];
    intros [= <-]; by rewrite length_fmap.
Qed.

Lemma series_eq_length (s : Series) (v : value) (m : Mask) :
  series_eq s v = Ok m → length m = length s.
Proof.
  unfold series_eq. destruct v as [y|l].
  - repeat case_match; intros [= <-]; by rewrite length_fmap.
  - case_bool_decide; [|done]. intros [= <-]. rewrite length_zip_with. lia.
Qed.

Lemma series_compare_length (test : comparison → bool) (s : Series) (v : value) (m : Mask) :
  series_compare test s v = Ok m → length m = length s.
Proof.
  unfold series_compare. destruct v as [y|l].
  - repeat case_match; try done; apply length_traverse.
  - case_bool_decide; [|done]. intros Ht%length_traverse.
    rewrite Ht, length_zip_with. lia.
Qed.

Lemma str_contains_length (s : Series) (pat : string) (m : Mask) :
  str_contains s pat = Ok m → length m = length s.
Proof. unfold str_contains. case_match; [|done]. intros [= <-]. by rewrite length_fmap. Qed.

Lemma isin_length (s : Series) (v : value) (m : Mask) :
  isin s v = Ok m → length m = length s.
Proof.
  unfold isin, isin_list. case_match; [done|].
  case_match; intros [= <-]; by rewrite length_fmap.
Qed.

Lemma evaluate_length (c : FilterCondition) (s : Series) (m : Mask) :
  evaluate c s = Ok m → length m = length s.
Proof.
  unfold evaluate, dates_equal, str_startswith.
  repeat case_match; simpl; intros Hok; returned Hok; simplify_eq;
    rewrite ?length_fmap;
    repeat match goal with
           | H : dates_compare _ _ _ = Ok _ |- _ => apply dates_compare_length in H
           | H : dt_date _ = Ok _ |- _ => apply dt_date_length in H
           | H : series_eq _ _ = Ok _ |- _ => apply series_eq_length in H
           | H : series_compare _ _ _ = Ok _ |- _ => apply series_compare_length in H
           | H : str_contains _ _ = Ok _ |- _ => apply str_contains_length in H
           | H : isin _ _ = Ok _ |- _ => apply isin_length in H
           end; congruence.
Qed.

Lemma mask_on_length (df : DataFrame) (c : FilterCondition) (m : Mask) :
  mask_on df c = Ok m → length m = length (rows df).
Proof.
  intros H%evaluate_length. by rewrite H, length_convert_column.
Qed.

Lemma apply_missing_column (df df' : DataFrame) (c : FilterCondition) (mask : Mask) :
  has_column df (column c) = false →
  apply_filter_condition df c = Ok (df', mask) →
  df' = df ∧ mask = full_mask true df.
Proof.
  intros Hcol. unfold apply_filter_condition.
  rewrite !(getitem_missing _ _ Hcol).
  destruct (startswith (condition c) "date_"); simpl; [done|].
  destruct (bool_decide (condition c ∈ ["contains"; "starts_with"])); simpl; [done|].
  rewrite !(getitem_missing _ _ Hcol).
  repeat case_match; simpl; try done. by intros [= <- <-].
Qed.

(** A call that returns, on a table that has the column. *)
Lemma apply_returns (df df' : DataFrame) (c : FilterCondition) (mask : Mask) :
  has_column df (column c) = true →
  apply_filter_condition df c = Ok (df', mask) →
  df' = converted_table df c ∧ mask_on df c = Ok mask.
Proof.
  intros Hcol. rewrite (apply_column _ _ Hcol).
  destruct (mask_on df c); simpl; [|done]. by intros [= <- <-].
Qed.

(** The mask of a call that returns has one entry per row. *)
Lemma apply_mask_length (df df' : DataFrame) (c : FilterCondition) (mask : Mask) :
  apply_filter_condition df c = Ok (df', mask) →
  length mask = length (rows df).
Proof.
  intros Hok. destruct (has_column df (column c)) eqn:Hcol.
  - apply apply_returns in Hok as [_ Hm]; [|done]. by eapply mask_on_length.
  - apply apply_missing_column in Hok as [_ ->]; [|done].
    unfold full_mask. by rewrite length_fmap.
Qed.

Lemma apply_keeps_labels (df df' : DataFrame) (c : FilterCondition) (mask : Mask) :
  apply_filter_condition df c = Ok (df', mask) →
  columns df' = columns df ∧ label <$> rows df' = label <$> rows df.
Proof.
  intros Hok. destruct (has_column df (column c)) eqn:Hcol.
  - apply apply_returns in Hok as [-> _]; [|done].
    split; [apply converted_table_columns|apply converted_table_labels].
  - by apply apply_missing_column in Hok as [-> _].
Qed.

(** *** The errors of a call *)

Lemma cell_compare_raise (test : comparison → bool) (x y : cell) (e : exn) :
  cell_compare test x y = Raise e → e = TypeError.
Proof.
  unfold cell_compare. destruct (isna x || isna y); [done|].
  destruct x, y; simpl; congruence.
Qed.

Lemma series_compare_raise (test : comparison → bool) (s : Series) (v : value) (e : exn) :
  series_compare test s v = Raise e → evaluation_error e = true.
Proof.
  destruct v as [y|l]; simpl.
  - repeat case_match; try (by intros [= <-]);
      intros (x & _ & Hx)%traverse_raise; by apply cell_compare_raise in Hx as ->.
  - case_bool_decide; [|by intros [= <-]].
    intros (x & _ & Hx)%traverse_raise. by apply cell_compare_raise in Hx as ->.
Qed.

Lemma filter_date_of_raise (c : FilterCondition) (e : exn) :
  filter_date_of c = Raise e → e = ValueError.
Proof.
  unfold filter_date_of, to_datetime_scalar.
  destruct (value_of c) as [[]|]; try done.
  destruct (parse_datetime _ _); congruence.
Qed.

Lemma date_method_raise (v : value) (e : exn) :
  date_method v = Raise e → e = AttributeError.
Proof. destruct v as [[]|]; simpl; by intros [= <-]. Qed.

Lemma dates_compare_raise (test : comparison → bool) (ds : list (option date))
    (d : option date) (e : exn) :
  dates_compare test ds d = Raise e → e = TypeError.
Proof. unfold dates_compare. repeat case_match; by intros [= <-]. Qed.

Lemma dt_date_raise (s : Series) (e : exn) :
  dt_date s = Raise e → e = AttributeError.
Proof. unfold dt_date. case_match; by intros [= <-]. Qed.

Lemma series_eq_raise (s : Series) (v : value) (e : exn) :
  series_eq s v = Raise e → e = ValueError.
Proof. unfold series_eq. repeat case_match; by intros [= <-]. Qed.

Lemma isin_raise (s : Series) (v : value) (e : exn) :
  isin s v = Raise e → e = TypeError.
Proof. unfold isin. repeat case_match; by intros [= <-]. Qed.

Lemma str_contains_raise (s : Series) (pat : string) (e : exn) :
  str_contains s pat = Raise e → e = ReError.
Proof. unfold str_contains. case_match; by intros [= <-]. Qed.

Ltac raise_binds H :=
  repeat match type of H with
         | (?r ≫= _) = Raise _ => destruct r eqn:?; simpl in H
         end;
  simplify_eq;
  repeat match goal with
         | H' : filter_date_of _ = Raise _ |- _ => apply filter_date_of_raise in H' as ->
         | H' : date_method _ = Raise _ |- _ => apply date_method_raise in H' as ->
         | H' : dates_compare _ _ _ = Raise _ |- _ => apply dates_compare_raise in H' as ->
         | H' : dt_date _ = Raise _ |- _ => apply dt_date_raise in H' as ->
         | H' : series_eq _ _ = Raise _ |- _ => apply series_eq_raise in H' as ->
         | H' : isin _ _ = Raise _ |- _ => apply isin_raise in H' as ->
         | H' : str_contains _ _ = Raise _ |- _ => apply str_contains_raise in H' as ->
         | H' : series_compare _ _ _ = Raise _ |- _ => apply series_compare_raise in H'
         end;
  try done.

Lemma evaluate_raise (c : FilterCondition) (s : Series) (e : exn) :
  evaluate c s = Raise e → evaluation_error e = true.
Proof.
  unfold evaluate. repeat case_match; simpl; try done; intros Hr; raise_binds Hr.
Qed.

(** On a table that has the column, a call raises evaluation errors only. *)
Lemma apply_filter_condition_raise (df : DataFrame) (c : FilterCondition) (e : exn) :
  has_column df (column c) = true →
  apply_filter_condition df c = Raise e →
  evaluation_error e = true.
Proof.
  intros Hcol. rewrite (apply_column _ _ Hcol). unfold mask_on.
  destruct (evaluate _ _) eqn:He; simpl; [done|].
  intros [= <-]. by eapply evaluate_raise.
Qed.

(** *** The loops *)

Lemma boolean_index_sublist (rs : list Row) (mask : Mask) :
  boolean_index rs mask `sublist_of` rs.
Proof.
  revert mask. induction rs as [|r rs IH]; intros [|b mask]; simpl.
  - constructor.
  - constructor.
  - apply sublist_nil_l.
  - destruct b; [by apply sublist_skip|by apply sublist_cons].
Qed.

Lemma boolean_index_none (rs : list Row) :
  boolean_index rs ((λ _, false) <$> rs) = [].
Proof. induction rs as [|r rs IH]; [done|]. by rewrite fmap_cons. Qed.

Lemma or_conditions_keeps_labels (cs : list FilterCondition) :
  ∀ (df df' : DataFrame) (gm gm' : Mask),
    or_conditions df gm cs = Ok (df', gm') →
    columns df' = columns df ∧ label <$> rows df' = label <$> rows df.
Proof.
  induction cs as [|c cs IH]; intros df df' gm gm'; simpl.
  - by intros [= <- _].
  - destruct (has_column df (column c)); simpl; [|done].
    destruct (apply_filter_condition df c) as [[df1 m]|] eqn:Happ; simpl; [|done].
    apply apply_keeps_labels in Happ as [Hc Hl].
    intros [Hc' Hl']%IH. split; congruence.
Qed.

Lemma filter_step_sublist (item : filter_item) (df df' : DataFrame) :
  filter_step df item = Ok df' →
  columns df' = columns df ∧
  label <$> rows df' `sublist_of` label <$> rows df.
Proof.
  destruct item as [c|g]; simpl.
  - destruct (has_column df (column c)); simpl; [|done].
    destruct (apply_filter_condition df c) as [[df1 m]|] eqn:Happ; simpl; [|done].
    apply apply_keeps_labels in Happ as [Hc Hl]. intros [= <-]. simpl.
    split; [done|]. rewrite <- Hl. apply fmap_sublist, boolean_index_sublist.
  - destruct (or_conditions _ _ _) as [[df1 m]|] eqn:Hor; simpl; [|done].
    apply or_conditions_keeps_labels in Hor as [Hc Hl]. intros [= <-]. simpl.
    split; [done|]. rewrite <- Hl. apply fmap_sublist, boolean_index_sublist.
Qed.

Lemma filter_loop_sublist (items : list filter_item) :
  ∀ df df' : DataFrame,
    filter_loop df items = Ok df' →
    columns df' = columns df ∧
    label <$> rows df' `sublist_of` label <$> rows df.
Proof.
  induction items as [|item items IH]; intros df df'; simpl.
  - by intros [= <-].
  - destruct (filter_step df item) as [df1|] eqn:Hstep; simpl; [|done].
    apply filter_step_sublist in Hstep as [Hc Hl].
    intros [Hc' Hl']%IH. split; [congruence|by etrans].
Qed.

Lemma filter_loop_app (df : DataFrame) (items1 items2 : list filter_item) :
  filter_loop df (items1 ++ items2)
  = (df1 ← filter_loop df items1; filter_loop df1 items2).
Proof.
  revert df. induction items1 as [|item items1 IH]; intros df; simpl; [done|].
  destruct (filter_step df item); simpl; [apply IH|done].
Qed.

Lemma filter_excel_data_ok (fs fs' : Files) (input_file : string)
    (items : list filter_item) (out : option string) (df df' : DataFrame) :
  fs !! input_file = Some df →
  filter_excel_data fs input_file items out = (fs', Ok df') →
  filter_loop df items = Ok df'.
Proof.
  intros Hin. unfold filter_excel_data. rewrite Hin.
  destruct (filter_loop df items) as [d|]; [|by intros [= _]].
  destruct out as [path|]; [destruct (bool_decide _)|]; by intros [= _ ->].
Qed.

Lemma all_conditions_cons (item : filter_item) (items : list filter_item) :
  all_conditions (item :: items) = conditions_of item ++ all_conditions items.
Proof. done. Qed.

Lemma all_conditions_app (items1 items2 : list filter_item) :
  all_conditions (items1 ++ items2) = all_conditions items1 ++ all_conditions items2.
Proof. unfold all_conditions. apply bind_app. Qed.

Lemma mask_or_false (df : DataFrame) (m : Mask) :
  length m = length (rows df) → mask_or (full_mask false df) m = m.
Proof.
  unfold mask_or, full_mask. generalize (rows df). intros l. revert m.
  induction l as [|r l IH]; intros [|b m] Hlen; simpl in *; try done.
  f_equal. apply IH. lia.
Qed.

(** A round on a single condition is the round on the group of that
    condition. *)
Lemma filter_step_conditions (item : filter_item) (df : DataFrame) :
  filter_step df item = filter_step df (Group (mkGroup (conditions_of item))).
Proof.
  destruct item as [c|[cs]]; [|done]. simpl.
  destruct (has_column df (column c)); simpl; [|done].
  destruct (apply_filter_condition df c) as [[df1 m]|e] eqn:Happ; simpl; [|done].
  by rewrite (mask_or_false _ _ (apply_mask_length _ _ _ _ Happ)).
Qed.

(** The inner loop on conditions that all find their column: it returns,
    or one of them raises an error of its own. *)
Lemma or_conditions_present (cs : list FilterCondition) :
  ∀ (df : DataFrame) (gm : Mask),
    (∀ c, c ∈ cs → has_column df (column c) = true) →
    match or_conditions df gm cs with
    | Ok (df', _) => columns df' = columns df
    | Raise e =>
        evaluation_error e = true ∧
        ∃ c df', c ∈ cs ∧ columns df' = columns df ∧
                 apply_filter_condition df' c = Raise e
    end.
Proof.
  induction cs as [|c cs IH]; intros df gm Hall; simpl; [done|].
  rewrite (Hall c) by left. simpl.
  destruct (apply_filter_condition df c) as [[df1 m]|e] eqn:Happ; simpl.
  - pose proof (apply_keeps_labels _ _ _ _ Happ) as [Hc _].
    specialize (IH df1 (mask_or gm m)).
    destruct (or_conditions df1 _ cs) as [[df2 gm2]|e].
    + rewrite IH; [done|]. intros c' Hc'.
      rewrite (has_column_columns _ _ _ Hc). apply Hall. by right.
    + destruct IH as (He & c' & df' & Hc' & Hcols & Hr).
      { intros c' Hc'. rewrite (has_column_columns _ _ _ Hc). apply Hall. by right. }
      split; [done|]. exists c', df'. split; [by right|]. split; [congruence|done].
  - split; [by eapply apply_filter_condition_raise; [apply Hall; left|]|].
    exists c, df. split; [left|done].
Qed.

(** The inner loop on conditions the first of which to miss its column
    is [c]: it raises the error of the missing column, unless a condition
    before [c] raised an error of its own. *)
Lemma or_conditions_missing (before : list FilterCondition) :
  ∀ (c : FilterCondition) (after : list FilterCondition) (df : DataFrame) (gm : Mask),
    (∀ c', c' ∈ before → has_column df (column c') = true) →
    has_column df (column c) = false →
    ∃ e, or_conditions df gm (before ++ c :: after) = Raise e ∧
         (e = column_not_found (column c) ∨
          (evaluation_error e = true ∧
           ∃ c' df', c' ∈ before ∧ columns df' = columns df ∧
                     apply_filter_condition df' c' = Raise e)).
Proof.
  induction before as [|c1 before IH]; intros c after df gm Hall Hmiss; simpl.
  - rewrite Hmiss. simpl. eexists. split; [done|by left].
  - rewrite (Hall c1) by left. simpl.
    destruct (apply_filter_condition df c1) as [[df1 m]|e] eqn:Happ; simpl.
    + pose proof (apply_keeps_labels _ _ _ _ Happ) as [Hc _].
      destruct (IH c after df1 (mask_or gm m)) as (e & -> & He).
      { intros c' Hc'. rewrite (has_column_columns _ _ _ Hc). apply Hall. by right. }
      { by rewrite (has_column_columns _ _ _ Hc). }
      exists e. split; [done|].
      destruct He as [->|(He & c' & df' & Hc' & Hcols & Hr)]; [by left|].
      right. split; [done|]. exists c', df'. split; [by right|]. split; [congruence|done].
    + exists e. split; [done|]. right.
      split; [by eapply apply_filter_condition_raise; [apply Hall; left|]|].
      exists c1, df. split; [left|done].
Qed.

Lemma filter_step_present (item : filter_item) (df : DataFrame) :
  (∀ c, c ∈ conditions_of item → has_column df (column c) = true) →
  match filter_step df item with
  | Ok df' => columns df' = columns df
  | Raise e =>
      evaluation_error e = true ∧
      ∃ c df', c ∈ conditions_of item ∧ columns df' = columns df ∧
               apply_filter_condition df' c = Raise e
  end.
Proof.
  intros Hall. rewrite filter_step_conditions. simpl.
  pose proof (or_conditions_present (conditions_of item) df (full_mask false df) Hall) as H.
  by destruct (or_conditions _ _ _) as [[df1 gm]|e].
Qed.

Lemma filter_step_missing (item : filter_item) (df : DataFrame)
    (before after : list FilterCondition) (c : FilterCondition) :
  conditions_of item = before ++ c :: after →
  (∀ c', c' ∈ before → has_column df (column c') = true) →
  has_column df (column c) = false →
  ∃ e, filter_step df item = Raise e ∧
       (e = column_not_found (column c) ∨
        (evaluation_error e = true ∧
         ∃ c' df', c' ∈ before ∧ columns df' = columns df ∧
                   apply_filter_condition df' c' = Raise e)).
Proof.
  intros Hsplit Hall Hmiss. rewrite filter_step_conditions, Hsplit. simpl.
  destruct (or_conditions_missing before c after df (full_mask false df) Hall Hmiss)
    as (e & -> & He).
  by exists e.
Qed.

(** The outer loop on an expression the first condition of which to miss
    its column is [c]. *)
Lemma filter_loop_missing (items : list filter_item) :
  ∀ (df : DataFrame) (before after : list FilterCondition) (c : FilterCondition),
    all_conditions items = before ++ c :: after →
    (∀ c', c' ∈ before → has_column df (column c') = true) →
    has_column df (column c) = false →
    ∃ e, filter_loop df items = Raise e ∧
         (e = column_not_found (column c) ∨
          (evaluation_error e = true ∧
           ∃ c' df', c' ∈ before ∧ columns df' = columns df ∧
                     apply_filter_condition df' c' = Raise e)).
Proof.
  induction items as [|item items IH]; intros df before after c Hsplit Hall Hmiss.
  - by destruct before.
  - rewrite all_conditions_cons in Hsplit. simpl.
    apply app_eq_app in Hsplit as [l [[H1 H2]|[H1 H2]]].
    + (* the conditions of the element reach into, or up to, [c] *)
      destruct l as [|c0 l].
      * rewrite app_nil_r in H1. simpl in H2.
        pose proof (filter_step_present item df) as Hstep.
        destruct (filter_step df item) as [df1|e]; simpl.
        -- destruct (IH df1 [] after c) as (e & -> & He).
           { done. } { by intros c' ?%elem_of_nil. }
           { rewrite (has_column_columns df df1); [done|].
             apply Hstep. intros c' Hc'. apply Hall. by rewrite <- H1. }
           exists e. split; [done|].
           destruct He as [->|(_ & c' & _ & Hc' & _)]; [by left|].
           by apply elem_of_nil in Hc'.
        -- exists e. split; [done|]. right.
           destruct Hstep as (He & c' & df' & Hc' & Hr).
           { intros c' Hc'. apply Hall. by rewrite <- H1. }
           split; [done|]. exists c', df'. by rewrite <- H1.
      * injection H2 as <- ->.
        destruct (filter_step_missing item df before l c H1 Hall Hmiss) as (e & -> & He).
        by exists e.
    + (* the conditions of the element all come before [c] *)
      pose proof (filter_step_present item df) as Hstep.
      assert (∀ c', c' ∈ conditions_of item → has_column df (column c') = true) as Hitem.
      { intros c' Hc'. apply Hall. rewrite H1. apply elem_of_app. by left. }
      specialize (Hstep Hitem).
      destruct (filter_step df item) as [df1|e]; simpl.
      * destruct (IH df1 l after c) as (e & -> & He).
        { done. }
        { intros c' Hc'. rewrite (has_column_columns _ _ _ Hstep).
          apply Hall. rewrite H1. apply elem_of_app. by right. }
        { by rewrite (has_column_columns _ _ _ Hstep). }
        exists e. split; [done|].
        destruct He as [->|(He & c' & df' & Hc' & Hcols & Hr)]; [by left|].
        right. split; [done|]. exists c', df'.
        split; [rewrite H1; apply elem_of_app; by right|]. split; [congruence|done].
      * exists e. split; [done|]. right.
        destruct Hstep as (He & c' & df' & Hc' & Hr).
        split; [done|]. exists c', df'. split; [|done].
        rewrite H1. apply elem_of_app. by left.
Qed.

Lemma first_missing (df : DataFrame) (cs : list FilterCondition) (c0 : FilterCondition) :
  c0 ∈ cs → has_column df (column c0) = false →
  ∃ before c after,
    cs = before ++ c :: after ∧
    (∀ c', c' ∈ before → has_column df (column c') = true) ∧
    has_column df (column c) = false.
Proof.
  induction cs as [|c1 cs IH]; intros Hin Hmiss; [by apply elem_of_nil in Hin|].
  destruct (has_column df (column c1)) eqn:H1.
  - apply elem_of_cons in Hin as [->|Hin]; [congruence|].
    destruct (IH Hin Hmiss) as (before & c & after & -> & Hall & Hc).
    exists (c1 :: before), c, after. split; [done|]. split; [|done].
    by intros c' [->|?]%elem_of_cons; [|apply Hall].
  - exists [], c1, cs. split; [done|]. split; [|done]. by intros c' ?%elem_of_nil.
Qed.

(** C8 (amended).  When the expression names a column that the loaded
    table does not have, the call returns no table and writes no file:
    it raises.  With [c] the first condition, in the order of
    evaluation, to name such a column, what it raises is the error of a
    missing column, with the message "Column '<name>' not found in the
    Excel file" for the column of [c], unless the evaluation of a
    condition before [c] raised an error of its own (a [ValueError], a
    [TypeError], an [AttributeError] or the error of a pattern); when no
    condition comes before [c], it is the error of the missing column. *)
Theorem missing_column_raises (fs : Files) (input_file : string)
    (items : list filter_item) (out : option string) (df : DataFrame)
    (c0 : FilterCondition) :
  fs !! input_file = Some df →
  c0 ∈ all_conditions items →
  has_column df (column c0) = false →
  ∃ before c after e,
    all_conditions items = before ++ c :: after ∧
    (∀ c', c' ∈ before → has_column df (column c') = true) ∧
    has_column df (column c) = false ∧
    filter_excel_data fs input_file items out = (fs, Raise e) ∧
    (e = KeyError ("Column '" +:+ column c +:+ "' not found in the Excel file") ∨
     (evaluation_error e = true ∧
      ∃ c' df', c' ∈ before ∧ columns df' = columns df ∧
                apply_filter_condition df' c' = Raise e)) ∧
    (before = [] →
     e = KeyError ("Column '" +:+ column c +:+ "' not found in the Excel file")).
Proof.
  intros Hin Hc0 Hmiss0. unfold filter_excel_data. rewrite Hin.
  destruct (first_missing df _ c0 Hc0 Hmiss0) as (before & c & after & Hsplit & Hall & Hmiss).
  destruct (filter_loop_missing items df before after c Hsplit Hall Hmiss)
    as (e & -> & He).
  exists before, c, after, e. do 4 (split; [done|]). split; [done|].
  intros ->. destruct He as [->|(_ & c' & _ & Hc' & _)]; [done|].
  by apply elem_of_nil in Hc'.
Qed.

(** C7.  An empty group leaves no row and raises nothing: the round of
    the loop on it returns the table without rows; so does the loop once
    the elements before it have been processed; and whatever follows,
    a table that the call returns has no row. *)
Theorem empty_group_leaves_no_row :
  (∀ df : DataFrame,
     filter_step df (Group (mkGroup [])) = Ok (mkDF (columns df) [])) ∧
  (∀ (df df1 : DataFrame) (before : list filter_item),
     filter_loop df before = Ok df1 →
     filter_loop df (before ++ [Group (mkGroup [])]) = Ok (mkDF (columns df1) [])) ∧
  (∀ (fs fs' : Files) (input_file : string) (before after : list filter_item)
     (out : option string) (df df' : DataFrame),
     fs !! input_file = Some df →
     filter_excel_data fs input_file (before ++ Group (mkGroup []) :: after) out
       = (fs', Ok df') →
     rows df' = []).
Proof.
  assert (∀ df : DataFrame,
            filter_step df (Group (mkGroup [])) = Ok (mkDF (columns df) [])) as Hstep.
  { intros df. simpl. unfold select, full_mask. simpl. by rewrite boolean_index_none. }
  split; [done|]. split.
  - intros df df1 before Hb. rewrite filter_loop_app, Hb.
    cbn [mbind result_bind filter_loop]. by rewrite Hstep.
  - intros fs fs' input_file before after out df df' Hin Hrun.
    apply (filter_excel_data_ok _ _ _ _ _ _ _ Hin) in Hrun.
    rewrite filter_loop_app in Hrun.
    destruct (filter_loop df before) as [df1|]; [|done].
    cbn [mbind result_bind filter_loop] in Hrun. rewrite Hstep in Hrun.
    cbn [mbind result_bind] in Hrun.
    apply filter_loop_sublist in Hrun as [_ Hl]. simpl in Hl.
    apply sublist_nil_r in Hl. by apply fmap_nil_inv in Hl.
Qed.

(** C9 (amended).  A condition whose kind is none of the nine documented
    kinds: when the kind does not begin with "date_" the call raises
    nothing and returns the all-true mask, the table being left as it
    is; when it begins with "date_" the call first converts the column
    to dates and parses a text value by the format, so that it raises
    when the column is missing or the text does not parse, and returns
    the all-true mask otherwise. *)
Theorem undocumented_kind (df : DataFrame) (c : FilterCondition) :
  condition c ∉ documented_kinds →
  apply_filter_condition df c =
    if startswith (condition c) "date_" then
      if has_column df (column c)
      then _ ← filter_date_of c; Ok (converted df c, full_mask true df)
      else Raise (KeyError (column c))
    else Ok (df, full_mask true df).
Proof.
  intros Hk. unfold documented_kinds in Hk.
  assert (∀ k, k ∈ documented_kinds → String.eqb (condition c) k = false) as Hne.
  { intros k Hin. apply String.eqb_neq. intros E. apply Hk. by rewrite E. }
  unfold documented_kinds in Hne.
  destruct (startswith (condition c) "date_") eqn:Hd.
  - destruct (has_column df (column c)) eqn:Hcol.
    + rewrite (apply_column _ _ Hcol).
      rewrite (converted_table_date _ _ _ (coercion_of_date _ Hd)).
      unfold mask_on, evaluate. rewrite Hd, !Hne by (set_unfold; tauto).
      destruct (filter_date_of c); simpl; [|done]. do 2 f_equal.
      unfold full_mask. apply const_length. apply length_convert_column.
    + unfold apply_filter_condition. rewrite Hd, (getitem_missing _ _ Hcol). done.
  - unfold apply_filter_condition. rewrite Hd.
    rewrite bool_decide_eq_false_2.
    2:{ intros H. apply Hk. set_unfold. tauto. }
    simpl. rewrite !Hne by (set_unfold; tauto). done.
Qed.

(** *** The reading of an expression row by row *)

Lemma series_eq_plain (s : Series) (y : cell) :
  datetime64 s = false → series_eq s (VCell y) = Ok ((λ x, cell_eqb x y) <$> s).
Proof. intros H. unfold series_eq. by rewrite H. Qed.

Lemma series_compare_plain (test : comparison → bool) (s : Series) (y : cell) :
  datetime64 s = false →
  series_compare test s (VCell y) = traverse (λ x, cell_compare test x y) s.
Proof. intros H. unfold series_compare. by rewrite H. Qed.

Lemma dt_date_converted (fmt : string) (s : Series) :
  dt_date (to_datetime_coerce fmt s)
  = Ok ((λ x, match to_datetime_cell fmt x with
              | CTime t => Some (date_of t)
              | _ => None
              end) <$> s).
Proof.
  unfold dt_date, is_datetime64_any_dtype, to_datetime_coerce.
  rewrite forallb_fmap_true by (intros; apply to_datetime_cell_datetime).
  by rewrite <- list_fmap_compose.
Qed.

Lemma date_test_missing (test : comparison → bool) (o : option date) :
  date_test test o None = false.
Proof. by destruct o. Qed.

Lemma date_holds_test (test : comparison → bool) (x : cell) (d : option date) :
  date_test test (match x with CTime t => Some (date_of t) | _ => None end) d
  = date_holds test x d.
Proof. by destruct x, d. Qed.

Lemma dates_compare_ok (test : comparison → bool) (ds : list (option date))
    (d : option date) (m : Mask) :
  dates_compare test ds d = Ok m → m = (λ o, date_test test o d) <$> ds.
Proof.
  unfold dates_compare. destruct d; [case_match; [done|]|]; intros [= <-]; [done|].
  apply list_fmap_ext. intros i o _. by rewrite date_test_missing.
Qed.

Lemma plain_column (df : DataFrame) (c : FilterCondition) :
  startswith (condition c) "date_" = false →
  reads_no_date df c = true →
  forallb (λ x, negb (is_datetime_cell x)) (cell_at (column c) <$> rows df) = true.
Proof.
  intros Hd. unfold reads_no_date. rewrite Hd. simpl.
  induction (rows df) as [|r rs IH]; [done|]. rewrite fmap_cons. simpl.
  intros [-> H]%andb_true_iff. by apply IH.
Qed.

Lemma plain_rows (df : DataFrame) (c : FilterCondition) :
  startswith (condition c) "date_" = false →
  reads_no_date df c = true →
  forallb (λ r, negb (is_datetime_cell (cell_at (column c) r))) (rows df) = true.
Proof. intros Hd. unfold reads_no_date. by rewrite Hd. Qed.

(** The mask of a condition, for a column read cell by cell. *)
Lemma mask_on_holds (df : DataFrame) (c : FilterCondition) (mask : Mask) :
  positional c = false →
  reads_no_date df c = true →
  mask_on df c = Ok mask →
  mask = holds c <$> rows df.
Proof.
  intros Hpos Hplain. unfold mask_on, evaluate.
  assert (∀ r, holds c r = holds_on c (coerce (coercion_of c) (cell_at (column c) r)))
    as Hh by done.
  unfold holds_on, condition_date in Hh.
  destruct (startswith (condition c) "date_") eqn:Hd.
  - rewrite (coercion_of_date _ Hd) in *. simpl in *.
    rewrite dt_date_converted.
    destruct (filter_date_of c) as [fd|]; simpl in *; [|done].
    destruct (String.eqb (condition c) "date_equals") eqn:E1.
    { simpl. destruct (date_method fd) as [d|]; simpl in *; [|done]. intros [= <-].
      unfold dates_equal. rewrite <- !list_fmap_compose. apply list_fmap_ext.
      intros i r _. simpl. by rewrite Hh, date_holds_test. }
    destruct (String.eqb (condition c) "date_greater") eqn:E2.
    { simpl. destruct (date_method fd) as [d|]; simpl in *; [|done].
      intros ->%dates_compare_ok.
      rewrite <- !list_fmap_compose. apply list_fmap_ext.
      intros i r _. simpl. by rewrite Hh, date_holds_test. }
    destruct (String.eqb (condition c) "date_less") eqn:E3.
    { simpl. destruct (date_method fd) as [d|]; simpl in *; [|done].
      intros ->%dates_compare_ok.
      rewrite <- !list_fmap_compose. apply list_fmap_ext.
      intros i r _. simpl. by rewrite Hh, date_holds_test. }
    intros [= <-]. unfold to_datetime_coerce.
    rewrite <- !list_fmap_compose. apply list_fmap_ext.
    intros i r _. simpl. by rewrite Hh.
  - pose proof (plain_column _ _ Hd Hplain) as Hcells.
    pose proof (datetime64_plain _ Hcells) as Hobj.
    assert (String.eqb (condition c) "date_equals" = false) as N1.
    { apply String.eqb_neq. intros E. by rewrite E in Hd. }
    assert (String.eqb (condition c) "date_greater" = false) as N2.
    { apply String.eqb_neq. intros E. by rewrite E in Hd. }
    assert (String.eqb (condition c) "date_less" = false) as N3.
    { apply String.eqb_neq. intros E. by rewrite E in Hd. }
    rewrite N1, N2, N3 in Hh. clear N1 N2 N3.
    rewrite (coercion_of_plain _ Hd) in *.
    unfold positional in Hpos.
    destruct (bool_decide (condition c ∈ ["contains"; "starts_with"])) eqn:Hs.
    + rewrite (convert_plain ToStr) by done. simpl in *.
      apply bool_decide_eq_true_1 in Hs.
      apply elem_of_cons in Hs as [Hs|Hs];
        [|apply elem_of_cons in Hs as [Hs|Hs]; [|by apply elem_of_nil in Hs]];
        rewrite Hs in *; simpl in *.
      * unfold str_contains. destruct (re_valid _); [|done]. intros [= <-].
        rewrite <- !list_fmap_compose. apply list_fmap_ext. intros i r _. simpl.
        by rewrite Hh.
      * intros [= <-]. unfold str_startswith.
        rewrite <- !list_fmap_compose. apply list_fmap_ext. intros i r _. simpl.
        by rewrite Hh.
    + simpl in *. apply bool_decide_eq_false_1 in Hs.
      assert (String.eqb (condition c) "contains" = false) as N4.
      { apply String.eqb_neq. intros E. apply Hs. rewrite E. left. }
      assert (String.eqb (condition c) "starts_with" = false) as N5.
      { apply String.eqb_neq. intros E. apply Hs. rewrite E. right. left. }
      rewrite N4, N5 in *.
      destruct (String.eqb (condition c) "equals") eqn:E1.
      { apply String.eqb_eq in E1. rewrite E1 in Hpos. simpl in Hpos.
        destruct (value_of c) as [y|l] eqn:Hv; [|done].
        rewrite (series_eq_plain _ _ Hobj). intros [= <-].
        rewrite <- list_fmap_compose. apply list_fmap_ext. intros i r _. simpl.
        by rewrite Hh. }
      destruct (String.eqb (condition c) "in") eqn:E2.
      { destruct (value_of c) as [y|l] eqn:Hv; simpl; [done|].
        rewrite Hobj. intros [= <-]. unfold isin_list.
        rewrite <- list_fmap_compose. apply list_fmap_ext. intros i r _. simpl.
        by rewrite Hh. }
      destruct (String.eqb (condition c) "greater_than") eqn:E3.
      { apply String.eqb_eq in E3. rewrite E3 in Hpos. simpl in Hpos.
        destruct (value_of c) as [y|l] eqn:Hv; [|done].
        rewrite (series_compare_plain _ _ _ Hobj).
        intros Ht. apply (traverse_ok _ false) in Ht. rewrite Ht.
        rewrite <- list_fmap_compose. apply list_fmap_ext. intros i r _. simpl.
        by rewrite Hh. }
      destruct (String.eqb (condition c) "less_than") eqn:E4.
      { apply String.eqb_eq in E4. rewrite E4 in Hpos. simpl in Hpos.
        destruct (value_of c) as [y|l] eqn:Hv; [|done].
        rewrite (series_compare_plain _ _ _ Hobj).
        intros Ht. apply (traverse_ok _ false) in Ht. rewrite Ht.
        rewrite <- list_fmap_compose. apply list_fmap_ext. intros i r _. simpl.
        by rewrite Hh. }
      intros [= <-]. rewrite <- list_fmap_compose.
      apply list_fmap_ext. intros i r _. simpl. by rewrite Hh.
Qed.

Lemma converted_table_cells (df : DataFrame) (c : FilterCondition) :
  reads_no_date df c = true → converted_table df c = converted df c.
Proof.
  intros Hplain. destruct (startswith (condition c) "date_") eqn:Hd.
  - by apply (converted_table_date _ _ _ (coercion_of_date _ Hd)).
  - pose proof (coercion_of_plain _ Hd) as Hk.
    destruct (bool_decide _).
    + apply converted_table_plain; [done|]. by apply plain_rows.
    + by rewrite converted_table_keep, converted_keep.
Qed.

(** What a call that returns has computed, for a column read cell by
    cell: the converted table and, row by row, the reading of the
    condition. *)
Lemma apply_filter_condition_ok (df df' : DataFrame) (c : FilterCondition) (mask : Mask) :
  has_column df (column c) = true →
  positional c = false →
  reads_no_date df c = true →
  apply_filter_condition df c = Ok (df', mask) →
  df' = converted df c ∧ mask = holds c <$> rows df.
Proof.
  intros Hcol Hpos Hplain [-> Hm]%apply_returns; [|done].
  split; [by apply converted_table_cells|by apply mask_on_holds].
Qed.

Lemma coerce_idemp (k : coercion) (x : cell) : coerce k (coerce k x) = coerce k x.
Proof. destruct k; simpl; [done..|]. apply to_datetime_cell_idemp. Qed.

Lemma cell_at_coerce_row (c : FilterCondition) (col : string) (r : Row) :
  cell_at col (coerce_row c r)
  = if decide (column c = col) then coerce (coercion_of c) (cell_at col r)
    else cell_at col r.
Proof.
  unfold coerce_row. destruct (coercion_of c) eqn:Hk; simpl.
  - by destruct (decide _).
  - rewrite cell_at_map_column. by destruct (decide _); subst.
  - rewrite cell_at_map_column. by destruct (decide _); subst.
Qed.

Lemma coerce_rows_app (cs1 cs2 : list FilterCondition) (r : Row) :
  coerce_rows (cs1 ++ cs2) r = coerce_rows cs2 (coerce_rows cs1 r).
Proof. apply foldl_app. Qed.

(** Under agreeing conversions, earlier conversions do not change what a
    condition reads. *)
Lemma coerce_after (done : list FilterCondition) (c : FilterCondition) (r : Row) :
  (∀ c', c' ∈ done → column c' = column c → coercion_of c' = coercion_of c) →
  coerce (coercion_of c) (cell_at (column c) (coerce_rows done r))
  = coerce (coercion_of c) (cell_at (column c) r).
Proof.
  revert r. induction done as [|c' done IH]; intros r Hagree; [done|].
  unfold coerce_rows. simpl. fold (coerce_rows done (coerce_row c' r)).
  rewrite IH by (intros; apply Hagree; [by right|done]).
  rewrite cell_at_coerce_row. destruct (decide (column c' = column c)) as [E|]; [|done].
  rewrite (Hagree c') by (done || left). apply coerce_idemp.
Qed.

Lemma holds_after (done : list FilterCondition) (c : FilterCondition) (r : Row) :
  (∀ c', c' ∈ done → column c' = column c → coercion_of c' = coercion_of c) →
  holds c (coerce_rows done r) = holds c r.
Proof. intros H. unfold holds. by rewrite coerce_after. Qed.

(** Nor do they bring a date into a column that no date condition
    names. *)
Lemma plain_after (done : list FilterCondition) (c : FilterCondition) (r : Row) :
  (∀ c', c' ∈ done → column c' = column c → coercion_of c' = coercion_of c) →
  startswith (condition c) "date_" = false →
  is_datetime_cell (cell_at (column c) r) = false →
  is_datetime_cell (cell_at (column c) (coerce_rows done r)) = false.
Proof.
  intros Hagree Hd. revert r Hagree.
  induction done as [|c' done IH]; intros r Hagree Hr; [done|].
  unfold coerce_rows. simpl. fold (coerce_rows done (coerce_row c' r)).
  apply IH; [intros; apply Hagree; [by right|done]|].
  rewrite cell_at_coerce_row. destruct (decide (column c' = column c)) as [E|]; [|done].
  rewrite (Hagree c') by (done || left). rewrite (coercion_of_plain _ Hd).
  by destruct (bool_decide _).
Qed.

Lemma reads_no_date_after (df : DataFrame) (l : list Row)
    (done : list FilterCondition) (c : FilterCondition) :
  rows df = coerce_rows done <$> l →
  (∀ c', c' ∈ done → column c' = column c → coercion_of c' = coercion_of c) →
  (startswith (condition c) "date_" = false →
   ∀ r, r ∈ l → is_datetime_cell (cell_at (column c) r) = false) →
  reads_no_date df c = true.
Proof.
  intros Hrows Hagree Hplain. unfold reads_no_date.
  destruct (startswith (condition c) "date_") eqn:Hd; [done|]. simpl.
  rewrite Hrows. apply forallb_forall. intros r' Hr'.
  apply list_elem_of_In, list_elem_of_fmap in Hr' as (r & -> & Hr).
  apply negb_true_iff, plain_after; auto.
Qed.

Lemma zip_with_fmap_diag {A B C D} (f : B → C → D) (g : A → B) (h : A → C) (l : list A) :
  zip_with f (g <$> l) (h <$> l) = (λ x, f (g x) (h x)) <$> l.
Proof. induction l as [|x l IH]; [done|]. rewrite !fmap_cons. simpl. by rewrite IH. Qed.

Lemma boolean_index_mapped (g : Row → Row) (h : Row → bool) (l : list Row) :
  boolean_index (g <$> l) (h <$> l) = g <$> List.filter h l.
Proof.
  induction l as [|x l IH]; [done|]. rewrite !fmap_cons. simpl.
  destruct (h x); [rewrite fmap_cons|]; by rewrite IH.
Qed.

Lemma filter_filter_andb {A} (f g : A → bool) (l : list A) :
  List.filter g (List.filter f l) = List.filter (λ x, f x && g x) l.
Proof.
  induction l as [|x l IH]; [done|]. simpl.
  destruct (f x); simpl; [destruct (g x)|]; by rewrite IH.
Qed.

Lemma filter_all {A} (l : list A) : List.filter (λ _, true) l = l.
Proof. induction l as [|x l IH]; [done|]. simpl. by rewrite IH. Qed.

Lemma elem_of_filter_l {A} (f : A → bool) (x : A) (l : list A) :
  x ∈ List.filter f l → x ∈ l.
Proof. rewrite !list_elem_of_In. intros H. by apply filter_In in H as [? _]. Qed.

Lemma conversions_agree_app_l (cs1 cs2 : list FilterCondition) :
  conversions_agree (cs1 ++ cs2) → conversions_agree cs1.
Proof. intros H c1 c2 H1 H2. apply H; apply elem_of_app; by left. Qed.

(** The inner loop, when it ends without raising: [l] holds the rows the
    table came from, [done] the conditions evaluated so far and [m] the
    mask so far, row by row.  The columns that no date condition names
    hold no date in [l]. *)
Lemma or_conditions_ok (cs : list FilterCondition) :
  ∀ (df df' : DataFrame) (gm gm' : Mask) (l : list Row)
    (done : list FilterCondition) (m : Row → bool),
    rows df = coerce_rows done <$> l →
    gm = m <$> l →
    (∀ c, c ∈ cs → positional c = false) →
    conversions_agree (done ++ cs) →
    (∀ c r, c ∈ cs → r ∈ l → startswith (condition c) "date_" = false →
            is_datetime_cell (cell_at (column c) r) = false) →
    or_conditions df gm cs = Ok (df', gm') →
    columns df' = columns df ∧
    rows df' = coerce_rows (done ++ cs) <$> l ∧
    gm' = (λ r, m r || existsb (λ c, holds c r) cs) <$> l.
Proof.
  induction cs as [|c cs IH];
    intros df df' gm gm' l done m Hrows Hgm Hpos Hagree Hplain; simpl.
  - intros [= <- <-]. rewrite app_nil_r. do 2 (split; [done|]).
    rewrite Hgm. apply list_fmap_ext. intros i r _. by rewrite orb_false_r.
  - destruct (has_column df (column c)) eqn:Hcol; simpl; [|done].
    destruct (apply_filter_condition df c) as [[df1 mask]|] eqn:Happ; simpl; [|done].
    assert (∀ c', c' ∈ done → column c' = column c → coercion_of c' = coercion_of c)
      as Hc.
    { intros c' Hc' Hcc. apply Hagree; [apply elem_of_app; by left| |done].
      apply elem_of_app. right. left. }
    apply apply_filter_condition_ok in Happ as [-> ->];
      [|done|apply Hpos; left|].
    2:{ apply (reads_no_date_after _ l done); [done..|].
        intros Hd r Hr. apply Hplain; [left|done..]. }
    intros Hrest.
    apply (IH _ _ _ _ l (done ++ [c]) (λ r, m r || holds c r)) in Hrest.
    + destruct Hrest as (Hc' & Hr & Hm). split; [done|].
      rewrite <- app_assoc in Hr. split; [done|].
      rewrite Hm. apply list_fmap_ext. intros i r _. by rewrite orb_assoc.
    + simpl. rewrite Hrows, <- list_fmap_compose.
      apply list_fmap_ext. intros i r _. simpl. by rewrite coerce_rows_app.
    + rewrite Hgm, Hrows, <- list_fmap_compose. unfold mask_or.
      rewrite zip_with_fmap_diag. apply list_fmap_ext. intros i r _. simpl.
      f_equal. by apply holds_after.
    + intros c' Hc'. apply Hpos. by right.
    + by rewrite <- app_assoc.
    + intros c' r Hc' Hr. apply Hplain; [by right|done].
Qed.

(** One round of the outer loop. *)
Lemma filter_step_ok (item : filter_item) (df df' : DataFrame) (l : list Row)
    (done : list FilterCondition) :
  rows df = coerce_rows done <$> l →
  (∀ c, c ∈ conditions_of item → positional c = false) →
  conversions_agree (done ++ conditions_of item) →
  (∀ c r, c ∈ conditions_of item → r ∈ l → startswith (condition c) "date_" = false →
          is_datetime_cell (cell_at (column c) r) = false) →
  filter_step df item = Ok df' →
  columns df' = columns df ∧
  rows df' = coerce_rows (done ++ conditions_of item) <$> List.filter (item_holds item) l.
Proof.
  intros Hrows Hpos Hagree Hplain. rewrite filter_step_conditions. simpl.
  destruct (or_conditions _ _ _) as [[df1 gm]|] eqn:Hor; simpl; [|done].
  apply (or_conditions_ok _ _ _ _ _ l done (λ _, false)) in Hor; [|done| |done..].
  - destruct Hor as (Hc & Hr & ->). intros [= <-]. split; [done|]. simpl.
    rewrite Hr. rewrite boolean_index_mapped. f_equal.
    apply List.filter_ext. intros r. by destruct item; simpl; rewrite ?orb_false_r.
  - unfold full_mask. by rewrite Hrows, <- list_fmap_compose.
Qed.

(** The outer loop. *)
Lemma filter_loop_ok (items : list filter_item) :
  ∀ (df df' : DataFrame) (l : list Row) (done : list FilterCondition),
    rows df = coerce_rows done <$> l →
    (∀ c, c ∈ all_conditions items → positional c = false) →
    conversions_agree (done ++ all_conditions items) →
    (∀ c r, c ∈ all_conditions items → r ∈ l →
            startswith (condition c) "date_" = false →
            is_datetime_cell (cell_at (column c) r) = false) →
    filter_loop df items = Ok df' →
    columns df' = columns df ∧
    rows df' = coerce_rows (done ++ all_conditions items)
                 <$> List.filter (expr_holds items) l.
Proof.
  induction items as [|item items IH];
    intros df df' l done Hrows Hpos Hagree Hplain; simpl.
  - intros [= <-]. split; [done|]. rewrite app_nil_r.
    by rewrite filter_all.
  - rewrite all_conditions_cons in *.
    destruct (filter_step df item) as [df1|] eqn:Hstep; simpl; [|done].
    apply (filter_step_ok _ _ _ l done) in Hstep as [Hc1 Hr1]; [|done| | |].
    + intros Hloop.
      apply (IH _ _ (List.filter (item_holds item) l) (done ++ conditions_of item))
        in Hloop.
      * destruct Hloop as [Hc Hr]. split; [congruence|].
        rewrite <- app_assoc in Hr. rewrite Hr. by rewrite filter_filter_andb.
      * done.
      * intros c Hc. apply Hpos, elem_of_app. by right.
      * by rewrite <- app_assoc.
      * intros c r Hc Hr. apply Hplain; [apply elem_of_app; by right|].
        by eapply elem_of_filter_l.
    + intros c Hc. apply Hpos, elem_of_app. by left.
    + rewrite app_assoc in Hagree. by apply conversions_agree_app_l in Hagree.
    + intros c r Hc Hr. apply Hplain; [apply elem_of_app; by left|done].
Qed.

Lemma row_wise_spec (items : list filter_item) :
  row_wise items = true ↔
    (∀ c, c ∈ all_conditions items → positional c = false) ∧
    conversions_agree (all_conditions items).
Proof.
  unfold row_wise, conversions_agree. rewrite forallb_forall. split.
  - intros H. split.
    + intros c Hc. apply list_elem_of_In, H, andb_true_iff in Hc as [Hp _].
      by apply negb_true_iff.
    + intros c1 c2 H1 H2. apply list_elem_of_In, H, andb_true_iff in H1 as [_ Hs].
      rewrite forallb_forall in Hs. apply list_elem_of_In, Hs in H2.
      by apply bool_decide_eq_true_1 in H2.
  - intros [Hpos Hagree] c Hc. apply list_elem_of_In in Hc.
    apply andb_true_iff. split; [apply negb_true_iff; auto|].
    apply forallb_forall. intros c' Hc'. apply list_elem_of_In in Hc'.
    apply bool_decide_eq_true_2. auto.
Qed.

Lemma dates_read_as_dates_spec (df : DataFrame) (items : list filter_item) :
  dates_read_as_dates df items = true ↔
    ∀ c r, c ∈ all_conditions items → r ∈ rows df →
           startswith (condition c) "date_" = false →
           is_datetime_cell (cell_at (column c) r) = false.
Proof.
  unfold dates_read_as_dates, reads_no_date. rewrite forallb_forall. split.
  - intros H c r Hc Hr Hd. apply list_elem_of_In, H in Hc. rewrite Hd in Hc.
    simpl in Hc. rewrite forallb_forall in Hc.
    apply negb_true_iff, Hc. by apply list_elem_of_In.
  - intros H c Hc. apply list_elem_of_In in Hc.
    destruct (startswith (condition c) "date_") eqn:Hd; [done|]. simpl.
    apply forallb_forall. intros r Hr. apply negb_true_iff, H; [done| |done].
    by apply list_elem_of_In.
Qed.

Lemma map_column_comm (col1 col2 : string) (f1 f2 : cell → cell) (r : Row) :
  col1 ≠ col2 ∨ f1 = f2 →
  map_column col1 f1 (map_column col2 f2 r) = map_column col2 f2 (map_column col1 f1 r).
Proof.
  intros Hc. destruct r as [lbl m]. unfold map_column, set_cell, cell_at. simpl.
  f_equal. destruct (decide (col1 = col2)) as [->|Hne].
  - destruct Hc as [?| ->]; [done|]. by rewrite !lookup_insert_eq, !insert_insert_eq.
  - rewrite !lookup_insert_ne by done. by apply insert_insert_ne.
Qed.

Lemma coerce_row_comm (c1 c2 : FilterCondition) (r : Row) :
  (column c1 = column c2 → coercion_of c1 = coercion_of c2) →
  coerce_row c1 (coerce_row c2 r) = coerce_row c2 (coerce_row c1 r).
Proof.
  intros Hagree. unfold coerce_row.
  destruct (coercion_of c1) eqn:K1; [done|..];
    (destruct (coercion_of c2) eqn:K2; [done|..]);
    apply map_column_comm;
    (destruct (decide (column c1 = column c2)) as [E|]; [|by left]);
    right; f_equal; specialize (Hagree E); congruence.
Qed.

Lemma coerce_rows_perm (cs cs' : list FilterCondition) :
  cs ≡ₚ cs' → conversions_agree cs → ∀ r, coerce_rows cs r = coerce_rows cs' r.
Proof.
  unfold coerce_rows.
  induction 1 as [|c cs cs' Hp IH|c1 c2 cs|cs cs' cs'' Hp1 IH1 Hp2 IH2];
    intros Hagree r; simpl.
  - done.
  - apply IH. intros a b Ha Hb. apply Hagree; by right.
  - f_equal. apply coerce_row_comm. apply Hagree; [right; left|left].
  - rewrite IH1 by done. apply IH2.
    intros a b Ha Hb. apply Hagree; by rewrite Hp1.
Qed.

Lemma expr_holds_perm (items items' : list filter_item) (r : Row) :
  items ≡ₚ items' → expr_holds items r = expr_holds items' r.
Proof.
  unfold expr_holds.
  induction 1 as [|i l l' Hp IH|i1 i2 l|l l' l'' Hp1 IH1 Hp2 IH2]; simpl.
  - done.
  - by rewrite IH.
  - by rewrite !andb_assoc, (andb_comm (item_holds i1 r)).
  - by rewrite IH1.
Qed.

Lemma all_conditions_perm (items items' : list filter_item) :
  items ≡ₚ items' → all_conditions items ≡ₚ all_conditions items'.
Proof. intros Hp. unfold all_conditions. by rewrite Hp. Qed.

Lemma row_wise_sub (items items' : list filter_item) :
  (∀ c, c ∈ all_conditions items' → c ∈ all_conditions items) →
  row_wise items = true → row_wise items' = true.
Proof.
  intros Hsub. rewrite !row_wise_spec. intros [Hpos Hagree]. split.
  - intros c Hc. by apply Hpos, Hsub.
  - intros c1 c2 H1 H2. apply Hagree; by apply Hsub.
Qed.

Lemma dates_read_as_dates_sub (df : DataFrame) (items items' : list filter_item) :
  (∀ c, c ∈ all_conditions items' → c ∈ all_conditions items) →
  dates_read_as_dates df items = true → dates_read_as_dates df items' = true.
Proof.
  intros Hsub. rewrite !dates_read_as_dates_spec. intros H c r Hc. apply H. by apply Hsub.
Qed.

(** The rows of a returned table, for an expression read row by row. *)
Lemma filter_loop_row_wise (df df' : DataFrame) (items : list filter_item) :
  row_wise items = true →
  dates_read_as_dates df items = true →
  filter_loop df items = Ok df' →
  df' = mkDF (columns df)
          (coerce_rows (all_conditions items) <$> List.filter (expr_holds items) (rows df)).
Proof.
  intros [Hpos Hagree]%row_wise_spec Hplain Hloop.
  rewrite dates_read_as_dates_spec in Hplain.
  apply (filter_loop_ok _ _ _ (rows df) []) in Hloop as [Hc Hr]; [| |done..].
  - destruct df' as [cs rs]. simpl in *. by subst.
  - unfold coerce_rows. simpl. by rewrite list_fmap_id.
Qed.

(** C1 (amended).  For an expression read row by row (no condition
    compares with a list position by position, and the conditions on one
    column all ask the same conversion of it) on a table whose columns
    of dates are named by date conditions only, a call that returns a
    table returns exactly the rows of the input on which the combined
    expression holds, AND over its elements and OR inside each group, in
    their order and with the converted columns; and every ordering of
    the elements for which the call returns gives that same table. *)
Theorem filter_excel_data_row_wise (fs fs' : Files) (input_file : string)
    (items : list filter_item) (out : option string) (df df' : DataFrame) :
  fs !! input_file = Some df →
  row_wise items = true →
  dates_read_as_dates df items = true →
  filter_excel_data fs input_file items out = (fs', Ok df') →
  df' = mkDF (columns df)
          (coerce_rows (all_conditions items)
             <$> List.filter (expr_holds items) (rows df)) ∧
  ∀ (items' : list filter_item) (fs'' : Files) (df'' : DataFrame),
    items ≡ₚ items' →
    filter_excel_data fs input_file items' out = (fs'', Ok df'') →
    df'' = df'.
Proof.
  intros Hin Hrw Hplain Hrun.
  pose proof (filter_excel_data_ok _ _ _ _ _ _ _ Hin Hrun) as Hloop.
  pose proof (filter_loop_row_wise _ _ _ Hrw Hplain Hloop) as Hdf'.
  split; [done|].
  intros items' fs'' df'' Hp Hrun'.
  pose proof (filter_excel_data_ok _ _ _ _ _ _ _ Hin Hrun') as Hloop'.
  pose proof (all_conditions_perm _ _ Hp) as Hall.
  assert (row_wise items' = true) as Hrw'.
  { eapply row_wise_sub; [|done]. intros c Hc. by rewrite Hall. }
  assert (dates_read_as_dates df items' = true) as Hplain'.
  { eapply dates_read_as_dates_sub; [|done]. intros c Hc. by rewrite Hall. }
  pose proof (filter_loop_row_wise _ _ _ Hrw' Hplain' Hloop') as Hdf''.
  rewrite Hdf', Hdf''. f_equal.
  apply row_wise_spec in Hrw as [_ Hagree].
  rewrite (List.filter_ext _ _ (λ r, expr_holds_perm _ _ r Hp)).
  apply list_fmap_ext. intros i r _.
  symmetry. by apply coerce_rows_perm.
Qed.

End Filtering.

(** ** The scripts on examples *)

Section Examples.
#[local] Existing Instance example_runtime.

(** The scenarios of the fuzzy matcher. *)
Example similar_up_to_case_and_space :
  is_similar_name (CStr "ABC Hospital") (CStr "abc hospital ") (Some 80) = true.
Proof. vm_compute. reflexivity. Qed.

Example different_first_word :
  is_similar_name (CStr "Central Clinic") (CStr "North Clinic") (Some 80) = false.
Proof. vm_compute. reflexivity. Qed.

(** The entry point of [filter.py] on the example table. *)
Example fse_run :
  filter_excel_data fse_files "fse.xlsx" fse_filters None = (fse_files, Ok fse_filtered).
Proof. vm_compute. reflexivity. Qed.

(** C1, as stated, fails: with a numeric zone 6, "contains 6" followed by
    "equals 6" returns no row, the same two conditions in the other order
    return the row, and the combined expression holds on the row. *)
Lemma filter_order_changes_result :
  filter_excel_data zones_files "zones.xlsx" [Single has_6; Single is_6] None
    = (zones_files, Ok (mkDF ["Zone"] [])) ∧
  filter_excel_data zones_files "zones.xlsx" [Single is_6; Single has_6] None
    = (zones_files, Ok (mkDF ["Zone"] [mkRow 0 {[ "Zone" := CStr "6" ]}])) ∧
  expr_holds [Single has_6; Single is_6] (mkRow 0 {[ "Zone" := CInt 6 ]}) = true.
Proof. repeat split; vm_compute; reflexivity. Qed.

(** A column of dates is compared with a text by parsing the text, and
    is rendered as text as a whole: after the cut to the one row of a
    midnight the column is rendered without the times, so that these two
    conditions, each on a column of its own, give a result that depends
    on their order. *)
Example dates_compared_and_rendered :
  apply_filter_condition stamps seen_on_feb_5 = Ok (stamps, [true; false]) ∧
  apply_filter_condition stamps seen_this_year = Ok (stamps, [true; true]) ∧
  apply_filter_condition stamps seen_on_one_of = Ok (stamps, [true; false]) ∧
  row_wise [Single zone_a; Single seen_at_midnight] = true ∧
  dates_read_as_dates stamps [Single zone_a; Single seen_at_midnight] = false ∧
  filter_excel_data stamps_files "stamps.xlsx"
    [Single zone_a; Single seen_at_midnight] None
    = (stamps_files, Ok (mkDF ["Zone"; "Seen"] [])) ∧
  filter_excel_data stamps_files "stamps.xlsx"
    [Single seen_at_midnight; Single zone_a] None
    = (stamps_files,
       Ok (mkDF ["Zone"; "Seen"] [stamp_row 0 "A" (CStr "2025-02-05 00:00:00")])).
Proof. repeat split; vm_compute; reflexivity. Qed.

Lemma filter_excel_data_row_wise_witness :
  fse_files !! "fse.xlsx" = Some fse ∧
  row_wise fse_filters = true ∧
  dates_read_as_dates fse fse_filters = true ∧
  filter_excel_data fse_files "fse.xlsx" fse_filters None = (fse_files, Ok fse_filtered) ∧
  fse_filtered
  = mkDF (columns fse)
      (coerce_rows (all_conditions fse_filters)
         <$> List.filter (expr_holds fse_filters) (rows fse)) ∧
  ∀ (items' : list filter_item) (fs'' : Files) (df'' : DataFrame),
    fse_filters ≡ₚ items' →
    filter_excel_data fse_files "fse.xlsx" items' None = (fs'', Ok df'') →
    df'' = fse_filtered.
Proof.
  assert (fse_files !! "fse.xlsx" = Some fse) as H1 by (vm_compute; reflexivity).
  assert (row_wise fse_filters = true) as H2 by (vm_compute; reflexivity).
  assert (dates_read_as_dates fse fse_filters = true) as H3 by (vm_compute; reflexivity).
  assert (filter_excel_data fse_files "fse.xlsx" fse_filters None
          = (fse_files, Ok fse_filtered)) as H4 by (vm_compute; reflexivity).
  split; [exact H1|]. split; [exact H2|]. split; [exact H3|]. split; [exact H4|].
  exact (filter_excel_data_row_wise _ _ _ _ _ _ _ H1 H2 H3 H4).
Defined.

(** C3.  On a column with a missing town, "contains nan" selects the row
    of the missing town: the cell has been turned into the text "nan"
    before the search. *)
Theorem contains_matches_missing_cell :
  apply_filter_condition towns town_has_nan
  = Ok (mkDF ["Town"]
          [mkRow 0 {[ "Town" := CStr "Kumasi" ]}; mkRow 1 {[ "Town" := CStr "nan" ]}],
        [false; true]).
Proof. vm_compute. reflexivity. Qed.

(** C6.  On a table none of whose dates the format reads, "date_less"
    raises: the two cells of the column fail to parse and become the
    missing date, and the comparison of the column, whose dates are then
    all missing, with the date of the condition raises [TypeError]; no
    mask is returned. *)
Theorem date_less_on_unparsed_column :
  to_datetime_cell "%d/%m/%Y" (CStr "tomorrow") = CNaT ∧
  to_datetime_cell "%d/%m/%Y" CNaN = CNaT ∧
  apply_filter_condition visits before_feb_5 = Raise TypeError.
Proof. repeat split; vm_compute; reflexivity. Qed.

(** The mask of that call: the row without a date is the last one. *)
Example date_mask :
  (λ r, match r with Ok (_, m) => Some m | Raise _ => None end)
    (apply_filter_condition fse (on_date "05/02/2025"))
  = Some [true; false; true; false; false].
Proof. vm_compute. reflexivity. Qed.

Lemma empty_group_leaves_no_row_witness :
  filter_loop fse [Single zone_6] = Ok fse_zone_6 ∧
  filter_loop fse ([Single zone_6] ++ [Group (mkGroup [])])
  = Ok (mkDF (columns fse_zone_6) []).
Proof.
  assert (filter_loop fse [Single zone_6] = Ok fse_zone_6) as H1
    by (vm_compute; reflexivity).
  split; [exact H1|].
  exact (proj1 (proj2 empty_group_leaves_no_row) fse fse_zone_6 [Single zone_6] H1).
Defined.

(** C8, as stated, fails: an unreadable date in an earlier condition is
    raised before the missing column is looked for; and the error of a
    missing column names the column, not the file of the table. *)
Lemma missing_column_other_error :
  filter_excel_data fse_files "fse.xlsx" [Single on_yesterday; Single in_region] None
    = (fse_files, Raise ValueError) ∧
  filter_excel_data fse_files "fse.xlsx" [Single in_region] None
    = (fse_files, Raise (KeyError "Column 'Region' not found in the Excel file")) ∧
  find_sub "fse.xlsx" "Column 'Region' not found in the Excel file" = false.
Proof. repeat split; vm_compute; reflexivity. Qed.

Lemma missing_column_raises_witness :
  fse_files !! "fse.xlsx" = Some fse ∧
  in_region ∈ all_conditions [Single zone_6; Single in_region] ∧
  has_column fse (column in_region) = false ∧
  ∃ before c after e,
    all_conditions [Single zone_6; Single in_region] = before ++ c :: after ∧
    (∀ c', c' ∈ before → has_column fse (column c') = true) ∧
    has_column fse (column c) = false ∧
    filter_excel_data fse_files "fse.xlsx" [Single zone_6; Single in_region] None
    = (fse_files, Raise e) ∧
    (e = KeyError ("Column '" +:+ column c +:+ "' not found in the Excel file") ∨
     (evaluation_error e = true ∧
      ∃ c' df', c' ∈ before ∧ columns df' = columns fse ∧
                apply_filter_condition df' c' = Raise e)) ∧
    (before = [] →
     e = KeyError ("Column '" +:+ column c +:+ "' not found in the Excel file")).
Proof.
  assert (fse_files !! "fse.xlsx" = Some fse) as H1 by (vm_compute; reflexivity).
  assert (in_region ∈ all_conditions [Single zone_6; Single in_region]) as H2
    by (simpl; right; left).
  assert (has_column fse (column in_region) = false) as H3 by (vm_compute; reflexivity).
  split; [exact H1|]. split; [exact H2|]. split; [exact H3|].
  exact (missing_column_raises _ _ _ None _ _ H1 H2 H3).
Defined.

(** C9, as stated, fails: the kind "date_between" is none of the nine,
    yet the call raises on a date text that does not parse. *)
Lemma undocumented_date_kind_raises :
  (condition between_dates ∉ documented_kinds) ∧
  apply_filter_condition fse between_dates = Raise ValueError.
Proof.
  split; [|vm_compute; reflexivity].
  apply (bool_decide_unpack _). vm_compute. exact I.
Qed.

Lemma undocumented_kind_witness :
  (condition zone_like ∉ documented_kinds) ∧
  apply_filter_condition fse zone_like =
    if startswith (condition zone_like) "date_" then
      if has_column fse (column zone_like)
      then _ ← filter_date_of zone_like; Ok (converted fse zone_like, full_mask true fse)
      else Raise (KeyError (column zone_like))
    else Ok (fse, full_mask true fse).
Proof.
  assert (condition zone_like ∉ documented_kinds) as H1
    by (apply (bool_decide_unpack _); vm_compute; exact I).
  split; [exact H1|]. exact (undocumented_kind fse zone_like H1).
Defined.

(** C2, as stated, fails: "Ridge" is similar to "Ridge Hospital", but
    "Ridge Hospital" is not similar to "Ridge". *)
Lemma is_similar_name_not_symmetric :
  is_similar_name (CStr "Ridge") (CStr "Ridge Hospital") (Some 80) = true ∧
  is_similar_name (CStr "Ridge Hospital") (CStr "Ridge") (Some 80) = false.
Proof. split; vm_compute; reflexivity. Qed.

Lemma is_similar_name_symmetric_cases_witness :
  (name_parts (CStr "Ridge") = name_parts (CStr "Rigde") ∨
   ∃ p q, name_parts (CStr "Ridge") = {[p]} ∧ name_parts (CStr "Rigde") = {[q]} ∧
          fuzz_ratio p q = fuzz_ratio q p) ∧
  is_similar_name (CStr "Ridge") (CStr "Rigde") (Some 80)
  = is_similar_name (CStr "Rigde") (CStr "Ridge") (Some 80).
Proof.
  assert (name_parts (CStr "Ridge") = name_parts (CStr "Rigde") ∨
          ∃ p q, name_parts (CStr "Ridge") = {[p]} ∧ name_parts (CStr "Rigde") = {[q]} ∧
                 fuzz_ratio p q = fuzz_ratio q p) as H1.
  { right. exists "ridge", "rigde". repeat split; vm_compute; reflexivity. }
  split; [exact H1|].
  exact (is_similar_name_symmetric_cases _ _ (Some 80) H1).
Defined.

(** C4, as stated, fails: for a blank name the numbers of parts agree and
    there is no part to check, yet the name is not similar to itself. *)
Lemma blank_name_not_similar :
  is_similar_name (CStr " ") (CStr " ") (Some 80) = false ∧
  isna (CStr " ") = false ∧
  Z.abs (Z.of_nat (size (name_parts (CStr " ")))
         - Z.of_nat (size (name_parts (CStr " ")))) ≤ 1 ∧
  ∀ p, p ∈ name_parts (CStr " ") → 80 ≤ best_match p (name_parts (CStr " ")).
Proof.
  split; [vm_compute; reflexivity|]. split; [reflexivity|].
  split; [vm_compute; discriminate|].
  intros p Hp. assert (name_parts (CStr " ") = ∅) as E by (vm_compute; reflexivity).
  rewrite E in Hp. by apply not_elem_of_empty in Hp.
Qed.

Lemma is_similar_name_characterised_witness :
  isna (CStr "ABC Hospital") = false ∧ isna (CStr "abc hospital ") = false ∧
  Z.abs (Z.of_nat (size (name_parts (CStr "ABC Hospital")))
         - Z.of_nat (size (name_parts (CStr "abc hospital ")))) ≤ 1 ∧
  name_parts (CStr "ABC Hospital") ≠ ∅ ∧
  ∀ p, p ∈ name_parts (CStr "ABC Hospital") →
    (name_parts (CStr "abc hospital ") = ∅ ∧ 80 ≤ 0) ∨
    ∃ q, q ∈ name_parts (CStr "abc hospital ") ∧ 80 ≤ fuzz_ratio p q.
Proof.
  apply (proj1 (proj1 is_similar_name_characterised
                  (CStr "ABC Hospital") (CStr "abc hospital ") 80)).
  vm_compute. reflexivity.
Defined.

Lemma is_similar_name_size_guard_witness :
  1 < Z.abs (Z.of_nat (size (name_parts (CStr "Korle Bu Teaching Hospital")))
             - Z.of_nat (size (name_parts (CStr "Korle")))) ∧
  is_similar_name (CStr "Korle Bu Teaching Hospital") (CStr "Korle") (Some 0) = false.
Proof.
  assert (1 < Z.abs (Z.of_nat (size (name_parts (CStr "Korle Bu Teaching Hospital")))
                     - Z.of_nat (size (name_parts (CStr "Korle"))))) as H1
    by (vm_compute; reflexivity).
  split; [exact H1|].
  exact (is_similar_name_size_guard _ _ (Some 0) H1).
Defined.

Lemma responses_filtered_by_name_witness :
  facility 0 "Ridge Hospital" ∈ rows responses ∧
  facility 2 "Ridge Hospital" ∈ rows responses ∧
  (facility 0 "Ridge Hospital" ∉ rows (responses_filtered responses reference_names 75) ↔
     ∃ r, r ∈ rows responses ∧
          cell_at COLUMN_KEY r = cell_at COLUMN_KEY (facility 0 "Ridge Hospital") ∧
          ∃ n, n ∈ reference_names ∧
               is_similar_name (cell_at COLUMN_KEY r) n (Some 75) = true) ∧
  (cell_at COLUMN_KEY (facility 0 "Ridge Hospital")
   = cell_at COLUMN_KEY (facility 2 "Ridge Hospital") →
     (facility 0 "Ridge Hospital" ∈ rows (responses_filtered responses reference_names 75) ↔
      facility 2 "Ridge Hospital" ∈ rows (responses_filtered responses reference_names 75))).
Proof.
  assert (facility 0 "Ridge Hospital" ∈ rows responses) as H1 by (simpl; left).
  assert (facility 2 "Ridge Hospital" ∈ rows responses) as H2
    by (simpl; right; right; left).
  split; [exact H1|]. split; [exact H2|].
  exact (responses_filtered_by_name responses reference_names 75 _ _ H1 H2).
Defined.

(** The kept and the removed rows of that example. *)
Example responses_partition :
  label <$> rows (responses_filtered responses reference_names 75) = [1%nat] ∧
  label <$> rows (removed_table responses reference_names 75) = [0%nat; 2%nat].
Proof. split; vm_compute; reflexivity. Qed.

End Examples.

(** ** Further properties of the filter ([filter.py]) *)

Section FilterFurther.
Context `{RT : Runtime}.

(** *** When a call raises *)

Lemma not_ordering (k : string) :
  k ∉ ["greater_than"; "less_than"; "date_greater"; "date_less"] →
  String.eqb k "greater_than" = false ∧ String.eqb k "less_than" = false ∧
  String.eqb k "date_greater" = false ∧ String.eqb k "date_less" = false.
Proof.
  intros H. repeat split; apply String.eqb_neq; intros ->; apply H;
    repeat first [left|right].
Qed.

(** The errors of the evaluation of a condition that orders nothing are
    those of the check of the condition. *)
Lemma mask_on_raises (df : DataFrame) (c : FilterCondition) (e : exn) :
  (condition c ∉ ["greater_than"; "less_than"; "date_greater"; "date_less"]) →
  positional c = false →
  mask_on df c = Raise e ↔ check_condition c = Raise e.
Proof.
  intros (G & L & DG & DL)%not_ordering Hpos.
  unfold mask_on, evaluate, check_condition. rewrite G, L, DG, DL.
  destruct (startswith (condition c) "date_") eqn:Hd.
  - rewrite (coercion_of_date _ Hd). simpl. rewrite dt_date_converted.
    destruct (filter_date_of c) as [fd|e']; simpl; [|split; congruence].
    destruct (String.eqb (condition c) "date_equals") eqn:E1.
    + apply String.eqb_eq in E1. rewrite E1. simpl.
      destruct (date_method fd); simpl; split; congruence.
    + rewrite bool_decide_eq_false_2; [split; congruence|].
      apply String.eqb_neq in E1, DG, DL. intros H.
      repeat (apply elem_of_cons in H as [H|H]; [done|]). by apply elem_of_nil in H.
  - unfold positional in Hpos.
    destruct (String.eqb (condition c) "equals") eqn:E1.
    { apply String.eqb_eq in E1. rewrite E1 in *. simpl in *.
      destruct (value_of c) as [y|l]; [|done].
      unfold series_eq. repeat case_match; split; congruence. }
    destruct (String.eqb (condition c) "contains") eqn:E2.
    { unfold str_contains. destruct (re_valid _); split; congruence. }
    destruct (String.eqb (condition c) "starts_with") eqn:E3.
    { apply String.eqb_eq in E3. rewrite E3. simpl. split; congruence. }
    destruct (String.eqb (condition c) "in") eqn:E4; [|split; congruence].
    unfold isin. destruct (value_of c); [|destruct (datetime64 _)]; split; congruence.
Qed.

(** X1.  Apart from the four orderings ([greater_than], [less_than],
    [date_greater], [date_less]) and the comparisons with a list
    position by position, a condition raises by itself, not by the
    table: on a table that has the column a call raises an error exactly
    when the check of the condition raises it, and so on one table
    exactly when on any other. *)
Theorem errors_independent_of_rows (df1 df2 : DataFrame) (c : FilterCondition) :
  has_column df1 (column c) = true →
  has_column df2 (column c) = true →
  (condition c ∉ ["greater_than"; "less_than"; "date_greater"; "date_less"]) →
  positional c = false →
  ∀ e, (apply_filter_condition df1 c = Raise e ↔ check_condition c = Raise e) ∧
       (apply_filter_condition df1 c = Raise e ↔ apply_filter_condition df2 c = Raise e).
Proof.
  intros H1 H2 Hk Hpos e.
  assert (∀ df, has_column df (column c) = true →
            (apply_filter_condition df c = Raise e ↔ check_condition c = Raise e)) as Hex.
  { intros df Hcol. rewrite (apply_column _ _ Hcol), <- (mask_on_raises df c e Hk Hpos).
    destruct (mask_on df c); simpl; split; congruence. }
  split; [by apply Hex|]. by rewrite !Hex.
Qed.

(** *** The ordering of numbers and texts *)

Lemma cell_compare_comparable (test : comparison → bool) (x y : cell) :
  cell_compare test x y
  = if comparable x y then Ok (from_ok (cell_compare test x y)) else Raise TypeError.
Proof.
  unfold cell_compare, comparable.
  destruct (isna x || isna y); [done|]. by destruct x, y.
Qed.

Lemma traverse_compare (test : comparison → bool) (y : cell) (g : Row → cell)
    (l : list Row) :
  traverse (λ r, cell_compare test (g r) y) l
  = if forallb (λ r, comparable (g r) y) l
    then Ok ((λ r, from_ok (cell_compare test (g r) y)) <$> l)
    else Raise TypeError.
Proof.
  induction l as [|r l IH]; [done|]. rewrite fmap_cons. simpl.
  rewrite IH, (cell_compare_comparable test (g r) y).
  destruct (comparable (g r) y); simpl; [|done].
  by destruct (forallb _ l).
Qed.

(** X2.  On a column of numbers, texts and missing values, one cell at
    least not being missing, an ordering against a number or a text
    raises [TypeError] exactly when some cell is of the other type,
    missing cells apart (they compare false); otherwise it leaves the
    table as it is and returns the mask of the comparison. *)
Theorem ordering_type_error (df : DataFrame) (c : FilterCondition) (y : cell) :
  has_column df (column c) = true →
  condition c ∈ ["greater_than"; "less_than"] →
  value_of c = VCell y →
  number_or_text y = true →
  numbers_and_texts df c = true →
  apply_filter_condition df c
  = if forallb (λ r, comparable (cell_at (column c) r) y) (rows df)
    then Ok (df, holds c <$> rows df)
    else Raise TypeError.
Proof.
  intros Hcol Hk Hv Hy [Hplain _]%andb_true_iff.
  assert (startswith (condition c) "date_" = false
          ∧ bool_decide (condition c ∈ ["contains"; "starts_with"]) = false) as [Hd Hs].
  { repeat (apply elem_of_cons in Hk as [->|Hk]; [done|]). by apply elem_of_nil in Hk. }
  assert (coercion_of c = Keep) as Hkeep by (by rewrite (coercion_of_plain _ Hd), Hs).
  rewrite (apply_column _ _ Hcol), (converted_table_keep _ _ Hkeep).
  unfold mask_on. rewrite Hkeep. simpl.
  assert (datetime64 (cell_at (column c) <$> rows df) = false) as Hobj.
  { apply datetime64_plain. clear -Hplain.
    induction (rows df) as [|r rs IH]; [done|]. rewrite fmap_cons. simpl in *.
    apply andb_true_iff in Hplain as [-> H]. by apply IH. }
  assert (∃ test,
    evaluate c (cell_at (column c) <$> rows df)
    = series_compare test (cell_at (column c) <$> rows df) (VCell y) ∧
    (∀ r, holds c r = from_ok (cell_compare test (cell_at (column c) r) y)))
    as (test & -> & Hh).
  { unfold evaluate, holds, holds_on. rewrite Hkeep, Hv, Hd. simpl.
    apply elem_of_cons in Hk as [->|Hk]; [by exists is_gt|].
    apply elem_of_cons in Hk as [->|Hk]; [by exists is_lt|].
    by apply elem_of_nil in Hk. }
  rewrite (series_compare_plain _ _ _ Hobj), traverse_fmap, traverse_compare.
  clear Hplain. destruct (forallb _ _); simpl; [|done]. do 2 f_equal.
  apply list_fmap_ext. intros i r _. by rewrite Hh.
Qed.

(** *** Date conditions *)




(** *** The shape of what is returned *)

(** X3.  A call that returns keeps the shape of the table: the mask has
    one entry per row, the table has the same columns and the same rows
    by label, in the same order, and no cell outside the column of the
    condition has changed; for a kind that asks no conversion the table
    is left as it is. *)
Theorem apply_filter_condition_shape (df df' : DataFrame) (c : FilterCondition)
    (mask : Mask) :
  apply_filter_condition df c = Ok (df', mask) →
  length mask = length (rows df) ∧
  columns df' = columns df ∧
  label <$> rows df' = label <$> rows df ∧
  (∀ col, col ≠ column c → cell_at col <$> rows df' = cell_at col <$> rows df) ∧
  (coercion_of c = Keep → df' = df).
Proof.
  intros Hok. split; [by eapply apply_mask_length|].
  destruct (has_column df (column c)) eqn:Hcol.
  2:{ by apply apply_missing_column in Hok as [-> _]. }
  apply apply_returns in Hok as [-> _]; [|done].
  split; [apply converted_table_columns|]. split; [apply converted_table_labels|].
  split; [intros col Hne; by apply converted_table_other|].
  apply converted_table_keep.
Qed.

(** X4.  A group of one condition filters as the condition alone: the
    same table, or the same error. *)
Theorem group_of_one (df : DataFrame) (c : FilterCondition) :
  filter_step df (Group (mkGroup [c])) = filter_step df (Single c).
Proof.
  simpl. destruct (has_column df (column c)); simpl; [|done].
  destruct (apply_filter_condition df c) as [[df1 m]|e] eqn:Happ; simpl; [|done].
  pose proof (apply_mask_length _ _ _ _ Happ) as Hlen.
  by rewrite (mask_or_false _ _ Hlen).
Qed.

(** X5.  A table that [filter_excel_data] returns is cut out of the
    table of the input file: it has the same columns, and its rows are
    rows of the input, each at most once and in their order (by label);
    no row is added. *)
Theorem filter_excel_data_sub_table (fs fs' : Files) (input_file : string)
    (items : list filter_item) (out : option string) (df df' : DataFrame) :
  fs !! input_file = Some df →
  filter_excel_data fs input_file items out = (fs', Ok df') →
  columns df' = columns df ∧
  label <$> rows df' `sublist_of` label <$> rows df ∧
  (length (rows df') ≤ length (rows df))%nat.
Proof.
  intros Hin Hrun. apply (filter_excel_data_ok _ _ _ _ _ _ _ Hin) in Hrun.
  apply filter_loop_sublist in Hrun as [Hc Hl]. split; [done|]. split; [done|].
  apply sublist_length in Hl. by rewrite !length_fmap in Hl.
Qed.

(** X6.  Further elements at the end of an expression can only remove
    rows: when the call with the longer expression returns a table, the
    call with the shorter one returns a table too, and the rows of the
    first are among the rows of the second, in their order. *)
Theorem filter_more_elements (fs fs' : Files) (input_file : string)
    (items more : list filter_item) (out : option string) (df2 : DataFrame) :
  filter_excel_data fs input_file (items ++ more) out = (fs', Ok df2) →
  ∃ df1, filter_excel_data fs input_file items None = (fs, Ok df1) ∧
         columns df2 = columns df1 ∧
         label <$> rows df2 `sublist_of` label <$> rows df1.
Proof.
  unfold filter_excel_data. destruct (fs !! input_file) as [df|]; [|by intros [= _]].
  rewrite filter_loop_app.
  destruct (filter_loop df items) as [df1|]; simpl; [|by intros [= _]].
  destruct (filter_loop df1 more) as [d|] eqn:Hmore; [|by intros [= _]].
  intros Hrun. assert (d = df2) as ->.
  { destruct out as [p|]; [destruct (bool_decide _)|]; by injection Hrun. }
  exists df1. split; [done|]. exact (filter_loop_sublist more df1 df2 Hmore).
Qed.

(** X8.  [filter_excel_data] writes at most one file, the output file,
    and only when it returns a table: every other path keeps its
    content; nothing at all is written when the call raises or when no
    output file (or an empty path) is given; and the file written holds
    the returned table, its rows numbered anew. *)
Theorem filter_excel_data_writes (fs fs' : Files) (input_file : string)
    (items : list filter_item) (out : option string) (r : result DataFrame) :
  filter_excel_data fs input_file items out = (fs', r) →
  (∀ path, out ≠ Some path → fs' !! path = fs !! path) ∧
  (is_ok r = false ∨ out = None ∨ out = Some "" → fs' = fs) ∧
  (∀ df' path, r = Ok df' → out = Some path → path ≠ "" →
     fs' !! path = Some (reset_index df')).
Proof.
  unfold filter_excel_data.
  destruct (fs !! input_file) as [df|].
  2:{ intros [= <- <-]. split; [done|]. split; [done|]. by intros ?? [=]. }
  destruct (filter_loop df items) as [d|e].
  2:{ intros [= <- <-]. split; [done|]. split; [done|]. by intros ?? [=]. }
  destruct out as [p|].
  2:{ intros [= <- <-]. split; [done|]. split; [done|]. by intros ?? _ [=]. }
  case_bool_decide as Hp.
  - intros [= <- <-]. split; [done|]. split; [done|].
    intros df' path _ [= ->] Hne. done.
  - intros [= <- <-]. split; [|split].
    + intros path Hne. unfold to_excel. apply lookup_insert_ne. congruence.
    + intros [?|[?|?]]; [done|done|]. congruence.
    + intros df' path [= ->] [= ->] _. unfold to_excel. apply lookup_insert_eq.
Qed.

(** *** A condition applied to its own result *)

Lemma all_true_on {A} (f : A → bool) (l : list A) :
  Forall (λ x, f x = true) l → f <$> l = (λ _, true) <$> l.
Proof. intros H. apply Forall_fmap_ext. by eapply Forall_impl. Qed.

Lemma traverse_values {A B} (h : A → result B) (l : list A) (k : list B) :
  traverse h l = Ok k → ∀ x, x ∈ l → ∃ b, h x = Ok b.
Proof.
  revert k. induction l as [|y l IH]; intros k; simpl.
  - by intros _ x ?%elem_of_nil.
  - destruct (h y) as [b|] eqn:Hy; simpl; [|done].
    destruct (traverse h l) as [ys|]; simpl; [|done].
    intros _ x [->|Hx]%elem_of_cons; [eauto|]. by eapply IH.
Qed.

(** A mask computed element by element, possibly raising: on elements
    that it selected, the computation returns the all-true mask. *)
Lemma traverse_stable (h : cell → result bool) (s : Series) (m : Mask) :
  traverse h s = Ok m →
  m = (λ x, from_ok (h x)) <$> s ∧
  ∀ s', Forall (λ x, x ∈ s ∧ from_ok (h x) = true) s' →
        traverse h s' = Ok ((λ _, true) <$> s').
Proof.
  intros Ht. split; [by apply (traverse_ok _ false)|].
  intros s' Hs'. induction Hs' as [|x s' [Hx Hf] _ IH]; [done|].
  rewrite fmap_cons. simpl.
  destruct (traverse_values _ _ _ Ht x Hx) as [b Hb]. rewrite Hb in *. simpl in *.
  subst b. by rewrite IH.
Qed.

Lemma datetime64_sub (s s' : Series) :
  Forall (λ x, is_datetime_cell x = true) s → s' ≠ [] → Forall (λ x, x ∈ s) s' →
  datetime64 s' = true.
Proof.
  intros Hs Hne Hsub. destruct s' as [|x s']; [done|].
  unfold datetime64, is_datetime64_any_dtype.
  apply forallb_forall. intros y Hy%list_elem_of_In.
  rewrite Forall_forall in Hs, Hsub. by apply Hs, Hsub.
Qed.

Lemma datetime64_has_date (s : Series) :
  datetime64 s = true → ∃ x, x ∈ s ∧ is_datetime_cell x = true.
Proof.
  destruct s as [|x s]; [done|]. simpl. intros [Hx _]%andb_true_iff.
  exists x. split; [left|done].
Qed.

Lemma series_eq_stable (s : Series) (y : cell) (m : Mask) :
  series_eq s (VCell y) = Ok m →
  ∃ f : cell → bool,
    m = f <$> s ∧
    ∀ s', Forall (λ x, x ∈ s ∧ f x = true) s' →
          series_eq s' (VCell y) = Ok ((λ _, true) <$> s').
Proof.
  assert (∀ s' : Series, (∀ t, y ≠ CStr t) →
            series_eq s' (VCell y) = Ok ((λ x, cell_eqb x y) <$> s')) as Hother.
  { intros s' Hy. unfold series_eq. destruct (datetime64 s'); [|done].
    destruct y as [| |t|n|t0]; try done. by destruct (Hy t). }
  unfold series_eq at 1. destruct (datetime64 s) eqn:Hs.
  - pose proof (datetime64_cells _ Hs) as Hcells.
    destruct y as [| |t|n|t0];
      try (intros [= <-]; eexists; split; [done|];
           intros s' Hs'; rewrite Hother by done; f_equal; apply all_true_on;
           eapply Forall_impl; [done|]; by intros x [_ ?]).
    destruct (scalar_from_string t) as [y'|] eqn:Hp; intros [= <-].
    + exists (λ x, cell_eqb x y'). split; [done|]. intros s' Hs'.
      destruct s' as [|x s']; [done|]. unfold series_eq.
      rewrite (datetime64_sub s), Hp; [|done..|].
      * f_equal. apply all_true_on. eapply Forall_impl; [done|]. by intros ? [_ ?].
      * eapply Forall_impl; [done|]. by intros ? [? _].
    + exists (λ _, false). split; [done|]. intros s' Hs'.
      destruct Hs' as [|x s' [_ Hx] _]; done.
  - intros [= <-]. exists (λ x, cell_eqb x y). split; [done|]. intros s' Hs'.
    destruct (datetime64 s') eqn:Hs'd.
    + destruct y as [| |t|n|t0];
        try (rewrite Hother by done; f_equal; apply all_true_on;
             eapply Forall_impl; [done|]; by intros x [_ ?]).
      exfalso. apply datetime64_has_date in Hs'd as H.
      destruct H as (x & Hx & Hdate). rewrite Forall_forall in Hs'.
      destruct (Hs' x Hx) as [_ Heq]. by destruct x.
    + unfold series_eq. rewrite Hs'd. f_equal. apply all_true_on.
      eapply Forall_impl; [done|]. by intros x [_ ?].
Qed.

Lemma series_compare_stable (test : comparison → bool) (s : Series) (y : cell) (m : Mask) :
  series_compare test s (VCell y) = Ok m →
  ∃ f : cell → bool,
    m = f <$> s ∧
    ∀ s', Forall (λ x, x ∈ s ∧ f x = true) s' →
          series_compare test s' (VCell y) = Ok ((λ _, true) <$> s').
Proof.
  assert (∀ s' : Series, is_datetime_cell y = true →
            series_compare test s' (VCell y) = traverse (λ x, cell_compare test x y) s')
    as Hdate.
  { intros s' Hy. unfold series_compare. destruct (datetime64 s'); [|done].
    by destruct y. }
  assert (∀ (y' : cell) (s' : Series),
            Forall (λ x, from_ok (cell_compare test x y') = true) s' →
            Forall (λ x, ∃ a b, x = a ∧ y' = b ∧
                     match a, b with
                     | CStr _, CStr _ | CInt _, CInt _ | CTime _, CTime _ => True
                     | _, _ => False
                     end) s') as Hsame.
  { intros y' s' H. eapply Forall_impl; [done|]. intros x Hx. exists x, y'.
    do 2 (split; [done|]). unfold cell_compare in Hx.
    destruct (isna x || isna y') eqn:Hna; [done|]. by destruct x, y'. }
  unfold series_compare at 1. destruct (datetime64 s) eqn:Hs.
  - pose proof (datetime64_cells _ Hs) as Hcells.
    destruct y as [| |t|n|t0]; try done.
    + intros [Hm Hst]%traverse_stable. eexists. split; [done|].
      intros s' Hs'. rewrite Hdate by done. by apply Hst.
    + destruct (scalar_from_string t) as [y'|] eqn:Hp; [|done].
      intros [Hm Hst]%traverse_stable. eexists. split; [done|].
      intros s' Hs'. destruct s' as [|x s']; [done|]. unfold series_compare.
      rewrite (datetime64_sub s), Hp; [by apply Hst|done..|].
      eapply Forall_impl; [done|]. by intros ? [? _].
    + intros [Hm Hst]%traverse_stable. eexists. split; [done|].
      intros s' Hs'. rewrite Hdate by done. by apply Hst.
  - intros [Hm Hst]%traverse_stable. eexists. split; [done|].
    intros s' Hs'. destruct (datetime64 s') eqn:Hs'd.
    + destruct (is_datetime_cell y) eqn:Hy; [rewrite Hdate by done; by apply Hst|].
      exfalso. apply datetime64_has_date in Hs'd as H.
      destruct H as (x & Hx & Hdatex). rewrite Forall_forall in Hs'.
      destruct (Hs' x Hx) as [_ Heq]. unfold cell_compare in Heq.
      destruct (isna x || isna y) eqn:Hna; [done|]. by destruct x, y.
    + unfold series_compare. rewrite Hs'd. by apply Hst.
Qed.

Lemma isin_stable (s : Series) (l : list cell) (m : Mask) :
  isin s (VList l) = Ok m →
  ∃ f : cell → bool,
    m = f <$> s ∧
    ∀ s', Forall (λ x, x ∈ s ∧ f x = true) s' →
          isin s' (VList l) = Ok ((λ _, true) <$> s').
Proof.
  unfold isin at 1. destruct (datetime64 s) eqn:Hs; intros [= <-].
  - pose proof (datetime64_cells _ Hs) as Hcells.
    exists (λ x, bool_decide (x ∈ default l (dates_of_texts l))). split; [done|].
    intros s' Hs'. destruct s' as [|x s']; [done|]. unfold isin.
    rewrite (datetime64_sub s); [|done..|].
    + f_equal. apply all_true_on. eapply Forall_impl; [done|]. by intros ? [_ ?].
    + eapply Forall_impl; [done|]. by intros ? [? _].
  - exists (λ x, bool_decide (x ∈ l)). split; [done|]. intros s' Hs'.
    assert (isin_list s' l = (λ _, true) <$> s') as Hall.
    { apply all_true_on. eapply Forall_impl; [done|]. by intros ? [_ ?]. }
    unfold isin. destruct (datetime64 s') eqn:Hs'd; [|by rewrite Hall].
    apply datetime64_has_date in Hs'd as (x & Hx & Hdate).
    rewrite Forall_forall in Hs'. destruct (Hs' x Hx) as [_ Hin].
    apply bool_decide_eq_true_1 in Hin.
    assert (dates_of_texts l = None) as ->; [|simpl; by rewrite Hall].
    clear -Hin Hdate. unfold dates_of_texts.
    induction l as [|y l IH]; [by apply elem_of_nil in Hin|].
    apply elem_of_cons in Hin as [<-|Hin].
    + by destruct x.
    + simpl. rewrite (IH Hin). by destruct y as [| |t|n|t0]; simpl; try done;
        destruct (scalar_from_string t).
Qed.

Lemma dt_date_cells (s : Series) (ds : list (option date)) :
  dt_date s = Ok ds →
  Forall (λ x, is_datetime_cell x = true) s ∧
  ds = (λ x, match x with CTime t => Some (date_of t) | _ => None end) <$> s.
Proof.
  unfold dt_date, is_datetime64_any_dtype. destruct (forallb _ s) eqn:H; [|done].
  intros [= <-]. split; [|done]. apply Forall_forall. intros x Hx%list_elem_of_In.
  rewrite forallb_forall in H. by apply H.
Qed.

Lemma dt_date_sub (s s' : Series) :
  Forall (λ x, is_datetime_cell x = true) s → Forall (λ x, x ∈ s) s' →
  dt_date s'
  = Ok ((λ x, match x with CTime t => Some (date_of t) | _ => None end) <$> s').
Proof.
  intros Hs Hsub. unfold dt_date, is_datetime64_any_dtype.
  rewrite (proj2 (forallb_forall _ _)); [done|].
  intros x Hx%list_elem_of_In. rewrite Forall_forall in Hs, Hsub. by apply Hs, Hsub.
Qed.

Lemma all_missing_selected (test : comparison → bool) (d : date) (s' : Series) :
  Forall (λ x, date_test test (match x with CTime t => Some (date_of t) | _ => None end)
                 (Some d) = true) s' →
  all_missing ((λ x, match x with CTime t => Some (date_of t) | _ => None end) <$> s')
  = false.
Proof.
  intros H. destruct H as [|x s' Hx _]; [done|].
  rewrite fmap_cons. simpl. by destruct x.
Qed.

(** The evaluation of a condition, run again on the cells it selected,
    returns the all-true mask. *)
Lemma evaluate_stable (c : FilterCondition) (s : Series) (m : Mask) :
  positional c = false →
  evaluate c s = Ok m →
  ∃ f : cell → bool,
    m = f <$> s ∧
    ∀ s', Forall (λ x, x ∈ s ∧ f x = true) s' →
          evaluate c s' = Ok ((λ _, true) <$> s').
Proof.
  intros Hpos. unfold evaluate.
  assert (∀ (f : cell → bool) (s' : Series),
            Forall (λ x, x ∈ s ∧ f x = true) s' → f <$> s' = (λ _, true) <$> s') as Hel.
  { intros f s' H. apply all_true_on. eapply Forall_impl; [done|]. by intros ? [_ ?]. }
  assert (∀ (f : cell → bool) (s' : Series),
            Forall (λ x, x ∈ s ∧ f x = true) s' → Forall (λ x, x ∈ s) s') as Hsub.
  { intros f s' H. eapply Forall_impl; [done|]. by intros ? [? _]. }
  destruct (startswith (condition c) "date_") eqn:Hd.
  - destruct (filter_date_of c) as [fd|]; simpl; [|done].
    destruct (String.eqb (condition c) "date_equals") eqn:E1.
    { destruct (dt_date s) as [ds|] eqn:Hds; simpl; [|done].
      apply dt_date_cells in Hds as [Hcells ->].
      destruct (date_method fd) as [d|]; simpl; [|done]. intros [= <-].
      unfold dates_equal. rewrite <- list_fmap_compose. eexists. split; [done|].
      intros s' Hs'. rewrite (dt_date_sub s) by eauto. simpl.
      unfold dates_equal. rewrite <- list_fmap_compose. f_equal.
      by apply (Hel (λ x, _)). }
    assert (∀ test,
      (ds ← dt_date s; d ← date_method fd; dates_compare test ds d) = Ok m →
      ∃ f : cell → bool,
        m = f <$> s ∧
        ∀ s', Forall (λ x, x ∈ s ∧ f x = true) s' →
              (ds ← dt_date s'; d ← date_method fd; dates_compare test ds d)
              = Ok ((λ _, true) <$> s')) as Hord.
    { intros test. destruct (dt_date s) as [ds|] eqn:Hds; simpl; [|done].
      apply dt_date_cells in Hds as [Hcells ->].
      destruct (date_method fd) as [d|]; simpl; [|done].
      unfold dates_compare. destruct d as [d|].
      - destruct (all_missing _); [done|]. intros [= <-].
        rewrite <- list_fmap_compose. eexists. split; [done|].
        intros s' Hs'. rewrite (dt_date_sub s) by eauto. simpl.
        rewrite (all_missing_selected test d).
        + rewrite <- list_fmap_compose. f_equal. by apply (Hel (λ x, _)).
        + eapply Forall_impl; [done|]. by intros ? [_ ?].
      - intros [= <-]. rewrite <- list_fmap_compose. eexists. split; [done|].
        intros s' Hs'. destruct Hs' as [|x s' [_ Hx] _]; done. }
    destruct (String.eqb (condition c) "date_greater") eqn:E2; [apply Hord|].
    destruct (String.eqb (condition c) "date_less") eqn:E3; [apply Hord|].
    intros [= <-]. exists (λ _, true). done.
  - unfold positional in Hpos.
    destruct (String.eqb (condition c) "equals") eqn:E1.
    { apply String.eqb_eq in E1. rewrite E1 in Hpos. simpl in Hpos.
      destruct (value_of c) as [y|l]; [|done]. apply series_eq_stable. }
    destruct (String.eqb (condition c) "contains") eqn:E2.
    { unfold str_contains. destruct (re_valid _); [|done]. intros [= <-].
      eexists. split; [done|]. intros s' Hs'. f_equal. by apply (Hel (λ x, _)). }
    destruct (String.eqb (condition c) "starts_with") eqn:E3.
    { intros [= <-]. unfold str_startswith.
      eexists. split; [done|]. intros s' Hs'. f_equal. by apply (Hel (λ x, _)). }
    destruct (String.eqb (condition c) "in") eqn:E4.
    { destruct (value_of c) as [y|l]; [done|]. apply isin_stable. }
    destruct (String.eqb (condition c) "greater_than") eqn:E5.
    { apply String.eqb_eq in E5. rewrite E5 in Hpos. simpl in Hpos.
      destruct (value_of c) as [y|l]; [|done]. apply series_compare_stable. }
    destruct (String.eqb (condition c) "less_than") eqn:E6.
    { apply String.eqb_eq in E6. rewrite E6 in Hpos. simpl in Hpos.
      destruct (value_of c) as [y|l]; [|done]. apply series_compare_stable. }
    intros [= <-]. exists (λ _, true). done.
Qed.

(** The cells of a converted column: texts, or dates. *)
Lemma convert_selected (k : coercion) (s s' : Series) :
  Forall (λ x, x ∈ convert k s) s' → convert k s' = s'.
Proof.
  intros Hsub. destruct k; simpl in *; [done|..].
  - apply astype_str_of_text. rewrite Forall_forall in Hsub.
    pose proof (astype_str_text s) as Ht. rewrite Forall_forall in Ht.
    apply Forall_forall. intros x Hx. by apply Ht, Hsub.
  - unfold to_datetime_coerce in *. rewrite <- (list_fmap_id s') at 2.
    apply Forall_fmap_ext. eapply Forall_impl; [done|].
    intros x (x0 & -> & _)%list_elem_of_fmap. apply to_datetime_cell_idemp.
Qed.

Lemma zip_with_set_cell_same (col : string) (rs : list Row) :
  Forall (λ r, is_Some (cells r !! col)) rs →
  zip_with (set_cell col) (cell_at col <$> rs) rs = rs.
Proof.
  induction 1 as [|[lbl m] rs [x Hx] _ IH]; [done|]. rewrite fmap_cons. simpl.
  rewrite IH. f_equal. unfold set_cell, cell_at. simpl in *.
  rewrite Hx. simpl. by rewrite insert_id.
Qed.

Lemma zip_with_set_cell_keys (col : string) (s : Series) (rs : list Row) :
  Forall (λ r, is_Some (cells r !! col)) (zip_with (set_cell col) s rs).
Proof.
  revert rs. induction s as [|x s IH]; intros [|r rs]; simpl; try constructor; [|done].
  unfold set_cell. simpl. rewrite lookup_insert_eq. eauto.
Qed.

Lemma boolean_index_all {A} (g : Row → A) (rs : list Row) :
  boolean_index rs ((λ _, true) <$> (g <$> rs)) = rs.
Proof. induction rs as [|r rs IH]; [done|]. rewrite !fmap_cons. simpl. by rewrite IH. Qed.

Lemma converted_table_keys (df : DataFrame) (c : FilterCondition) :
  coercion_of c ≠ Keep →
  Forall (λ r, is_Some (cells r !! column c)) (rows (converted_table df c)).
Proof.
  intros Hk. unfold converted_table. destruct (coercion_of c); [done|..];
    apply zip_with_set_cell_keys.
Qed.

Lemma converted_table_fixed (df : DataFrame) (c : FilterCondition) :
  (coercion_of c ≠ Keep → Forall (λ r, is_Some (cells r !! column c)) (rows df)) →
  convert (coercion_of c) (cell_at (column c) <$> rows df)
  = cell_at (column c) <$> rows df →
  converted_table df c = df.
Proof.
  intros Hkeys Hconv. unfold converted_table.
  destruct (coercion_of c) eqn:Hk; [done|..];
    rewrite Hconv, zip_with_set_cell_same by (by apply Hkeys); by destruct df.
Qed.

(** A round on one condition, run again on its own result, changes
    nothing. *)
Lemma filter_step_again (df df1 : DataFrame) (c : FilterCondition) :
  positional c = false →
  filter_step df (Single c) = Ok df1 →
  filter_step df1 (Single c) = Ok df1.
Proof.
  intros Hpos. simpl.
  destruct (has_column df (column c)) eqn:Hcol; simpl; [|done].
  destruct (apply_filter_condition df c) as [[df' m]|] eqn:Happ; simpl; [|done].
  apply apply_returns in Happ as [-> Hm]; [|done]. intros [= <-].
  assert (has_column (select (converted_table df c) m) (column c) = true) as Hcol1.
  { unfold select, has_column. simpl. by rewrite converted_table_columns. }
  rewrite Hcol1. simpl. rewrite (apply_column _ _ Hcol1).
  unfold mask_on in Hm.
  destruct (evaluate_stable _ _ _ Hpos Hm) as (f & -> & Hst).
  rewrite <- converted_table_column in *.
  set (R := rows (converted_table df c)) in *.
  assert (rows (select (converted_table df c) (f <$> (cell_at (column c) <$> R)))
          = List.filter (λ r, f (cell_at (column c) r)) R) as Hrows.
  { unfold select. simpl. fold R. by rewrite <- list_fmap_compose, boolean_index_fmap. }
  set (df1 := select (converted_table df c) (f <$> (cell_at (column c) <$> R))) in *.
  assert (Forall (λ x, x ∈ cell_at (column c) <$> R ∧ f x = true)
            (cell_at (column c) <$> rows df1)) as Hsel.
  { rewrite Hrows. apply Forall_fmap, Forall_forall. intros r Hr. simpl.
    apply elem_of_bool_filter in Hr as [Hr Hf]. split; [|done].
    apply list_elem_of_fmap. eauto. }
  assert (convert (coercion_of c) (cell_at (column c) <$> rows df1)
          = cell_at (column c) <$> rows df1) as Hconv.
  { apply (convert_selected _ (cell_at (column c) <$> rows df)).
    unfold R in Hsel. rewrite converted_table_column in Hsel.
    eapply Forall_impl; [done|]. by intros ? [? _]. }
  unfold mask_on. rewrite Hconv, (Hst _ Hsel). simpl.
  rewrite converted_table_fixed; [|..|done].
  - unfold select at 1. by rewrite boolean_index_all.
  - intros Hk. rewrite Hrows. apply Forall_forall. intros r Hr.
    apply elem_of_bool_filter in Hr as [Hr _].
    pose proof (converted_table_keys df c Hk) as Hkeys.
    rewrite Forall_forall in Hkeys. by apply Hkeys.
Qed.

(** X7.  Filtering twice by one condition is filtering once: the same
    table is returned and written, or the same error raised, when a
    condition that compares with no list position by position (no
    [equals], [greater_than] or [less_than] against a list) is given
    twice in a row. *)
Theorem filter_twice (fs : Files) (input_file : string) (c : FilterCondition)
    (out : option string) :
  positional c = false →
  filter_excel_data fs input_file [Single c; Single c] out
  = filter_excel_data fs input_file [Single c] out.
Proof.
  intros Hpos. unfold filter_excel_data.
  destruct (fs !! input_file) as [df|]; [|done].
  assert (filter_loop df [Single c; Single c] = filter_loop df [Single c]) as ->;
    [|done].
  cbn [filter_loop].
  destruct (filter_step df (Single c)) as [df1|] eqn:Hstep; [|done].
  cbn [mbind result_bind]. by rewrite (filter_step_again _ _ _ Hpos Hstep).
Qed.

Lemma label_coerce_row (c : FilterCondition) (r : Row) :
  label (coerce_row c r) = label r.
Proof. unfold coerce_row. by destruct (coercion_of c). Qed.

Lemma label_coerce_rows (cs : list FilterCondition) (r : Row) :
  label (coerce_rows cs r) = label r.
Proof.
  revert r. induction cs as [|c cs IH]; intros r; [done|].
  unfold coerce_rows. simpl. fold (coerce_rows cs (coerce_row c r)).
  by rewrite IH, label_coerce_row.
Qed.

Lemma filter_sublist_impl {A} (f g : A → bool) (l : list A) :
  (∀ x, f x = true → g x = true) → List.filter f l `sublist_of` List.filter g l.
Proof.
  intros Himp. induction l as [|x l IH]; simpl; [constructor|].
  destruct (f x) eqn:Hf.
  - rewrite (Himp x Hf). by apply sublist_skip.
  - destruct (g x); [by apply sublist_cons|done].
Qed.

Lemma expr_holds_app (items1 items2 : list filter_item) (r : Row) :
  expr_holds (items1 ++ items2) r = expr_holds items1 r && expr_holds items2 r.
Proof. unfold expr_holds. apply forallb_app. Qed.

(** *** The order of the conditions of a group *)

Lemma zip_zip_comm (col1 col2 : string) (rs : list Row) :
  col1 ≠ col2 →
  ∀ s1 s2 : Series,
    zip_with (set_cell col2) s2 (zip_with (set_cell col1) s1 rs)
    = zip_with (set_cell col1) s1 (zip_with (set_cell col2) s2 rs).
Proof.
  intros Hne. induction rs as [|r rs IH]; intros [|x1 s1] [|x2 s2]; simpl; try done.
  rewrite IH. f_equal. unfold set_cell. simpl. f_equal. by apply insert_insert_ne.
Qed.

Lemma converted_table_unfold (df : DataFrame) (c : FilterCondition) :
  coercion_of c ≠ Keep →
  converted_table df c
  = mkDF (columns df)
      (zip_with (set_cell (column c))
         (convert (coercion_of c) (cell_at (column c) <$> rows df)) (rows df)).
Proof. intros Hk. unfold converted_table. by destruct (coercion_of c). Qed.

Lemma converted_table_same (df : DataFrame) (c1 c2 : FilterCondition) :
  column c1 = column c2 → coercion_of c1 = coercion_of c2 →
  converted_table df c1 = converted_table df c2.
Proof. intros Hc Hk. unfold converted_table. by rewrite Hc, Hk. Qed.

(** Conversions of two columns, or the same conversion of one column
    twice, in either order. *)
Lemma converted_table_comm (df : DataFrame) (c1 c2 : FilterCondition) :
  (column c1 = column c2 → coercion_of c1 = coercion_of c2) →
  converted_table (converted_table df c1) c2
  = converted_table (converted_table df c2) c1.
Proof.
  intros Hagree.
  destruct (decide (coercion_of c1 = Keep)) as [K1|K1].
  { by rewrite (converted_table_keep df c1), (converted_table_keep _ c1). }
  destruct (decide (coercion_of c2 = Keep)) as [K2|K2].
  { by rewrite (converted_table_keep df c2), (converted_table_keep _ c2). }
  destruct (decide (column c1 = column c2)) as [E|Hne].
  - specialize (Hagree E).
    rewrite (converted_table_same df c2 c1) by done.
    by apply converted_table_same.
  - rewrite (converted_table_unfold (converted_table df c1) c2 K2),
      (converted_table_unfold (converted_table df c2) c1 K1).
    rewrite !converted_table_columns.
    rewrite (converted_table_other df c1 (column c2)) by (intros E; by apply Hne).
    rewrite (converted_table_other df c2 (column c1)) by done.
    rewrite (converted_table_unfold df c1 K1), (converted_table_unfold df c2 K2).
    simpl. f_equal. by apply zip_zip_comm.
Qed.

Lemma conversions_agree_perm (cs cs' : list FilterCondition) :
  cs ≡ₚ cs' → conversions_agree cs → conversions_agree cs'.
Proof. intros Hp H c1 c2 H1 H2. apply H; by rewrite Hp. Qed.

Lemma conversions_agree_cons (c : FilterCondition) (cs : list FilterCondition) :
  conversions_agree (c :: cs) → conversions_agree cs.
Proof. intros H c1 c2 H1 H2. apply H; by right. Qed.

Lemma foldl_converted_perm (cs cs' : list FilterCondition) :
  cs ≡ₚ cs' → conversions_agree cs →
  ∀ df, foldl converted_table df cs = foldl converted_table df cs'.
Proof.
  induction 1 as [|c cs cs' Hp IH|c1 c2 cs|cs cs' cs'' Hp1 IH1 Hp2 IH2];
    intros Hagree df; simpl.
  - done.
  - apply IH. by eapply conversions_agree_cons.
  - f_equal. apply converted_table_comm. apply Hagree; [left|right; left].
  - rewrite IH1 by done. apply IH2. by eapply conversions_agree_perm.
Qed.

Lemma mask_or_swap (gm a b : Mask) :
  mask_or (mask_or gm a) b = mask_or (mask_or gm b) a.
Proof.
  unfold mask_or. revert a b. induction gm as [|x gm IH]; intros [|y a] [|z b];
    simpl; try done.
  rewrite IH. f_equal. by destruct x, y, z.
Qed.

Lemma foldl_mask_perm (g : FilterCondition → Mask) (cs cs' : list FilterCondition) :
  cs ≡ₚ cs' →
  ∀ gm, foldl (λ gm c, mask_or gm (g c)) gm cs = foldl (λ gm c, mask_or gm (g c)) gm cs'.
Proof.
  induction 1 as [|c cs cs' Hp IH|c1 c2 cs|cs cs' cs'' Hp1 IH1 Hp2 IH2];
    intros gm; simpl.
  - done.
  - apply IH.
  - f_equal. apply mask_or_swap.
  - rewrite IH1. apply IH2.
Qed.

(** Under agreeing conversions, the conversions made so far do not
    change the column that a condition reads, once converted. *)
Lemma state_column (done : list FilterCondition) (c : FilterCondition) :
  ∀ df0 : DataFrame,
    (∀ c', c' ∈ done → column c' = column c → coercion_of c' = coercion_of c) →
    convert (coercion_of c)
      (cell_at (column c) <$> rows (foldl converted_table df0 done))
    = convert (coercion_of c) (cell_at (column c) <$> rows df0).
Proof.
  induction done as [|c' done IH]; intros df0 Hagree; [done|]. simpl.
  rewrite IH by (intros; apply Hagree; [by right|done]).
  destruct (decide (column c' = column c)) as [E|Hne].
  - rewrite <- E, converted_table_column, (Hagree c') by (done || left).
    apply convert_idemp.
  - by rewrite converted_table_other.
Qed.

Lemma mask_on_state (done : list FilterCondition) (c : FilterCondition) (df0 : DataFrame) :
  (∀ c', c' ∈ done → column c' = column c → coercion_of c' = coercion_of c) →
  mask_on (foldl converted_table df0 done) c = mask_on df0 c.
Proof. intros H. unfold mask_on. by rewrite state_column. Qed.

(** The inner loop, when it returns: the table with the columns of the
    conditions converted, and the masks of the conditions on the table
    it started from, OR-ed. *)
Lemma or_conditions_columns (cs : list FilterCondition) :
  ∀ (df0 : DataFrame) (done : list FilterCondition) (gm : Mask)
    (df' : DataFrame) (gm' : Mask),
    conversions_agree (done ++ cs) →
    or_conditions (foldl converted_table df0 done) gm cs = Ok (df', gm') →
    df' = foldl converted_table df0 (done ++ cs) ∧
    gm' = foldl (λ gm c, mask_or gm (mask_of df0 c)) gm cs.
Proof.
  induction cs as [|c cs IH]; intros df0 done gm df' gm' Hagree; simpl.
  - intros [= <- <-]. by rewrite app_nil_r.
  - destruct (has_column _ (column c)) eqn:Hcol; simpl; [|done].
    destruct (apply_filter_condition _ c) as [[df1 m]|] eqn:Happ; simpl; [|done].
    apply apply_returns in Happ as [-> Hm]; [|done].
    rewrite mask_on_state in Hm.
    2:{ intros c' Hc' Hcc. apply Hagree; [apply elem_of_app; by left| |done].
        apply elem_of_app. right. left. }
    assert (mask_of df0 c = m) as Hmo by (unfold mask_of; by rewrite Hm).
    change (converted_table (foldl converted_table df0 done) c)
      with (foldl converted_table (foldl converted_table df0 done) [c]).
    rewrite <- foldl_app. intros Hrest.
    apply IH in Hrest as [-> ->]; [|by rewrite <- app_assoc].
    rewrite <- app_assoc. split; [done|]. by rewrite Hmo.
Qed.

(** X9.  Inside a group the order of the conditions does not matter: for
    an expression read row by row, the calls with the conditions of one
    group listed in two orders return the same table, when both
    return. *)
Theorem group_order (fs fs1 fs2 : Files) (input_file : string)
    (before after : list filter_item) (cs cs' : list FilterCondition)
    (out : option string) (df df1 df2 : DataFrame) :
  fs !! input_file = Some df →
  cs ≡ₚ cs' →
  row_wise (before ++ Group (mkGroup cs) :: after) = true →
  filter_excel_data fs input_file (before ++ Group (mkGroup cs) :: after) out
    = (fs1, Ok df1) →
  filter_excel_data fs input_file (before ++ Group (mkGroup cs') :: after) out
    = (fs2, Ok df2) →
  df2 = df1.
Proof.
  intros Hin Hp Hrw H1 H2.
  apply (filter_excel_data_ok _ _ _ _ _ _ _ Hin) in H1, H2.
  assert (conversions_agree cs) as Hagree.
  { apply row_wise_spec in Hrw as [_ Hall]. intros c1 c2 Hc1 Hc2.
    apply Hall; rewrite all_conditions_app, all_conditions_cons;
      apply elem_of_app; right; apply elem_of_app; by left. }
  rewrite filter_loop_app in H1, H2.
  destruct (filter_loop df before) as [dB|]; [|done].
  cbn [mbind result_bind filter_loop filter_step conditions] in H1, H2.
  destruct (or_conditions dB (full_mask false dB) cs) as [[dA mA]|] eqn:HA; [|done].
  destruct (or_conditions dB (full_mask false dB) cs') as [[dA' mA']|] eqn:HA'; [|done].
  apply (or_conditions_columns cs dB []) in HA as [-> ->]; [|done].
  apply (or_conditions_columns cs' dB []) in HA' as [-> ->];
    [|by eapply conversions_agree_perm].
  simpl in H1, H2.
  rewrite <- (foldl_converted_perm _ _ Hp Hagree) in H2.
  rewrite <- (foldl_mask_perm _ _ _ Hp) in H2.
  congruence.
Qed.

(** X10.  A further alternative in a group can only add rows: for an
    expression read row by row, on a table whose columns of dates are
    named by date conditions only, the rows returned with the shorter
    group are among the rows returned with the longer one, in their
    order, when both calls return. *)
Theorem group_more_alternatives (fs fs1 fs2 : Files) (input_file : string)
    (before after : list filter_item) (cs more : list FilterCondition)
    (out : option string) (df df1 df2 : DataFrame) :
  fs !! input_file = Some df →
  row_wise (before ++ Group (mkGroup (cs ++ more)) :: after) = true →
  dates_read_as_dates df (before ++ Group (mkGroup (cs ++ more)) :: after) = true →
  filter_excel_data fs input_file (before ++ Group (mkGroup cs) :: after) out
    = (fs1, Ok df1) →
  filter_excel_data fs input_file (before ++ Group (mkGroup (cs ++ more)) :: after) out
    = (fs2, Ok df2) →
  label <$> rows df1 `sublist_of` label <$> rows df2.
Proof.
  intros Hin Hrw' Hplain' H1 H2.
  apply (filter_excel_data_ok _ _ _ _ _ _ _ Hin) in H1, H2.
  assert (∀ c, c ∈ all_conditions (before ++ Group (mkGroup cs) :: after) →
               c ∈ all_conditions (before ++ Group (mkGroup (cs ++ more)) :: after))
    as Hsub.
  { intros c. rewrite !all_conditions_app, !all_conditions_cons. simpl.
    rewrite !elem_of_app. tauto. }
  pose proof (row_wise_sub _ _ Hsub Hrw') as Hrw.
  pose proof (dates_read_as_dates_sub _ _ _ Hsub Hplain') as Hplain.
  rewrite (filter_loop_row_wise _ _ _ Hrw Hplain H1),
    (filter_loop_row_wise _ _ _ Hrw' Hplain' H2).
  simpl. rewrite <- !list_fmap_compose.
  rewrite (list_fmap_ext (label ∘ coerce_rows _) label
             (List.filter (expr_holds (before ++ Group (mkGroup cs) :: after)) _))
    by (intros; apply label_coerce_rows).
  rewrite (list_fmap_ext (label ∘ coerce_rows _) label
             (List.filter (expr_holds (before ++ Group (mkGroup (cs ++ more)) :: after)) _))
    by (intros; apply label_coerce_rows).
  apply fmap_sublist, filter_sublist_impl. intros r.
  rewrite !expr_holds_app. unfold expr_holds at 2 4. simpl.
  rewrite existsb_app. intros H. apply andb_true_iff in H as [Hb H].
  apply andb_true_iff in H as [Hg Ha]. by rewrite Hb, Hg, Ha.
Qed.

End FilterFurther.

(** ** Further properties of the fuzzy matcher and of the partition
    ([main.py]) *)

Section NamesFurther.
Context `{RT : Runtime}.

Lemma append_nil_r (s : string) : s +:+ "" = s.
Proof. induction s as [|a s IH]; [done|]. change (String a (s +:+ "") = String a s). by rewrite IH. Qed.

Lemma append_assoc (s1 s2 s3 : string) : (s1 +:+ s2) +:+ s3 = s1 +:+ (s2 +:+ s3).
Proof.
  induction s1 as [|a s1 IH]; [done|].
  change (String a ((s1 +:+ s2) +:+ s3) = String a (s1 +:+ (s2 +:+ s3))). by rewrite IH.
Qed.

Lemma rev_app_append (s t : string) : String.rev_app s t = String.rev s +:+ t.
Proof.
  unfold String.rev. revert t. induction s as [|a s IH]; intros t; [done|]. simpl.
  rewrite (IH (String a t)), (IH (String a "")), append_assoc. done.
Qed.

Lemma rev_append (s t : string) : String.rev (s +:+ t) = String.rev t +:+ String.rev s.
Proof.
  induction s as [|a s IH].
  - by rewrite append_nil_r.
  - change (String.rev_app (s +:+ t) (String a "")
            = String.rev t +:+ String.rev_app s (String a "")).
    rewrite !rev_app_append, IH, append_assoc. done.
Qed.

Lemma rev_rev (s : string) : String.rev (String.rev s) = s.
Proof.
  induction s as [|a s IH]; [done|].
  change (String.rev (String.rev_app s (String a "")) = String a s).
  by rewrite rev_app_append, rev_append, IH.
Qed.

Lemma blank_append (s t : string) : blank (s +:+ t) = blank s && blank t.
Proof.
  induction s as [|a s IH]; [done|].
  change (isspace a && blank (s +:+ t) = isspace a && blank s && blank t).
  by rewrite IH, andb_assoc.
Qed.

Lemma blank_rev (s : string) : blank (String.rev s) = blank s.
Proof.
  induction s as [|a s IH]; [done|].
  change (blank (String.rev_app s (String a "")) = isspace a && blank s).
  rewrite rev_app_append, blank_append, IH. simpl.
  by rewrite andb_true_r, andb_comm.
Qed.

Lemma lstrip_split (s : string) : ∃ ws, blank ws = true ∧ s = ws +:+ lstrip s.
Proof.
  induction s as [|a s (ws & Hb & Hs)]; [by exists ""|]. simpl.
  destruct (isspace a) eqn:Ha.
  - exists (String a ws). split; [simpl; by rewrite Ha|].
    change (String a s = String a (ws +:+ lstrip s)). by rewrite <- Hs.
  - by exists "".
Qed.

Lemma rstrip_split (s : string) : ∃ ws, blank ws = true ∧ s = rstrip s +:+ ws.
Proof.
  destruct (lstrip_split (String.rev s)) as (ws & Hb & Hs).
  exists (String.rev ws). split; [by rewrite blank_rev|].
  unfold rstrip. by rewrite <- rev_append, <- Hs, rev_rev.
Qed.

Lemma split_from_blank (w ws : string) : blank ws = true → split_from w ws = flush w.
Proof.
  revert w. induction ws as [|a ws IH]; intros w; [done|]. simpl.
  intros [Ha Hb]%andb_true_iff. rewrite Ha, (IH "" Hb). simpl. apply app_nil_r.
Qed.

Lemma split_from_append_blank (w s ws : string) :
  blank ws = true → split_from w (s +:+ ws) = split_from w s.
Proof.
  intros Hb. revert w. induction s as [|a s IH]; intros w.
  - by apply split_from_blank.
  - change (split_from w (String a (s +:+ ws)) = split_from w (String a s)).
    simpl. by rewrite !IH.
Qed.

Lemma split_blank_append (ws s : string) :
  blank ws = true → split (ws +:+ s) = split s.
Proof.
  unfold split. induction ws as [|a ws IH]; [done|]. simpl.
  intros [Ha Hb]%andb_true_iff.
  change (split_from "" (String a (ws +:+ s)) = split_from "" s).
  simpl. rewrite Ha. by apply IH.
Qed.

(** The call of [strip] before [split] changes nothing. *)
Lemma split_strip (s : string) : split (strip s) = split s.
Proof.
  unfold strip.
  destruct (lstrip_split s) as (ws1 & Hb1 & Hs).
  destruct (rstrip_split (lstrip s)) as (ws2 & Hb2 & Hr).
  rewrite Hs at 2. rewrite (split_blank_append _ _ Hb1). rewrite Hr at 2.
  unfold split. by rewrite split_from_append_blank.
Qed.

Lemma name_parts_text (s : string) :
  name_parts (CStr s) = list_to_set (split (lower s)).
Proof. unfold name_parts. simpl. by rewrite split_strip. Qed.



Lemma chars_append (s t : string) :
  String.list_ascii_of_string (s +:+ t)
  = String.list_ascii_of_string s ++ String.list_ascii_of_string t.
Proof.
  induction s as [|a s IH]; [done|].
  change (a :: String.list_ascii_of_string (s +:+ t)
          = a :: (String.list_ascii_of_string s ++ String.list_ascii_of_string t)).
  by rewrite IH.
Qed.

Lemma chars_rev (P : ascii → Prop) (s : string) :
  Forall P (String.list_ascii_of_string s) →
  Forall P (String.list_ascii_of_string (String.rev s)).
Proof.
  induction s as [|a s IH]; [done|]. simpl. intros [Ha Hs]%Forall_cons.
  change (Forall P (String.list_ascii_of_string (String.rev_app s (String a "")))).
  rewrite rev_app_append, chars_append. apply Forall_app. split; [auto|].
  simpl. by constructor.
Qed.

Lemma rev_nonempty (s : string) : s ≠ "" → String.rev s ≠ "".
Proof. intros Hs Hr. apply Hs. by rewrite <- (rev_rev s), Hr. Qed.

(** The words of a text are non-empty, without white space, and made of
    characters of the text. *)
Lemma split_from_words (P : ascii → Prop) (s : string) :
  ∀ w p,
    Forall (λ c, P c ∧ isspace c = false) (String.list_ascii_of_string w) →
    Forall P (String.list_ascii_of_string s) →
    p ∈ split_from w s →
    p ≠ "" ∧ Forall (λ c, P c ∧ isspace c = false) (String.list_ascii_of_string p).
Proof.
  assert (∀ w p,
    Forall (λ c, P c ∧ isspace c = false) (String.list_ascii_of_string w) →
    p ∈ flush w →
    p ≠ "" ∧ Forall (λ c, P c ∧ isspace c = false) (String.list_ascii_of_string p))
    as Hflush.
  { intros w p Hw Hp. destruct w as [|a w]; simpl in Hp; [by apply elem_of_nil in Hp|].
    apply list_elem_of_singleton in Hp as ->.
    split; [by apply rev_nonempty|by apply chars_rev]. }
  induction s as [|a s IH]; intros w p Hw Hs Hp; simpl in *.
  - by apply Hflush with w.
  - apply Forall_cons in Hs as [Ha Hs].
    destruct (isspace a) eqn:Hsp.
    + apply elem_of_app in Hp as [Hp|Hp]; [by apply Hflush with w|].
      apply (IH "" p); [constructor|done|done].
    + apply (IH (String a w) p); [|done|done]. simpl. by constructor.
Qed.

Lemma lower_char_idemp (c : ascii) : lower_char (lower_char c) = lower_char c.
Proof. by destruct c as [[] [] [] [] [] [] [] []]. Qed.

Lemma lower_chars (s : string) :
  Forall (λ c, lower_char c = c) (String.list_ascii_of_string (lower s)).
Proof.
  induction s as [|a s IH]; simpl; constructor; [apply lower_char_idemp|done].
Qed.

Lemma lower_fixed (p : string) :
  Forall (λ c, lower_char c = c) (String.list_ascii_of_string p) → lower p = p.
Proof.
  induction p as [|a p IH]; [done|]. simpl. intros [Ha Hp]%Forall_cons.
  by rewrite Ha, IH.
Qed.

(** X11.  The parts of a name are words: none is empty, none holds white
    space, none holds an upper-case letter; [fuzz.ratio] is called on
    such words only. *)
Theorem name_parts_words (name : cell) (p : string) :
  p ∈ name_parts name →
  p ≠ "" ∧
  (∀ c, c ∈ String.list_ascii_of_string p → isspace c = false) ∧
  lower p = p.
Proof.
  unfold name_parts. rewrite split_strip, elem_of_list_to_set. intros Hp.
  apply (split_from_words (λ c, lower_char c = c)) in Hp as [Hne Hall];
    [|constructor|apply lower_chars].
  split; [done|]. split.
  - intros c Hc. rewrite Forall_forall in Hall. by apply Hall.
  - apply lower_fixed. eapply Forall_impl; [done|]. by intros c [? _].
Qed.

(** X12.  Letter case, white space around and between the words, the
    order of the words and their repetition play no part: two texts with
    the same set of lower-cased words are interchangeable as the first
    and as the second name. *)
Theorem is_similar_name_normalised (s s' : string) (other : cell)
    (threshold : option Z) :
  list_to_set (split (lower s)) =@{gset string} list_to_set (split (lower s')) →
  is_similar_name (CStr s) other threshold = is_similar_name (CStr s') other threshold ∧
  is_similar_name other (CStr s) threshold = is_similar_name other (CStr s') threshold.
Proof.
  intros Heq. unfold is_similar_name. rewrite !name_parts_text, Heq. done.
Qed.

Lemma similar_at_lower_threshold (a b : cell) (t t' : Z) :
  t' ≤ t →
  is_similar_name a b (Some t) = true →
  is_similar_name a b (Some t') = true.
Proof.
  intros Hle. rewrite !is_similar_name_true.
  intros (H1 & H2 & H3 & H4 & H5). do 4 (split; [done|]).
  intros p Hp. specialize (H5 p Hp). lia.
Qed.


(** X13.  A name is similar to itself as soon as it is not missing, has
    a part, and each of its parts scores at least the threshold against
    itself. *)
Theorem is_similar_name_itself (a : cell) (t : Z) :
  isna a = false →
  name_parts a ≠ ∅ →
  (∀ p, p ∈ name_parts a → t ≤ fuzz_ratio p p) →
  is_similar_name a a (Some t) = true.
Proof.
  intros Hna Hne Hself. apply is_similar_name_true.
  do 2 (split; [done|]). split; [lia|]. split; [done|].
  intros p Hp. apply best_match_ge. right. exists p. auto.
Qed.



Lemma matched_true (names : list cell) (t : Z) (r : Row) :
  matched names t r = true ↔
    ∃ n, n ∈ names ∧ is_similar_name (cell_at COLUMN_KEY r) n (Some t) = true.
Proof. unfold matched. by rewrite bool_decide_eq_true, first_similar_is_Some. Qed.

Lemma find_matches_rows (rs : list Row) (names : list cell) (t : Z) :
  (find_matches rs names t).*1 = List.filter (matched names t) rs.
Proof.
  induction rs as [|r rs IH]; [done|]. simpl. unfold matched at 1.
  destruct (first_similar _ names t) as [n|] eqn:E.
  - rewrite bool_decide_eq_true_2 by eauto. rewrite fmap_cons. simpl. by rewrite IH.
  - rewrite bool_decide_eq_false_2 by (by intros [? ?]). done.
Qed.

Lemma responses_filtered_rows (df : DataFrame) (names : list cell) (t : Z) :
  rows (responses_filtered df names t)
  = List.filter (λ r, negb (matched names t r)) (rows df).
Proof.
  unfold responses_filtered, select, mask_not, isin_list. simpl.
  rewrite <- !list_fmap_compose, boolean_index_fmap.
  apply filter_ext_in. intros r Hr%list_elem_of_In. simpl. f_equal.
  destruct (matched names t r) eqn:Hm.
  - apply bool_decide_eq_true_2, elem_of_removed_names.
    exists r. do 2 (split; [done|]). by apply matched_true.
  - apply bool_decide_eq_false_2. intros (r' & _ & Heq & Hex)%elem_of_removed_names.
    rewrite Heq in Hex. apply matched_true in Hex. congruence.
Qed.

Lemma filter_partition_length {A} (f : A → bool) (l : list A) :
  (length (List.filter f l) + length (List.filter (λ x, negb (f x)) l))%nat = length l.
Proof.
  induction l as [|x l IH]; [done|]. simpl. destruct (f x); simpl; lia.
Qed.

(** X14.  Lowering the threshold never loses a match, and never keeps a
    response that the higher threshold removes: the responses kept at
    the lower threshold are among those kept at the higher one. *)
Theorem lower_threshold_removes_more (t t' : Z) :
  t' ≤ t →
  (∀ a b : cell,
     is_similar_name a b (Some t) = true → is_similar_name a b (Some t') = true) ∧
  (∀ (df : DataFrame) (names : list cell),
     rows (responses_filtered df names t')
       `sublist_of` rows (responses_filtered df names t)).
Proof.
  intros Hle. split; [intros a b; by apply similar_at_lower_threshold|].
  intros df names. rewrite !responses_filtered_rows. apply filter_sublist_impl.
  intros r Hr. apply negb_true_iff in Hr. apply negb_true_iff.
  destruct (matched names t r) eqn:Hm; [|done].
  apply matched_true in Hm as (n & Hn & Hs).
  assert (matched names t' r = true) as Hm'; [|congruence].
  apply matched_true. exists n. split; [done|]. by eapply similar_at_lower_threshold.
Qed.

(** X15.  The two outputs split the responses row by row: the kept table
    holds exactly the rows that matched no reference name, the removed
    table exactly the rows that matched one, both in the order of the
    responses; no row is lost or doubled. *)
Theorem responses_partition_rows (df : DataFrame) (names : list cell) (t : Z) :
  rows (responses_filtered df names t)
  = List.filter (λ r, negb (matched names t r)) (rows df) ∧
  label <$> rows (removed_table df names t)
  = label <$> List.filter (matched names t) (rows df) ∧
  (length (rows (removed_table df names t))
   + length (rows (responses_filtered df names t)))%nat = length (rows df).
Proof.
  split; [apply responses_filtered_rows|].
  assert (label <$> rows (removed_table df names t)
          = label <$> List.filter (matched names t) (rows df)) as Hl.
  { unfold removed_table. simpl. rewrite <- find_matches_rows, <- !list_fmap_compose.
    by apply list_fmap_ext. }
  split; [done|].
  rewrite responses_filtered_rows, <- (filter_partition_length (matched names t) (rows df)).
  f_equal. by rewrite <- (length_fmap label), Hl, length_fmap.
Qed.

Lemma first_similar_first (x : cell) (names : list cell) (t : Z) (n : cell) :
  first_similar x names t = Some n →
  ∃ before after,
    names = before ++ n :: after ∧
    is_similar_name x n (Some t) = true ∧
    ∀ m, m ∈ before → is_similar_name x m (Some t) = false.
Proof.
  induction names as [|m names IH]; simpl; [done|].
  destruct (is_similar_name x m (Some t)) eqn:E.
  - intros [= ->]. exists [], names. split; [done|]. split; [done|].
    by intros ? ?%elem_of_nil.
  - intros (before & after & -> & Hs & Hb)%IH.
    exists (m :: before), after. split; [done|]. split; [done|].
    intros m' [->|?]%elem_of_cons; auto.
Qed.

(** X16.  The audit trail names the first match: each row of the removed
    table is a removed response with, in its column "Matched With", the
    first name of the reference list that is similar to its own name. *)
Theorem matched_with_first (df : DataFrame) (names : list cell) (t : Z) (r' : Row) :
  r' ∈ rows (removed_table df names t) →
  ∃ r n before after,
    r ∈ rows df ∧
    r' = set_cell "Matched With" n r ∧
    cell_at "Matched With" r' = n ∧
    names = before ++ n :: after ∧
    is_similar_name (cell_at COLUMN_KEY r) n (Some t) = true ∧
    ∀ m, m ∈ before → is_similar_name (cell_at COLUMN_KEY r) m (Some t) = false.
Proof.
  unfold removed_table. simpl.
  intros ([r n] & -> & [Hr Hf]%elem_of_find_matches)%list_elem_of_fmap. simpl in *.
  apply first_similar_first in Hf as (before & after & Hn & Hs & Hb).
  exists r, n, before, after. do 2 (split; [done|]). split; [|done].
  unfold cell_at, set_cell. simpl. by rewrite lookup_insert_eq.
Qed.

(** X17.  When one of the three files is missing, or its table lacks the
    column of names, [remove_duplicates] writes nothing. *)
Theorem remove_duplicates_gives_up (fs : Files) (threshold : option Z) :
  has_key_column fs RESPONSES_FILE
  && has_key_column fs REGISTRY_FILE
  && has_key_column fs SURVEILLANCE_FILE = false →
  remove_duplicates fs threshold = fs.
Proof.
  unfold has_key_column, remove_duplicates.
  destruct (read_file_safe fs RESPONSES_FILE) as [d1|]; [|done].
  destruct (read_file_safe fs REGISTRY_FILE) as [d2|];
    [|by destruct (has_column d1 _)].
  destruct (read_file_safe fs SURVEILLANCE_FILE) as [d3|].
  - intros ->. done.
  - by destruct (has_column d1 _), (has_column d2 _).
Qed.

(** X18.  When the three tables are there, [remove_duplicates] writes the
    backup, which holds the responses as they were, and the filtered
    responses; it writes the removed facilities exactly when some
    response matched; and it touches no other file, its three inputs
    included. *)
Theorem remove_duplicates_files (fs : Files) (t : Z)
    (df_responses df_registry df_surveillance : DataFrame) :
  read_file_safe fs RESPONSES_FILE = Some df_responses →
  read_file_safe fs REGISTRY_FILE = Some df_registry →
  read_file_safe fs SURVEILLANCE_FILE = Some df_surveillance →
  has_column df_responses COLUMN_KEY = true →
  has_column df_registry COLUMN_KEY = true →
  has_column df_surveillance COLUMN_KEY = true →
  let names := (cell_at COLUMN_KEY <$> rows df_registry)
               ++ (cell_at COLUMN_KEY <$> rows df_surveillance) in
  let fs' := remove_duplicates fs (Some t) in
  fs' !! backup_file = Some (reset_index df_responses) ∧
  fs' !! output_file_name = Some (reset_index (responses_filtered df_responses names t)) ∧
  fs' !! removed_file
  = (if existsb (matched names t) (rows df_responses)
     then Some (reset_index (removed_table df_responses names t))
     else fs !! removed_file) ∧
  (∀ path, path ∉ [removed_file; backup_file; output_file_name] →
     fs' !! path = fs !! path) ∧
  fs' !! RESPONSES_FILE = Some df_responses ∧
  fs' !! REGISTRY_FILE = Some df_registry ∧
  fs' !! SURVEILLANCE_FILE = Some df_surveillance.
Proof.
  intros H1 H2 H3 C1 C2 C3 names fs'.
  assert (rows (removed_table df_responses names t) = []
          ↔ existsb (matched names t) (rows df_responses) = false) as Hnone.
  { unfold removed_table. simpl.
    induction (rows df_responses) as [|r l IH]; simpl; [done|]. unfold matched at 1.
    destruct (first_similar _ names t) as [n|] eqn:E.
    - rewrite bool_decide_eq_true_2 by eauto. by rewrite fmap_cons.
    - rewrite bool_decide_eq_false_2 by (by intros [? ?]). exact IH. }
  assert (∀ path, path ∉ [removed_file; backup_file; output_file_name] →
            fs' !! path = fs !! path) as Hframe.
  { intros path Hp. unfold fs', remove_duplicates.
    rewrite H1, H2, H3, C1, C2, C3. simpl. fold names.
    unfold to_excel, to_csv.
    rewrite !lookup_insert_ne
      by (intros E; apply Hp; rewrite <- E; (by right; left) || (by right; right; left)).
    destruct (_ <$> find_matches _ _ _); [done|].
    apply lookup_insert_ne. intros E. apply Hp. rewrite <- E. left. }
  split; [|split; [|split; [|split; [done|]]]].
  - unfold fs', remove_duplicates. rewrite H1, H2, H3, C1, C2, C3. simpl.
    unfold to_excel, to_csv. rewrite lookup_insert_ne by done.
    apply lookup_insert_eq.
  - unfold fs', remove_duplicates. rewrite H1, H2, H3, C1, C2, C3. simpl.
    unfold to_excel. apply lookup_insert_eq.
  - unfold fs', remove_duplicates. rewrite H1, H2, H3, C1, C2, C3. simpl. fold names.
    unfold to_excel, to_csv. rewrite !lookup_insert_ne by done.
    change (_ <$> find_matches (rows df_responses) names t)
      with (rows (removed_table df_responses names t)).
    destruct (existsb (matched names t) (rows df_responses)) eqn:Hex.
    + destruct (rows (removed_table df_responses names t)) as [|x l] eqn:Hr.
      { destruct Hnone as [Hn _]. by specialize (Hn eq_refl). }
      apply lookup_insert_eq.
    + destruct Hnone as [_ Hn]. by rewrite (Hn eq_refl).
  - rewrite !Hframe; [done|..];
      intros H; repeat (apply elem_of_cons in H as [H|H]; [done|]);
      by apply elem_of_nil in H.
Qed.



(** X19.  A response whose name is missing, or blank, is never removed:
    it matches no reference name and is kept, whatever the reference
    names and the threshold. *)
Theorem unnamed_response_kept (df : DataFrame) (names : list cell) (t : Z) (r : Row) :
  r ∈ rows df →
  isna (cell_at COLUMN_KEY r) = true ∨ name_parts (cell_at COLUMN_KEY r) = ∅ →
  matched names t r = false ∧ r ∈ rows (responses_filtered df names t).
Proof.
  intros Hr Hname.
  assert (matched names t r = false) as Hm.
  { destruct (matched names t r) eqn:Hm; [|done].
    apply matched_true in Hm as (n & _ & Hs).
    apply is_similar_name_true in Hs as (Hna & _ & _ & Hne & _).
    destruct Hname; congruence. }
  split; [done|]. rewrite responses_filtered_rows.
  apply elem_of_bool_filter. by rewrite Hm.
Qed.

End NamesFurther.

(** ** The further properties on examples *)

Section Examples2.
#[local] Existing Instance example_runtime.

Lemma errors_independent_of_rows_witness :
  has_column fse (column on_yesterday) = true ∧
  has_column fse_zone_6 (column on_yesterday) = true ∧
  (condition on_yesterday ∉ ["greater_than"; "less_than"; "date_greater"; "date_less"]) ∧
  positional on_yesterday = false ∧
  ∀ e, (apply_filter_condition fse on_yesterday = Raise e
        ↔ check_condition on_yesterday = Raise e) ∧
       (apply_filter_condition fse on_yesterday = Raise e
        ↔ apply_filter_condition fse_zone_6 on_yesterday = Raise e).
Proof.
  assert (has_column fse (column on_yesterday) = true) as H1 by (vm_compute; reflexivity).
  assert (has_column fse_zone_6 (column on_yesterday) = true) as H2
    by (vm_compute; reflexivity).
  assert (condition on_yesterday
            ∉ ["greater_than"; "less_than"; "date_greater"; "date_less"]) as H3
    by (apply (bool_decide_unpack _); vm_compute; exact I).
  assert (positional on_yesterday = false) as H4 by (vm_compute; reflexivity).
  do 4 (split; [assumption|]).
  exact (errors_independent_of_rows fse fse_zone_6 on_yesterday H1 H2 H3 H4).
Defined.

(** The unreadable date of that condition is raised on both tables. *)
Example unreadable_date_raises :
  check_condition on_yesterday = Raise ValueError ∧
  apply_filter_condition fse on_yesterday = Raise ValueError ∧
  apply_filter_condition fse_zone_6 on_yesterday = Raise ValueError.
Proof. repeat split; vm_compute; reflexivity. Qed.

Lemma ordering_type_error_witness :
  has_column wards (column beds_over_10) = true ∧
  condition beds_over_10 ∈ ["greater_than"; "less_than"] ∧
  value_of beds_over_10 = VCell (CInt 10) ∧
  number_or_text (CInt 10) = true ∧
  numbers_and_texts wards beds_over_10 = true ∧
  apply_filter_condition wards beds_over_10
  = if forallb (λ r, comparable (cell_at (column beds_over_10) r) (CInt 10)) (rows wards)
    then Ok (wards, holds beds_over_10 <$> rows wards)
    else Raise TypeError.
Proof.
  assert (has_column wards (column beds_over_10) = true) as H1
    by (vm_compute; reflexivity).
  assert (condition beds_over_10 ∈ ["greater_than"; "less_than"]) as H2
    by (apply (bool_decide_unpack _); vm_compute; exact I).
  assert (value_of beds_over_10 = VCell (CInt 10)) as H3 by reflexivity.
  assert (number_or_text (CInt 10) = true) as H4 by reflexivity.
  assert (numbers_and_texts wards beds_over_10 = true) as H5 by (vm_compute; reflexivity).
  do 5 (split; [assumption|]).
  exact (ordering_type_error wards beds_over_10 (CInt 10) H1 H2 H3 H4 H5).
Defined.

(** The text cell makes the comparison raise; without it the missing
    cell compares false. *)
Example beds_comparison :
  apply_filter_condition wards beds_over_10 = Raise TypeError ∧
  apply_filter_condition (select wards [true; false; true]) beds_over_10
  = Ok (select wards [true; false; true], [true; false]).
Proof. split; vm_compute; reflexivity. Qed.

Lemma apply_filter_condition_shape_witness :
  apply_filter_condition fse zone_6 = Ok (fse, [true; true; false; true; true]) ∧
  length [true; true; false; true; true] = length (rows fse) ∧
  columns fse = columns fse ∧
  label <$> rows fse = label <$> rows fse ∧
  (∀ col, col ≠ column zone_6 → cell_at col <$> rows fse = cell_at col <$> rows fse) ∧
  (coercion_of zone_6 = Keep → fse = fse).
Proof.
  assert (apply_filter_condition fse zone_6 = Ok (fse, [true; true; false; true; true]))
    as H1 by (vm_compute; reflexivity).
  split; [exact H1|].
  exact (apply_filter_condition_shape fse fse zone_6 _ H1).
Defined.

Lemma filter_excel_data_sub_table_witness :
  fse_files !! "fse.xlsx" = Some fse ∧
  filter_excel_data fse_files "fse.xlsx" fse_filters None = (fse_files, Ok fse_filtered) ∧
  columns fse_filtered = columns fse ∧
  label <$> rows fse_filtered `sublist_of` label <$> rows fse ∧
  (length (rows fse_filtered) ≤ length (rows fse))%nat.
Proof.
  assert (fse_files !! "fse.xlsx" = Some fse) as H1 by (vm_compute; reflexivity).
  assert (filter_excel_data fse_files "fse.xlsx" fse_filters None
          = (fse_files, Ok fse_filtered)) as H2 by (vm_compute; reflexivity).
  do 2 (split; [assumption|]).
  exact (filter_excel_data_sub_table _ _ _ _ _ _ _ H1 H2).
Defined.

Lemma filter_more_elements_witness :
  filter_excel_data fse_files "fse.xlsx"
    ([Single zone_6] ++ [Group (mkGroup [on_date "05/02/2025"; on_date "06/02/2025"])])
    None = (fse_files, Ok fse_filtered) ∧
  ∃ df1, filter_excel_data fse_files "fse.xlsx" [Single zone_6] None
         = (fse_files, Ok df1) ∧
         columns fse_filtered = columns df1 ∧
         label <$> rows fse_filtered `sublist_of` label <$> rows df1.
Proof.
  assert (filter_excel_data fse_files "fse.xlsx"
            ([Single zone_6]
             ++ [Group (mkGroup [on_date "05/02/2025"; on_date "06/02/2025"])])
            None = (fse_files, Ok fse_filtered)) as H1 by (vm_compute; reflexivity).
  split; [exact H1|].
  exact (filter_more_elements _ _ _ _ _ _ _ H1).
Defined.

Lemma filter_twice_witness :
  positional zone_6 = false ∧
  filter_excel_data fse_files "fse.xlsx" [Single zone_6; Single zone_6] None
  = filter_excel_data fse_files "fse.xlsx" [Single zone_6] None.
Proof.
  assert (positional zone_6 = false) as H1 by (vm_compute; reflexivity).
  split; [exact H1|].
  exact (filter_twice fse_files "fse.xlsx" zone_6 None H1).
Defined.

Lemma filter_excel_data_writes_witness :
  filter_excel_data fse_files "fse.xlsx" fse_filters (Some "filtered.xlsx")
    = (fse_written, Ok fse_filtered) ∧
  (∀ path, Some "filtered.xlsx" ≠ Some path → fse_written !! path = fse_files !! path) ∧
  (is_ok (Ok fse_filtered) = false ∨ Some "filtered.xlsx" = None
   ∨ Some "filtered.xlsx" = Some "" → fse_written = fse_files) ∧
  (∀ df' path, Ok fse_filtered = Ok df' → Some "filtered.xlsx" = Some path → path ≠ "" →
     fse_written !! path = Some (reset_index df')).
Proof.
  assert (filter_excel_data fse_files "fse.xlsx" fse_filters (Some "filtered.xlsx")
          = (fse_written, Ok fse_filtered)) as H1 by (vm_compute; reflexivity).
  split; [exact H1|].
  exact (filter_excel_data_writes _ _ _ _ _ _ H1).
Defined.

Lemma group_order_witness :
  fse_files !! "fse.xlsx" = Some fse ∧
  [on_date "05/02/2025"; on_date "06/02/2025"]
    ≡ₚ [on_date "06/02/2025"; on_date "05/02/2025"] ∧
  row_wise ([Single zone_6]
            ++ Group (mkGroup [on_date "05/02/2025"; on_date "06/02/2025"]) :: []) = true ∧
  filter_excel_data fse_files "fse.xlsx"
    ([Single zone_6]
     ++ Group (mkGroup [on_date "05/02/2025"; on_date "06/02/2025"]) :: []) None
    = (fse_files, Ok fse_filtered) ∧
  filter_excel_data fse_files "fse.xlsx"
    ([Single zone_6]
     ++ Group (mkGroup [on_date "06/02/2025"; on_date "05/02/2025"]) :: []) None
    = (fse_files, Ok fse_filtered) ∧
  fse_filtered = fse_filtered.
Proof.
  assert (fse_files !! "fse.xlsx" = Some fse) as H1 by (vm_compute; reflexivity).
  assert ([on_date "05/02/2025"; on_date "06/02/2025"]
            ≡ₚ [on_date "06/02/2025"; on_date "05/02/2025"]) as H2 by apply perm_swap.
  assert (row_wise ([Single zone_6]
            ++ Group (mkGroup [on_date "05/02/2025"; on_date "06/02/2025"]) :: [])
          = true) as H3 by (vm_compute; reflexivity).
  assert (filter_excel_data fse_files "fse.xlsx"
            ([Single zone_6]
             ++ Group (mkGroup [on_date "05/02/2025"; on_date "06/02/2025"]) :: []) None
          = (fse_files, Ok fse_filtered)) as H4 by (vm_compute; reflexivity).
  assert (filter_excel_data fse_files "fse.xlsx"
            ([Single zone_6]
             ++ Group (mkGroup [on_date "06/02/2025"; on_date "05/02/2025"]) :: []) None
          = (fse_files, Ok fse_filtered)) as H5 by (vm_compute; reflexivity).
  do 5 (split; [assumption|]).
  exact (group_order _ _ _ _ _ _ _ _ _ _ _ _ H1 H2 H3 H4 H5).
Defined.

Lemma group_more_alternatives_witness :
  fse_files !! "fse.xlsx" = Some fse ∧
  row_wise ([Single zone_6]
            ++ Group (mkGroup ([on_date "05/02/2025"] ++ [on_date "06/02/2025"])) :: [])
  = true ∧
  dates_read_as_dates fse
    ([Single zone_6]
     ++ Group (mkGroup ([on_date "05/02/2025"] ++ [on_date "06/02/2025"])) :: [])
  = true ∧
  filter_excel_data fse_files "fse.xlsx"
    ([Single zone_6] ++ Group (mkGroup [on_date "05/02/2025"]) :: []) None
    = (fse_files, Ok (mkDF ["Zone"; "Timestamp"] [zone_row 0 (CStr "6A") (feb 5)])) ∧
  filter_excel_data fse_files "fse.xlsx"
    ([Single zone_6]
     ++ Group (mkGroup ([on_date "05/02/2025"] ++ [on_date "06/02/2025"])) :: []) None
    = (fse_files, Ok fse_filtered) ∧
  label <$> rows (mkDF ["Zone"; "Timestamp"] [zone_row 0 (CStr "6A") (feb 5)])
    `sublist_of` label <$> rows fse_filtered.
Proof.
  assert (fse_files !! "fse.xlsx" = Some fse) as H1 by (vm_compute; reflexivity).
  assert (row_wise ([Single zone_6]
            ++ Group (mkGroup ([on_date "05/02/2025"] ++ [on_date "06/02/2025"])) :: [])
          = true) as H2 by (vm_compute; reflexivity).
  assert (dates_read_as_dates fse
            ([Single zone_6]
             ++ Group (mkGroup ([on_date "05/02/2025"] ++ [on_date "06/02/2025"])) :: [])
          = true) as H3 by (vm_compute; reflexivity).
  assert (filter_excel_data fse_files "fse.xlsx"
            ([Single zone_6] ++ Group (mkGroup [on_date "05/02/2025"]) :: []) None
          = (fse_files, Ok (mkDF ["Zone"; "Timestamp"] [zone_row 0 (CStr "6A") (feb 5)])))
    as H4 by (vm_compute; reflexivity).
  assert (filter_excel_data fse_files "fse.xlsx"
            ([Single zone_6]
             ++ Group (mkGroup ([on_date "05/02/2025"] ++ [on_date "06/02/2025"])) :: [])
            None = (fse_files, Ok fse_filtered)) as H5 by (vm_compute; reflexivity).
  do 5 (split; [assumption|]).
  exact (group_more_alternatives _ _ _ _ _ _ _ _ _ _ _ _ H1 H2 H3 H4 H5).
Defined.


(** On the table none of whose dates is read, "date_equals" with the
    same date returns the all-false mask. *)
Example date_equals_on_unparsed_column :
  no_date_parsed visits before_feb_5 = true ∧
  (λ r, match r with Ok (_, m) => Some m | Raise _ => None end)
    (apply_filter_condition visits
       (mkCondition "Timestamp" (VCell (CStr "05/02/2025")) "date_equals" "%d/%m/%Y"))
  = Some [false; false].
Proof. split; vm_compute; reflexivity. Qed.

Lemma name_parts_words_witness :
  "hospital" ∈ name_parts (CStr " Ridge  HOSPITAL ") ∧
  "hospital" ≠ "" ∧
  (∀ c, c ∈ String.list_ascii_of_string "hospital" → isspace c = false) ∧
  lower "hospital" = "hospital".
Proof.
  assert ("hospital" ∈ name_parts (CStr " Ridge  HOSPITAL ")) as H1
    by (apply (bool_decide_unpack _); vm_compute; exact I).
  split; [exact H1|].
  exact (name_parts_words (CStr " Ridge  HOSPITAL ") "hospital" H1).
Defined.

Lemma is_similar_name_normalised_witness :
  list_to_set (split (lower "Ridge  Hospital"))
    =@{gset string} list_to_set (split (lower " HOSPITAL ridge hospital ")) ∧
  is_similar_name (CStr "Ridge  Hospital") (CStr "Ridge Hosp.") (Some 80)
  = is_similar_name (CStr " HOSPITAL ridge hospital ") (CStr "Ridge Hosp.") (Some 80) ∧
  is_similar_name (CStr "Ridge Hosp.") (CStr "Ridge  Hospital") (Some 80)
  = is_similar_name (CStr "Ridge Hosp.") (CStr " HOSPITAL ridge hospital ") (Some 80).
Proof.
  assert (list_to_set (split (lower "Ridge  Hospital"))
            =@{gset string} list_to_set (split (lower " HOSPITAL ridge hospital ")))
    as H1 by (vm_compute; reflexivity).
  split; [exact H1|].
  exact (is_similar_name_normalised _ _ (CStr "Ridge Hosp.") (Some 80) H1).
Defined.

Lemma lower_threshold_removes_more_witness :
  75 ≤ 80 ∧
  (∀ a b : cell,
     is_similar_name a b (Some 80) = true → is_similar_name a b (Some 75) = true) ∧
  (∀ (df : DataFrame) (names : list cell),
     rows (responses_filtered df names 75)
       `sublist_of` rows (responses_filtered df names 80)).
Proof.
  assert (75 ≤ 80) as H1 by lia.
  split; [exact H1|]. exact (lower_threshold_removes_more 80 75 H1).
Defined.

Lemma is_similar_name_itself_witness :
  isna (CStr "Ridge Hospital") = false ∧
  name_parts (CStr "Ridge Hospital") ≠ ∅ ∧
  (∀ p, p ∈ name_parts (CStr "Ridge Hospital") → 100 ≤ fuzz_ratio p p) ∧
  is_similar_name (CStr "Ridge Hospital") (CStr "Ridge Hospital") (Some 100) = true.
Proof.
  assert (isna (CStr "Ridge Hospital") = false) as H1 by reflexivity.
  assert (name_parts (CStr "Ridge Hospital") ≠ ∅) as H2
    by (apply (bool_decide_unpack _); vm_compute; exact I).
  assert (∀ p, p ∈ name_parts (CStr "Ridge Hospital") → 100 ≤ fuzz_ratio p p) as H3.
  { intros p _. simpl. unfold lcs_ratio. rewrite bool_decide_eq_true_2 by done. lia. }
  do 3 (split; [assumption|]).
  exact (is_similar_name_itself _ 100 H1 H2 H3).
Defined.

Lemma matched_with_first_witness :
  ridge_removed ∈ rows (removed_table responses_with_gaps survey_names 75) ∧
  ∃ r n before after,
    r ∈ rows responses_with_gaps ∧
    ridge_removed = set_cell "Matched With" n r ∧
    cell_at "Matched With" ridge_removed = n ∧
    survey_names = before ++ n :: after ∧
    is_similar_name (cell_at COLUMN_KEY r) n (Some 75) = true ∧
    ∀ m, m ∈ before → is_similar_name (cell_at COLUMN_KEY r) m (Some 75) = false.
Proof.
  assert (ridge_removed ∈ rows (removed_table responses_with_gaps survey_names 75)) as H1.
  { assert (rows (removed_table responses_with_gaps survey_names 75) = [ridge_removed])
      as -> by (vm_compute; reflexivity). left. }
  split; [exact H1|].
  exact (matched_with_first responses_with_gaps survey_names 75 ridge_removed H1).
Defined.

Lemma remove_duplicates_gives_up_witness :
  has_key_column fse_files RESPONSES_FILE
  && has_key_column fse_files REGISTRY_FILE
  && has_key_column fse_files SURVEILLANCE_FILE = false ∧
  remove_duplicates fse_files None = fse_files.
Proof.
  assert (has_key_column fse_files RESPONSES_FILE
          && has_key_column fse_files REGISTRY_FILE
          && has_key_column fse_files SURVEILLANCE_FILE = false) as H1
    by (vm_compute; reflexivity).
  split; [exact H1|]. exact (remove_duplicates_gives_up fse_files None H1).
Defined.

Lemma remove_duplicates_files_witness :
  read_file_safe survey_files RESPONSES_FILE = Some responses_with_gaps ∧
  read_file_safe survey_files REGISTRY_FILE = Some registry ∧
  read_file_safe survey_files SURVEILLANCE_FILE = Some surveillance ∧
  has_column responses_with_gaps COLUMN_KEY = true ∧
  has_column registry COLUMN_KEY = true ∧
  has_column surveillance COLUMN_KEY = true ∧
  remove_duplicates survey_files (Some 75) !! backup_file
  = Some (reset_index responses_with_gaps).
Proof.
  assert (read_file_safe survey_files RESPONSES_FILE = Some responses_with_gaps) as H1
    by (vm_compute; reflexivity).
  assert (read_file_safe survey_files REGISTRY_FILE = Some registry) as H2
    by (vm_compute; reflexivity).
  assert (read_file_safe survey_files SURVEILLANCE_FILE = Some surveillance) as H3
    by (vm_compute; reflexivity).
  assert (has_column responses_with_gaps COLUMN_KEY = true) as H4
    by (vm_compute; reflexivity).
  assert (has_column registry COLUMN_KEY = true) as H5 by (vm_compute; reflexivity).
  assert (has_column surveillance COLUMN_KEY = true) as H6 by (vm_compute; reflexivity).
  do 6 (split; [assumption|]).
  exact (proj1 (remove_duplicates_files survey_files 75 _ _ _ H1 H2 H3 H4 H5 H6)).
Defined.

(** Responses that already have a column "Matched With": the column is
    overwritten, the removed table has the columns of the responses. *)
Example existing_column_of_matches :
  removed_table responses_matched reference_names 75
  = mkDF [COLUMN_KEY; "Matched With"]
      [ mkRow 0 {[ COLUMN_KEY := CStr "Ridge Hospital";
                   "Matched With" := CStr "RIDGE  HOSPITAL" ]} ].
Proof. vm_compute. reflexivity. Qed.

(** The run of [remove_duplicates] on the example files: the kept
    responses, renumbered, and the removed one. *)
Example survey_run :
  (λ o, (λ df, cell_at COLUMN_KEY <$> rows df) <$> o)
    (remove_duplicates survey_files None !! output_file_name)
  = Some [CNaN; CStr "  "; CStr "Tamale Clinic"] ∧
  (λ o, (λ df, cell_at "Matched With" <$> rows df) <$> o)
    (remove_duplicates survey_files None !! removed_file)
  = Some [CStr "RIDGE  HOSPITAL"].
Proof. split; vm_compute; reflexivity. Qed.

Lemma unnamed_response_kept_witness :
  mkRow 1 {[ COLUMN_KEY := CNaN ]} ∈ rows responses_with_gaps ∧
  (isna (cell_at COLUMN_KEY (mkRow 1 {[ COLUMN_KEY := CNaN ]})) = true
   ∨ name_parts (cell_at COLUMN_KEY (mkRow 1 {[ COLUMN_KEY := CNaN ]})) = ∅) ∧
  matched survey_names 75 (mkRow 1 {[ COLUMN_KEY := CNaN ]}) = false ∧
  mkRow 1 {[ COLUMN_KEY := CNaN ]}
    ∈ rows (responses_filtered responses_with_gaps survey_names 75).
Proof.
  assert (mkRow 1 {[ COLUMN_KEY := CNaN ]} ∈ rows responses_with_gaps) as H1
    by (simpl; right; left).
  assert (isna (cell_at COLUMN_KEY (mkRow 1 {[ COLUMN_KEY := CNaN ]})) = true
          ∨ name_parts (cell_at COLUMN_KEY (mkRow 1 {[ COLUMN_KEY := CNaN ]})) = ∅) as H2
    by (left; vm_compute; reflexivity).
  do 2 (split; [assumption|]).
  exact (unnamed_response_kept responses_with_gaps survey_names 75 _ H1 H2).
Defined.

End Examples2.
